(** * observer.js: the reactive lifecycle binding of mobx-react

    A shallow embedding of [src/observer.js] and the properties of its
    lifecycle mixin, update gate, hook composer and decorator.

    JavaScript values are an inductive type; objects live in a store keyed
    by location, so that aliasing and in-place mutation are visible; the
    closures the file creates are defunctionalised ([code]) and applied by
    [call]; a computation is a function from the world to an outcome and a
    world, with exceptions as a second outcome. *)

From Stdlib Require Import PrimFloat.
From stdpp Require Import gmap strings list.

Open Scope string_scope.

(** ** Values *)

Definition loc := nat.

(** The five functions of the [reactiveMixin] object literal (line 69). *)
Inductive method :=
| componentWillMountM
| componentWillUnmountM
| componentDidMountM
| componentDidUpdateM
| shouldComponentUpdateM.

(** A function value carries the location of its function object (its
    identity, and where its properties are stored) and its code. *)
Inductive value :=
| VUndefined
| VNull
| VBool (b : bool)
| VNumber (n : float)
| VString (s : string)
| VObject (l : loc)
| VFunction (l : loc) (c : code)
with code :=
| CNative (id : nat)                      (* a function written elsewhere: user or host code *)
| CMixin (m : method)                     (* reactiveMixin.<m>, lines 70-189 *)
| CPatched (base mixinFunc : value)       (* the function expression of lines 59-62 *)
| CBound (f this : value)                 (* this.render.bind(this), line 79 *)
| CInitialRender (e : loc)                (* the arrow function of line 83 *)
| CReactiveRender (e : loc)               (* the arrow function of line 111 *)
| COnInvalidate (e : loc)                 (* the arrow function of line 84 *)
| CTracked (e : loc) (a : loc)            (* the arrow function of line 114 *)
| CObserver                               (* observer, line 195 *)
| CDecorator (arg1 : value)               (* the arrow function of line 203 *)
| CGetDefaultProps (componentClass : value)   (* line 227 *)
| CStatelessRender (componentClass : value)   (* line 228 *)
| CReactionTrack                          (* mobx: Reaction.prototype.track *)
| CReactionDispose.                       (* mobx: Reaction.prototype.dispose *)

Inductive jstype := TUndefined | TObject | TBoolean | TNumber | TString | TFunction.

Definition typeof (v : value) : jstype :=
  match v with
  | VUndefined => TUndefined
  | VNull => TObject
  | VBool _ => TBoolean
  | VNumber _ => TNumber
  | VString _ => TString
  | VObject _ => TObject
  | VFunction _ _ => TFunction
  end.

Definition jstype_eqb (a b : jstype) : bool :=
  match a, b with
  | TUndefined, TUndefined | TObject, TObject | TBoolean, TBoolean
  | TNumber, TNumber | TString, TString | TFunction, TFunction => true
  | _, _ => false
  end.

Definition is_function (v : value) : bool :=
  match v with VFunction _ _ => true | _ => false end.

(** ToBoolean: undefined, null, false, 0, -0, NaN and the empty string are falsy. *)
Definition truthy (v : value) : bool :=
  match v with
  | VUndefined | VNull => false
  | VBool b => b
  | VNumber n => negb (PrimFloat.eqb n 0 || negb (PrimFloat.eqb n n))
  | VString s => negb (String.eqb s "")
  | VObject _ | VFunction _ _ => true
  end.

(** [a === b]: numbers by IEEE equality (NaN differs from itself), objects
    and functions by identity. *)
Definition strict_eq (a b : value) : bool :=
  match a, b with
  | VUndefined, VUndefined => true
  | VNull, VNull => true
  | VBool x, VBool y => Bool.eqb x y
  | VNumber x, VNumber y => PrimFloat.eqb x y
  | VString x, VString y => String.eqb x y
  | VObject x, VObject y => Nat.eqb x y
  | VFunction x _, VFunction y _ => Nat.eqb x y
  | _, _ => false
  end.

(** [a || b] and [a && b] on already evaluated operands. *)
Definition js_or (a b : value) : value := if truthy a then a else b.
Definition js_and (a b : value) : value := if truthy a then b else a.

(** ** Objects *)

(** Own properties in enumeration order; [isArray] is what [Array.isArray]
    answers. The property list stands for what a property read sees, so a
    hook found on a prototype is a hook of the object. *)
Record object := mkObject {
  fields : list (string * value);
  isArray : bool
}.

Definition empty_object : object := mkObject [] false.

Fixpoint field (k : string) (fs : list (string * value)) : option value :=
  match fs with
  | [] => None
  | (k', v) :: rest => if String.eqb k' k then Some v else field k rest
  end.

(** Assignment keeps the position of an existing key and appends a new one. *)
Fixpoint put (k : string) (v : value) (fs : list (string * value)) : list (string * value) :=
  match fs with
  | [] => [(k, v)]
  | (k', v') :: rest =>
      if String.eqb k' k then (k, v) :: rest else (k', v') :: put k v rest
  end.

Definition keys (fs : list (string * value)) : list string := map fst fs.

(** ** Closure variables *)

(** The variables of one activation of [componentWillMount] that its arrow
    functions close over (lines 74-81, 83, 111). *)
Record scope := mkScope {
  s_this : value;
  s_initialName : value;
  s_rootNodeID : value;
  s_baseRender : value;
  s_reaction : value;
  s_isRenderingPending : bool;
  s_reactiveRender : value
}.

Definition set_reaction (r : value) (s : scope) : scope :=
  mkScope (s_this s) (s_initialName s) (s_rootNodeID s) (s_baseRender s) r
          (s_isRenderingPending s) (s_reactiveRender s).

Definition set_pending (b : bool) (s : scope) : scope :=
  mkScope (s_this s) (s_initialName s) (s_rootNodeID s) (s_baseRender s) (s_reaction s)
          b (s_reactiveRender s).

(** ** Observable effects and errors *)

Inductive exn :=
| Error (message : string)      (* new Error(message) *)
| TypeError                     (* raised by the language itself *)
| Raised (v : value).           (* anything thrown by foreign code *)

Inductive event :=
| EWarn (message : string)                         (* console.warn *)
| EEmit (payload : list (string * value))          (* renderReporter.emit *)
| EForceUpdate (this : value)                      (* React.Component.prototype.forceUpdate *)
| ECall (id : nat) (this : value) (args : list value)  (* a foreign function entered *)
| ENewReaction (r : value) (name : string)         (* new mobx.Reaction *)
| ETrack (r : value)                               (* reaction.track *)
| EDispose (r : value)                             (* reaction.dispose *)
| ECreateClass (spec : value)                      (* React.createClass *)
| EInject (storeNames : value).                    (* inject.apply(null, storeNames) *)

Inductive result (A : Type) :=
| Returns (a : A)
| Throws (e : exn).
Arguments Returns {A} a.
Arguments Throws {A} e.

(** The outcome of a computation: a value, a thrown exception, or the
    recursion bound of [call] reached. *)
Inductive outcome (A : Type) :=
| Ret (a : A)
| Exc (e : exn)
| OutOfFuel.
Arguments Ret {A} a.
Arguments Exc {A} e.
Arguments OutOfFuel {A}.

(** Fixed locations of the function objects that exist once per module. *)
Definition mixin_loc (m : method) : loc :=
  match m with
  | componentWillMountM => 0
  | componentWillUnmountM => 1
  | componentDidMountM => 2
  | componentDidUpdateM => 3
  | shouldComponentUpdateM => 4
  end.
Definition observer_loc : loc := 5.
Definition track_loc : loc := 6.
Definition dispose_loc : loc := 7.
Definition first_free : loc := 8.

Definition mixin_fn (m : method) : value := VFunction (mixin_loc m) (CMixin m).
Definition observer_fn : value := VFunction observer_loc CObserver.

(** [reactiveMixin[funcName]] (line 55). *)
Definition reactiveMixin (funcName : string) : value :=
  if String.eqb funcName "componentWillMount" then mixin_fn componentWillMountM
  else if String.eqb funcName "componentWillUnmount" then mixin_fn componentWillUnmountM
  else if String.eqb funcName "componentDidMount" then mixin_fn componentDidMountM
  else if String.eqb funcName "componentDidUpdate" then mixin_fn componentDidUpdateM
  else if String.eqb funcName "shouldComponentUpdate" then mixin_fn shouldComponentUpdateM
  else VUndefined.

(** ** The world

    [H] is the state of everything outside this module and outside the
    object store: the host framework's update queue, the tracker's
    dependency graph, the DOM, the clock. *)

Record World (H : Type) := mkWorld {
  isDevtoolsEnabled : bool;                          (* line 10 *)
  isUsingStaticRendering : value;                    (* line 12 *)
  componentByNodeRegistery : option (gmap loc value);(* line 15: a WeakMap, or undefined *)
  heap : gmap loc object;
  scopes : gmap loc scope;
  frames : gmap loc value;                           (* [rendering], line 113, per activation *)
  next : loc;
  trace : list event;
  host : H
}.
Arguments mkWorld {H}.
Arguments isDevtoolsEnabled {H}.
Arguments isUsingStaticRendering {H}.
Arguments componentByNodeRegistery {H}.
Arguments heap {H}.
Arguments scopes {H}.
Arguments frames {H}.
Arguments next {H}.
Arguments trace {H}.
Arguments host {H}.

(** A computation runs in a world and leaves a world. *)
Definition M (H A : Type) : Type := World H -> outcome A * World H.

Section Store.

Context {H : Type}.
Local Abbreviation World := (World H).
Local Abbreviation M := (M H).

(** *** Sequencing *)

Definition ret {A} (a : A) : M A := fun w => (Ret a, w).

Definition throw {A} (e : exn) : M A := fun w => (Exc e, w).

Definition out_of_fuel {A} : M A := fun w => (OutOfFuel, w).

Definition bind {A B} (m : M A) (k : A -> M B) : M B :=
  fun w =>
    match m w with
    | (Ret a, w') => k a w'
    | (Exc e, w') => (Exc e, w')
    | (OutOfFuel, w') => (OutOfFuel, w')
    end.

(** [try { body } finally { handler }], where [handler] is told whether
    [body] threw. An exception of the handler replaces the pending one. *)
Definition try_finally {A} (body : M A) (handler : bool -> M value) : M A :=
  fun w =>
    match body w with
    | (Ret a, w') =>
        match handler false w' with
        | (Ret _, w'') => (Ret a, w'')
        | (Exc e, w'') => (Exc e, w'')
        | (OutOfFuel, w'') => (OutOfFuel, w'')
        end
    | (Exc e, w') =>
        match handler true w' with
        | (Ret _, w'') => (Exc e, w'')
        | (Exc e', w'') => (Exc e', w'')
        | (OutOfFuel, w'') => (OutOfFuel, w'')
        end
    | (OutOfFuel, w') => (OutOfFuel, w')
    end.

(** What foreign code returned or threw, as the outcome of the call. *)
Definition lift {A} (r : result A) : outcome A :=
  match r with Returns a => Ret a | Throws e => Exc e end.

(** *** Updating one component of the world *)

Definition with_devtools (b : bool) (w : World) : World :=
  mkWorld b (isUsingStaticRendering w) (componentByNodeRegistery w) (heap w) (scopes w)
          (frames w) (next w) (trace w) (host w).

Definition with_static (v : value) (w : World) : World :=
  mkWorld (isDevtoolsEnabled w) v (componentByNodeRegistery w) (heap w) (scopes w)
          (frames w) (next w) (trace w) (host w).

Definition with_registry (r : option (gmap loc value)) (w : World) : World :=
  mkWorld (isDevtoolsEnabled w) (isUsingStaticRendering w) r (heap w) (scopes w)
          (frames w) (next w) (trace w) (host w).

Definition with_heap (h : gmap loc object) (w : World) : World :=
  mkWorld (isDevtoolsEnabled w) (isUsingStaticRendering w) (componentByNodeRegistery w) h
          (scopes w) (frames w) (next w) (trace w) (host w).

Definition with_scopes (s : gmap loc scope) (w : World) : World :=
  mkWorld (isDevtoolsEnabled w) (isUsingStaticRendering w) (componentByNodeRegistery w)
          (heap w) s (frames w) (next w) (trace w) (host w).

Definition with_frames (f : gmap loc value) (w : World) : World :=
  mkWorld (isDevtoolsEnabled w) (isUsingStaticRendering w) (componentByNodeRegistery w)
          (heap w) (scopes w) f (next w) (trace w) (host w).

Definition with_next (n : loc) (w : World) : World :=
  mkWorld (isDevtoolsEnabled w) (isUsingStaticRendering w) (componentByNodeRegistery w)
          (heap w) (scopes w) (frames w) n (trace w) (host w).

Definition with_trace (t : list event) (w : World) : World :=
  mkWorld (isDevtoolsEnabled w) (isUsingStaticRendering w) (componentByNodeRegistery w)
          (heap w) (scopes w) (frames w) (next w) t (host w).

Definition with_host (h : H) (w : World) : World :=
  mkWorld (isDevtoolsEnabled w) (isUsingStaticRendering w) (componentByNodeRegistery w)
          (heap w) (scopes w) (frames w) (next w) (trace w) h.

(** *** The object store *)

(** The object at a location; a location never written holds an object
    without properties. *)
Definition obj_at (w : World) (l : loc) : object :=
  match heap w !! l with Some o => o | None => empty_object end.

Definition read_field (w : World) (l : loc) (k : string) : value :=
  match field k (fields (obj_at w l)) with Some v => v | None => VUndefined end.

Definition write_field (l : loc) (k : string) (v : value) (w : World) : World :=
  with_heap (<[l := mkObject (put k v (fields (obj_at w l))) (isArray (obj_at w l))]> (heap w)) w.

(** [o[k]]: a TypeError on undefined and null. The wrapper objects of
    booleans, numbers and strings are not modelled: they have no property. *)
Definition get (o : value) (k : string) : M value :=
  fun w =>
    match o with
    | VUndefined | VNull => (Exc TypeError, w)
    | VObject l | VFunction l _ => (Ret (read_field w l k), w)
    | _ => (Ret VUndefined, w)
    end.

(** [o[k] = v] in strict code: a TypeError on anything that is not an object. *)
Definition set (o : value) (k : string) (v : value) : M value :=
  fun w =>
    match o with
    | VObject l | VFunction l _ => (Ret v, write_field l k v w)
    | _ => (Exc TypeError, w)
    end.

(** [Object.keys(o)]: the own keys of an object in enumeration order, a
    TypeError on undefined and null. The index keys of a string are not
    modelled: a primitive has no key. *)
Definition object_keys (o : value) : M (list string) :=
  fun w =>
    match o with
    | VUndefined | VNull => (Exc TypeError, w)
    | VObject l | VFunction l _ => (Ret (keys (fields (obj_at w l))), w)
    | _ => (Ret [], w)
    end.

(** [Array.isArray(o)]. *)
Definition is_array (o : value) : M bool :=
  fun w =>
    match o with
    | VObject l => (Ret (isArray (obj_at w l)), w)
    | _ => (Ret false, w)
    end.

(** An object literal or [new] evaluated: a fresh object. *)
Definition alloc_object (o : object) : M value :=
  fun w => (Ret (VObject (next w)), with_next (S (next w)) (with_heap (<[next w := o]> (heap w)) w)).

(** A function expression evaluated: a fresh function object. *)
Definition alloc_function (c : code) : M value :=
  fun w => (Ret (VFunction (next w) c),
            with_next (S (next w)) (with_heap (<[next w := empty_object]> (heap w)) w)).

(** *** Closure variables and the trace *)

Definition new_scope (s : scope) : M loc :=
  fun w => (Ret (next w), with_next (S (next w)) (with_scopes (<[next w := s]> (scopes w)) w)).

Definition scope_at (w : World) (e : loc) : scope :=
  match scopes w !! e with
  | Some s => s
  | None => mkScope VUndefined VUndefined VUndefined VUndefined VNull false VUndefined
  end.

Definition read_scope (e : loc) : M scope := fun w => (Ret (scope_at w e), w).

Definition update_scope (e : loc) (f : scope -> scope) : M value :=
  fun w => (Ret VUndefined, with_scopes (<[e := f (scope_at w e)]> (scopes w)) w).

(** The variable [rendering] of one activation of [reactiveRender] (line 113). *)
Definition new_frame (v : value) : M loc :=
  fun w => (Ret (next w), with_next (S (next w)) (with_frames (<[next w := v]> (frames w)) w)).

Definition read_frame (a : loc) : M value :=
  fun w => (Ret (match frames w !! a with Some v => v | None => VUndefined end), w).

Definition write_frame (a : loc) (v : value) : M value :=
  fun w => (Ret v, with_frames (<[a := v]> (frames w)) w).

(** An effect on a collaborator, recorded in the order it happens. *)
Definition log (ev : event) : M value :=
  fun w => (Ret VUndefined, with_trace (trace w ++ [ev]) w).

Definition devtools : M bool := fun w => (Ret (isDevtoolsEnabled w), w).

Definition static_rendering : M value := fun w => (Ret (isUsingStaticRendering w), w).

(** A call that acts on the outside state only. *)
Definition on_host {A} (f : H -> result A * H) : M A :=
  fun w => let '(r, h) := f (host w) in (lift r, with_host h w).

(** [registry.set(key, v)] of a WeakMap: only objects are keys. *)
Definition weakmap_set (key v : value) : M value :=
  fun w =>
    match componentByNodeRegistery w, key with
    | Some m, (VObject l | VFunction l _) => (Ret VUndefined, with_registry (Some (<[l := v]> m)) w)
    | Some _, _ => (Exc TypeError, w)
    | None, _ => (Exc TypeError, w)
    end.

(** [registry.delete(key)]. *)
Definition weakmap_delete (key : value) : M value :=
  fun w =>
    match componentByNodeRegistery w, key with
    | Some m, (VObject l | VFunction l _) => (Ret VUndefined, with_registry (Some (delete l m)) w)
    | Some _, _ => (Ret VUndefined, w)
    | None, _ => (Exc TypeError, w)
    end.

(** Whether [componentByNodeRegistery] is truthy. *)
Definition registry_defined : M bool :=
  fun w => (Ret (match componentByNodeRegistery w with Some _ => true | None => false end), w).

(** The [i]th argument of a call; a missing argument is undefined. *)
Definition arg (i : nat) (args : list value) : value := nth i args VUndefined.

End Store.

Notation "x <- m ;; k" := (bind m (fun x => k))
  (at level 100, m at next level, right associativity).
Notation "m ;;; k" := (bind m (fun _ => k))
  (at level 100, right associativity).

(** ** What lies outside the file

    The host framework, the tracker, the language's own conversions and
    the user's functions are parameters of the model. So is [inject]
    (the module [./inject] of the repository). [renderReporter], an
    [EventEmitter] of [./utils/EventEmitter], is modelled by the trace:
    [emit] records its payload. *)
Class Host (H : Type) := mkHost {
  (** Functions written elsewhere act on the outside state and return or throw. *)
  native : nat -> value -> list value -> H -> result value * H;
  (** [React.Component.prototype.forceUpdate.call(component)]. *)
  host_forceUpdate : value -> H -> result value * H;
  (** The [ReactDOM] import (absent on hosts without a DOM) and its [findDOMNode]. *)
  ReactDOM : option (value -> H -> result value * H);
  (** [Date.now()]. *)
  host_now : H -> value * H;
  (** The binary [-] of the language, applied to two evaluated operands. *)
  js_minus : value -> value -> value;
  (** ToString of numbers, objects and functions inside a template literal. *)
  ext_to_string : value -> string;
  (** [mobx.isObservable]. *)
  isObservable : value -> H -> bool;
  (** [React.Component.isPrototypeOf]. *)
  isPrototypeOfComponent : value -> bool;
  (** Whether [typeof WeakMap] is not ["undefined"]. *)
  hasWeakMap : bool;
  (** [React.createClass] and [inject] build component classes: they may
      allocate, so they act on the whole world. *)
  host_createClass : value -> World H -> result value * World H;
  host_inject : value -> World H -> result value * World H
}.

Section Model.

Context {H : Type} {X : Host H}.
Local Abbreviation World := (World H).
Local Abbreviation M := (M H).

(** *** Calls that leave the module *)

(** A function written elsewhere, entered with [this] and its arguments.
    Such a function acts on the outside state; it does not call back
    into the instance. *)
Definition foreign (id : nat) (this : value) (args : list value) : M value :=
  log (ECall id this args) ;;; on_host (native id this args).

(** [React.Component.prototype.forceUpdate.call(this)] (line 98). The
    host schedules the render; the render itself is the host calling
    [this.render()], a step of its own. This is the host inside a
    batched update; a host that renders before [forceUpdate] returns
    (so that line 112 runs inside the [try] of line 97) is not
    modelled. *)
Definition forceUpdate (this : value) : M value :=
  log (EForceUpdate this) ;;; on_host (host_forceUpdate this).

(** [Date.now()]. *)
Definition Date_now : M value :=
  on_host (fun h => let '(v, h') := host_now h in (Returns v, h')).

(** [mobx.isObservable(v)]. *)
Definition mobx_isObservable (v : value) : M bool :=
  fun w => (Ret (isObservable v (host w)), w).

(** [React.createClass(spec)]. *)
Definition React_createClass (spec : value) : M value :=
  log (ECreateClass spec) ;;;
  fun w => let '(r, w') := host_createClass spec w in (lift r, w').

(** [inject.apply(null, storeNames)]. *)
Definition inject_apply (storeNames : value) : M value :=
  log (EInject storeNames) ;;;
  fun w => let '(r, w') := host_inject storeNames w in (lift r, w').

(** [new mobx.Reaction(name, onInvalidate)]: the tracker's reaction, an
    object with its two methods, not disposed. *)
Definition new_Reaction (name : string) (onInvalidate : value) : M value :=
  r <- alloc_object (mkObject [("name", VString name);
                               ("onInvalidate", onInvalidate);
                               ("isDisposed", VBool false);
                               ("track", VFunction track_loc CReactionTrack);
                               ("dispose", VFunction dispose_loc CReactionDispose)] false) ;;
  log (ENewReaction r name) ;;;
  ret r.

(** ToString inside a template literal. *)
Definition to_string (v : value) : string :=
  match v with
  | VUndefined => "undefined"
  | VNull => "null"
  | VBool true => "true"
  | VBool false => "false"
  | VString s => s
  | _ => ext_to_string v
  end.

(** ** The source, function by function *)

Section Bodies.

(** [f.call(this, ...args)] for a function value [f]; tied to [run_code]
    by [call] below. *)
Variable call : value -> value -> list value -> M value.

(** [o.name(...args)]. *)
Definition invoke (o : value) (name : string) (args : list value) : M value :=
  f <- get o name ;;
  call f o args.

(** Lines 18-22. *)
Definition findDOMNode (component : value) : M value :=
  match ReactDOM with
  | Some find => on_host (find component)
  | None => ret VNull
  end.

(** Lines 24-36. *)
Definition reportRendering (component : value) : M value :=
  node <- findDOMNode component ;;
  reg <- registry_defined ;;
  (if truthy node && reg then weakmap_set node component else ret VUndefined) ;;;
  renderEnd <- get component "__$mobRenderEnd" ;;
  renderStart <- get component "__$mobRenderStart" ;;
  now <- Date_now ;;
  renderStart' <- get component "__$mobRenderStart" ;;
  log (EEmit [("event", VString "render");
              ("renderTime", js_minus renderEnd renderStart);
              ("totalTime", js_minus now renderStart');
              ("component", component);
              ("node", node)]) ;;;
  ret VUndefined.

(** Lines 38-43. *)
Definition trackComponents : M value :=
  if negb hasWeakMap
  then throw (Error "[mobx-react] tracking components is not supported in this browser.")
  else
    d <- devtools ;;
    if negb d then (fun w => (Ret VUndefined, with_devtools true w)) else ret VUndefined.

(** Lines 45-47. *)
Definition useStaticRendering (useStaticRendering : value) : M value :=
  fun w => (Ret VUndefined, with_static useStaticRendering w).

(** Lines 53-64. *)
Definition patch (target : value) (funcName : string) : M value :=
  base <- get target funcName ;;
  let mixinFunc := reactiveMixin funcName in
  if negb (truthy base) then
    set target funcName mixinFunc ;;; ret VUndefined
  else
    combined <- alloc_function (CPatched base mixinFunc) ;;
    set target funcName combined ;;; ret VUndefined.

(** Lines 59-62: the combined hook. [apply] of a value that is not a
    function is the TypeError of [call]. *)
Definition patched (base mixinFunc this : value) (arguments : list value) : M value :=
  call base this arguments ;;;
  call mixinFunc this arguments ;;;
  ret VUndefined.

(** Lines 111-124. *)
Definition reactiveRender (e : loc) : M value :=
  update_scope e (set_pending false) ;;;
  rendering <- new_frame VUndefined ;;
  body <- alloc_function (CTracked e rendering) ;;
  s <- read_scope e ;;
  invoke (s_reaction s) "track" [body] ;;;
  read_frame rendering.

(** Lines 114-122: the function handed to [reaction.track];
    [mobx.extras.allowStateChanges(false, baseRender)] calls [baseRender]. *)
Definition tracked (e rendering : loc) : M value :=
  s <- read_scope e ;;
  d <- devtools ;;
  (if d then (now <- Date_now ;; set (s_this s) "__$mobRenderStart" now) else ret VUndefined) ;;;
  r <- call (s_baseRender s) VUndefined [] ;;
  write_frame rendering r ;;;
  d' <- devtools ;;
  (if d' then (now <- Date_now ;; set (s_this s) "__$mobRenderEnd" now) else ret VUndefined) ;;;
  ret VUndefined.

(** Lines 84-105: what the reaction runs when a dependency changed. *)
Definition onInvalidate (e : loc) : M value :=
  s <- read_scope e ;;
  if negb (s_isRenderingPending s) then
    update_scope e (set_pending true) ;;;
    hook <- get (s_this s) "componentWillReact" ;;
    (if is_function hook then invoke (s_this s) "componentWillReact" [] else ret VUndefined) ;;;
    unmounted <- get (s_this s) "__$mobxIsUnmounted" ;;
    if negb (strict_eq unmounted (VBool true)) then
      try_finally
        (forceUpdate (s_this s))
        (fun hasError =>
           if hasError
           then (s' <- read_scope e ;; invoke (s_reaction s') "dispose" [])
           else ret VUndefined) ;;;
      ret VUndefined
    else ret VUndefined
  else ret VUndefined.

(** Lines 83-109. *)
Definition initialRender (e : loc) : M value :=
  s <- read_scope e ;;
  let name := to_string (s_initialName s) ++ "#" ++ to_string (s_rootNodeID s) ++ ".render()" in
  handler <- alloc_function (COnInvalidate e) ;;
  reaction <- new_Reaction name handler ;;
  update_scope e (set_reaction reaction) ;;;
  s' <- read_scope e ;;
  set (s_reactiveRender s') "$mobx" reaction ;;;
  set (s_this s') "render" (s_reactiveRender s') ;;;
  reactiveRender e.

(** [this.render.bind(this)], line 79: [bind] of a function is the
    language's; anything else is asked for its own [bind]. *)
Definition bind_render (this : value) : M value :=
  r <- get this "render" ;;
  if is_function r then alloc_function (CBound r this)
  else invoke r "bind" [this].

(** Lines 70-127. *)
Definition componentWillMount (this : value) : M value :=
  static <- static_rendering ;;
  if strict_eq static (VBool true) then ret VUndefined else
  displayName <- get this "displayName" ;;
  initialName <-
    (if truthy displayName then ret displayName else
     name <- get this "name" ;;
     if truthy name then ret name else
     ctor <- get this "constructor" ;;
     fromCtor <-
       (if truthy ctor then
          ctor' <- get this "constructor" ;;
          ctorDisplayName <- get ctor' "displayName" ;;
          if truthy ctorDisplayName then ret ctorDisplayName
          else (ctor'' <- get this "constructor" ;; get ctor'' "name")
        else ret ctor) ;;
     if truthy fromCtor then ret fromCtor else ret (VString "<component>")) ;;
  internal <- get this "_reactInternalInstance" ;;
  rootNodeID <-
    (if truthy internal
     then (internal' <- get this "_reactInternalInstance" ;; get internal' "_rootNodeID")
     else ret internal) ;;
  baseRender <- bind_render this ;;
  e <- new_scope (mkScope this initialName rootNodeID baseRender VNull false VUndefined) ;;
  initialRenderFn <- alloc_function (CInitialRender e) ;;
  reactiveRenderFn <- alloc_function (CReactiveRender e) ;;
  update_scope e (fun s => mkScope (s_this s) (s_initialName s) (s_rootNodeID s)
                                   (s_baseRender s) (s_reaction s)
                                   (s_isRenderingPending s) reactiveRenderFn) ;;;
  set this "render" initialRenderFn ;;;
  ret VUndefined.

(** Lines 129-145. *)
Definition componentWillUnmount (this : value) : M value :=
  static <- static_rendering ;;
  if strict_eq static (VBool true) then ret VUndefined else
  render <- get this "render" ;;
  reaction <- get render "$mobx" ;;
  (if truthy reaction then
     render' <- get this "render" ;;
     reaction' <- get render' "$mobx" ;;
     invoke reaction' "dispose" []
   else ret reaction) ;;;
  set this "__$mobxIsUnmounted" (VBool true) ;;;
  d <- devtools ;;
  if d then
    node <- findDOMNode this ;;
    reg <- registry_defined ;;
    (if truthy node && reg then weakmap_delete node else ret VUndefined) ;;;
    log (EEmit [("event", VString "destroy"); ("component", this); ("node", node)]) ;;;
    ret VUndefined
  else ret VUndefined.

(** Lines 147-151. *)
Definition componentDidMount (this : value) : M value :=
  d <- devtools ;;
  if d then reportRendering this else ret VUndefined.

(** Lines 153-157. *)
Definition componentDidUpdate (this : value) : M value :=
  d <- devtools ;;
  if d then reportRendering this else ret VUndefined.

(** Lines 173-187: the loop over [keys], entered with [i = n - 1]. Its
    condition [i >= 0, key = keys[i]] is a comma expression: its value is
    [key], so the loop runs while [keys[i]] is truthy. It ends at
    [keys[-1]], which is undefined, and at an empty key. *)
Fixpoint gate_loop (this nextProps : value) (keys : list string) (n : nat) : M value :=
  match n with
  | 0 => ret (VBool false)
  | S i =>
      match keys !! i with
      | None => ret (VBool false)
      | Some key =>
          if negb (truthy (VString key)) then ret (VBool false) else
          newValue <- get nextProps key ;;
          props <- get this "props" ;;
          oldValue <- get props key ;;
          if negb (strict_eq newValue oldValue) then ret (VBool true) else
          plain <- (if truthy newValue && jstype_eqb (typeof newValue) TObject
                    then (o <- mobx_isObservable newValue ;; ret (negb o))
                    else ret false) ;;
          if plain then ret (VBool true)
          else gate_loop this nextProps keys i
      end
  end.

(** Lines 159-189. *)
Definition shouldComponentUpdate (this nextProps nextState : value) : M value :=
  static <- static_rendering ;;
  (if truthy static
   then log (EWarn "[mobx-react] It seems that a re-rendering of a React component is triggered while in static (server-side) mode. Please make sure components are rendered only once server-side.")
   else ret VUndefined) ;;;
  state <- get this "state" ;;
  if negb (strict_eq state nextState) then ret (VBool true) else
  props <- get this "props" ;;
  keys <- object_keys props ;;
  nextKeys <- object_keys nextProps ;;
  if negb (Nat.eqb (length keys) (length nextKeys)) then ret (VBool true) else
  gate_loop this nextProps keys (length keys).

(** Lines 218-221: is [componentClass] a function that is not a component class? *)
Definition is_stateless (componentClass : value) : M bool :=
  if negb (is_function componentClass) then ret false else
  proto <- get componentClass "prototype" ;;
  noRender <-
    (if negb (truthy proto) then ret true
     else (proto' <- get componentClass "prototype" ;;
           render <- get proto' "render" ;;
           ret (negb (truthy render)))) ;;
  if negb noRender then ret false else
  isReactClass <- get componentClass "isReactClass" ;;
  if truthy isReactClass then ret false else
  ret (negb (isPrototypeOfComponent componentClass)).

(** Lines 195-250. *)
Definition observer (arg1 arg2 : value) : M value :=
  if jstype_eqb (typeof arg1) TString then
    throw (Error "Store names should be provided as array")
  else
  array <- is_array arg1 ;;
  if array then
    if negb (truthy arg2) then alloc_function (CDecorator arg1)
    else
      injector <- inject_apply arg1 ;;
      observed <- call observer_fn VUndefined [arg2] ;;
      call injector VUndefined [observed]
  else
  let componentClass := arg1 in
  isInjector <- get componentClass "isInjector" ;;
  (if negb (strict_eq isInjector VUndefined) then
     isInjector' <- get componentClass "isInjector" ;;
     if truthy isInjector'
     then log (EWarn "Mobx Observer: You are trying to use 'observer' on a component that already has 'inject'. Please apply 'observer' before applying 'inject'")
     else ret VUndefined
   else ret VUndefined) ;;;
  stateless <- is_stateless componentClass ;;
  if stateless then
    displayName <- get componentClass "displayName" ;;
    displayName' <- (if truthy displayName then ret displayName else get componentClass "name") ;;
    propTypes <- get componentClass "propTypes" ;;
    contextTypes <- get componentClass "contextTypes" ;;
    getDefaultProps <- alloc_function (CGetDefaultProps componentClass) ;;
    render <- alloc_function (CStatelessRender componentClass) ;;
    spec <- alloc_object (mkObject [("displayName", displayName');
                                    ("propTypes", propTypes);
                                    ("contextTypes", contextTypes);
                                    ("getDefaultProps", getDefaultProps);
                                    ("render", render)] false) ;;
    wrapper <- React_createClass spec ;;
    call observer_fn VUndefined [wrapper]
  else
  if negb (truthy componentClass) then
    throw (Error "Please pass a valid component to 'observer'")
  else
  proto <- get componentClass "prototype" ;;
  let target := js_or proto componentClass in
  patch target "componentWillMount" ;;;
  patch target "componentWillUnmount" ;;;
  patch target "componentDidMount" ;;;
  patch target "componentDidUpdate" ;;;
  gate <- get target "shouldComponentUpdate" ;;
  (if negb (truthy gate)
   then set target "shouldComponentUpdate" (reactiveMixin "shouldComponentUpdate")
   else ret VUndefined) ;;;
  set componentClass "isMobXReactObserver" (VBool true) ;;;
  ret componentClass.

(** Lines 227 and 228: the two functions of the synthesized class. *)
Definition getDefaultProps (componentClass : value) : M value :=
  get componentClass "defaultProps".

Definition stateless_render (componentClass this : value) : M value :=
  props <- get this "props" ;;
  context <- get this "context" ;;
  call componentClass this [props; context].

(** The tracker's two methods: [track] runs the function it is given,
    [dispose] marks the reaction disposed. *)
Definition reaction_track (this : value) (fn : value) : M value :=
  log (ETrack this) ;;;
  call fn VUndefined [] ;;;
  ret VUndefined.

Definition reaction_dispose (this : value) : M value :=
  log (EDispose this) ;;;
  set this "isDisposed" (VBool true) ;;;
  ret VUndefined.

(** The body of each kind of function the file can be asked to call. *)
Definition run_code (c : code) (this : value) (args : list value) : M value :=
  match c with
  | CNative id => foreign id this args
  | CMixin componentWillMountM => componentWillMount this
  | CMixin componentWillUnmountM => componentWillUnmount this
  | CMixin componentDidMountM => componentDidMount this
  | CMixin componentDidUpdateM => componentDidUpdate this
  | CMixin shouldComponentUpdateM => shouldComponentUpdate this (arg 0 args) (arg 1 args)
  | CPatched base mixinFunc => patched base mixinFunc this args
  | CBound f boundThis => call f boundThis args
  | CInitialRender e => initialRender e
  | CReactiveRender e => reactiveRender e
  | COnInvalidate e => onInvalidate e
  | CTracked e rendering => tracked e rendering
  | CObserver => observer (arg 0 args) (arg 1 args)
  | CDecorator arg1 => call observer_fn VUndefined [arg1; arg 0 args]
  | CGetDefaultProps componentClass => getDefaultProps componentClass
  | CStatelessRender componentClass => stateless_render componentClass this
  | CReactionTrack => reaction_track this (arg 0 args)
  | CReactionDispose => reaction_dispose this
  end.

End Bodies.

(** Calling a value: a TypeError unless it is a function. At most [fuel]
    calls are nested. *)
Fixpoint call (fuel : nat) (f this : value) (args : list value) : M value :=
  match fuel with
  | 0 => out_of_fuel
  | S fuel' =>
      match f with
      | VFunction _ c => run_code (call fuel') c this args
      | _ => throw TypeError
      end
  end.

(** The tracker delivering an invalidation: a disposed reaction is never run. *)
Definition notify (fuel : nat) (reaction : value) : M value :=
  disposed <- get reaction "isDisposed" ;;
  if truthy disposed then ret VUndefined
  else invoke (call fuel) reaction "onInvalidate" [].

(** ** Vocabulary of the properties *)

(** The keys the loop of lines 173-187 visits, given the keys from last
    to first: it stops at the first empty one. *)
Fixpoint visited (keys_from_last : list string) : list string :=
  match keys_from_last with
  | [] => []
  | key :: rest => if String.eqb key "" then [] else key :: visited rest
  end.

(** The location behind an object or function value. *)
Definition ref_loc (v : value) : option loc :=
  match v with
  | VObject l | VFunction l _ => Some l
  | _ => None
  end.

(** The four hooks [observer] composes (lines 237-242). *)
Definition patched_hooks : list string :=
  ["componentWillMount"; "componentWillUnmount"; "componentDidMount"; "componentDidUpdate"].

(** The number of forced updates in a trace. *)
Fixpoint forced_updates (t : list event) : nat :=
  match t with
  | [] => 0
  | EForceUpdate _ :: rest => S (forced_updates rest)
  | _ :: rest => forced_updates rest
  end.

(** The number of renders the tracker ran in a trace. *)
Fixpoint renders (t : list event) : nat :=
  match t with
  | [] => 0
  | ETrack _ :: rest => S (renders rest)
  | _ :: rest => renders rest
  end.

(** The number of reactions disposed in a trace. *)
Fixpoint disposals (t : list event) : nat :=
  match t with
  | [] => 0
  | EDispose _ :: rest => S (disposals rest)
  | _ :: rest => disposals rest
  end.

(** The world after a function object was allocated. *)
Definition allocated (o : object) (w : World) : World :=
  with_next (S (next w)) (with_heap (<[next w := o]> (heap w)) w).

(** A value that is an object in the sense of line 177: truthy, of type
    ["object"], and not observable. *)
Definition plain_object (v : value) (h : H) : bool :=
  truthy v && jstype_eqb (typeof v) TObject && negb (isObservable v h).

(** What the gate decides about one key. *)
Definition key_forces_update (w : World) (lp ln : loc) (key : string) : bool :=
  negb (strict_eq (read_field w ln key) (read_field w lp key))
  || plain_object (read_field w ln key) (host w).

(** What the gate returns on an instance whose props and next props are
    objects: [true] on a state change or a different number of keys, and
    otherwise whether a visited key forces the update. In static mode a
    warning is logged first. *)
Definition gate_world (w : World) : World :=
  if truthy (isUsingStaticRendering w)
  then with_trace (trace w ++ [EWarn "[mobx-react] It seems that a re-rendering of a React component is triggered while in static (server-side) mode. Please make sure components are rendered only once server-side."]) w
  else w.

Definition gate_result (w : World) (l lp ln : loc) (nextState : value) : bool :=
  negb (strict_eq (read_field w l "state") nextState)
  || negb (Nat.eqb (length (keys (fields (obj_at w lp)))) (length (keys (fields (obj_at w ln)))))
  || existsb (key_forces_update w lp ln) (visited (rev (keys (fields (obj_at w lp))))).

(** The world [patch] leaves. *)
Definition patch_world (l : loc) (funcName : string) (w : World) : World :=
  if truthy (read_field w l funcName)
  then write_field l funcName
         (VFunction (next w) (CPatched (read_field w l funcName) (reactiveMixin funcName)))
         (allocated empty_object w)
  else write_field l funcName (reactiveMixin funcName) w.

(** [v[k]] for a truthy [v]. *)
Definition prop_of (w : World) (v : value) (k : string) : value :=
  match ref_loc v with
  | Some l => read_field w l k
  | None => VUndefined
  end.

(** [Array.isArray] as a function of the store. *)
Definition array_shape (w : World) (v : value) : bool :=
  match v with
  | VObject l => isArray (obj_at w l)
  | _ => false
  end.

(** The test of lines 218-221 as a function of the store. *)
Definition stateless_shape (w : World) (componentClass : value) : bool :=
  match componentClass with
  | VFunction l _ =>
      (negb (truthy (read_field w l "prototype"))
       || negb (truthy (prop_of w (read_field w l "prototype") "render")))
      && negb (truthy (read_field w l "isReactClass"))
      && negb (isPrototypeOfComponent componentClass)
  | _ => false
  end.

(** The world after the check of lines 211-213 on an object. *)
Definition injector_warned (lc : loc) (w : World) : World :=
  if negb (strict_eq (read_field w lc "isInjector") VUndefined)
     && truthy (read_field w lc "isInjector")
  then with_trace (trace w ++ [EWarn "Mobx Observer: You are trying to use 'observer' on a component that already has 'inject'. Please apply 'observer' before applying 'inject'"]) w
  else w.

(** The store after the four calls of [patch] on the object at [lt]. *)
Definition hooks_patched (lt : loc) (w : World) : World :=
  patch_world lt "componentDidUpdate"
    (patch_world lt "componentDidMount"
       (patch_world lt "componentWillUnmount"
          (patch_world lt "componentWillMount" w))).

(** [observer] on a component class, after the test for a stateless
    function failed: the world it leaves. *)
Definition decorated (lc lt : loc) (w : World) : World :=
  let w4 := hooks_patched lt (injector_warned lc w) in
  write_field lc "isMobXReactObserver" (VBool true)
    (if negb (truthy (read_field w4 lt "shouldComponentUpdate"))
     then write_field lt "shouldComponentUpdate" (reactiveMixin "shouldComponentUpdate") w4
     else w4).

(** The class specification [observer] hands to [React.createClass] for
    the function at [lf], allocated in [w]. *)
Definition stateless_spec (lf : loc) (c : code) (w : World) : object :=
  mkObject
    [("displayName", js_or (read_field w lf "displayName") (read_field w lf "name"));
     ("propTypes", read_field w lf "propTypes");
     ("contextTypes", read_field w lf "contextTypes");
     ("getDefaultProps", VFunction (next w) (CGetDefaultProps (VFunction lf c)));
     ("render", VFunction (S (next w)) (CStatelessRender (VFunction lf c)))]
    false.

(** The world in which [React.createClass] is called: the two function
    objects and the specification are allocated. *)
Definition spec_allocated (lf : loc) (c : code) (w : World) : World :=
  allocated (stateless_spec lf c w) (allocated empty_object (allocated empty_object w)).

(** The closure variables of [e] belong to the instance at [l], and a
    reaction of the tracker is attached: the state the first render
    leaves (lines 84-108). *)
Record tracking (w : World) (l e r : loc) : Prop := mkTracking {
  tr_this : s_this (scope_at w e) = VObject l;
  tr_reaction : s_reaction (scope_at w e) = VObject r;
  tr_track : read_field w r "track" = VFunction track_loc CReactionTrack;
  tr_dispose : read_field w r "dispose" = VFunction dispose_loc CReactionDispose
}.

(** [this.render] is the reactive render of [e], with the reaction as its [$mobx]. *)
Record rendering_reactively (w : World) (l e r lr : loc) : Prop := mkReactive {
  rr_render : read_field w l "render" = VFunction lr (CReactiveRender e);
  rr_mobx : read_field w lr "$mobx" = VObject r
}.

(** The world after the user's [componentWillReact], when the instance
    has none or has one written by the user that returns. *)
Definition after_componentWillReact (l : loc) (w : World) : option World :=
  match read_field w l "componentWillReact" with
  | VFunction _ (CNative id) =>
      match native id (VObject l) [] (host w) with
      | (Returns _, h) =>
          Some (with_host h (with_trace (trace w ++ [ECall id (VObject l) []]) w))
      | (Throws _, _) => None
      end
  | VFunction _ _ => None
  | _ => Some w
  end.

(** The pending-render flag of [e] set to [b]. *)
Definition pending (b : bool) (e : loc) (w : World) : World :=
  with_scopes (<[e := set_pending b (scope_at w e)]> (scopes w)) w.

Definition is_pending (w : World) (e : loc) : bool := s_isRenderingPending (scope_at w e).

Definition is_unmounted (w : World) (l : loc) : bool :=
  strict_eq (read_field w l "__$mobxIsUnmounted") (VBool true).

Definition is_disposed (w : World) (r : loc) : bool := truthy (read_field w r "isDisposed").

(** [w'] differs from [w] outside the store and the closure variables
    only, and no update was forced, no render run and no reaction
    disposed in between. *)
Record quiet (w w' : World) : Prop := mkQuiet {
  q_heap : heap w' = heap w;
  q_scopes : scopes w' = scopes w;
  q_forced : forced_updates (trace w') = forced_updates (trace w);
  q_renders : renders (trace w') = renders (trace w);
  q_disposals : disposals (trace w') = disposals (trace w)
}.

(** The instance's [componentWillReact] is absent or written by the user. *)
Definition user_hook (w : World) (l : loc) : Prop :=
  match read_field w l "componentWillReact" with
  | VFunction _ (CNative _) => True
  | VFunction _ _ => False
  | _ => True
  end.

(** The report of lines 134-144. *)
Definition report_destroyed (this : value) : M value :=
  d <- devtools ;;
  if d then
    node <- findDOMNode this ;;
    reg <- registry_defined ;;
    (if truthy node && reg then weakmap_delete node else ret VUndefined) ;;;
    log (EEmit [("event", VString "destroy"); ("component", this); ("node", node)]) ;;;
    ret VUndefined
  else ret VUndefined.

(** The world after [n] invalidations were delivered to [handler] in a
    row, whatever each returned or threw. *)
Fixpoint deliver (n : nat) (handler : M value) (w : World) : World :=
  match n with
  | 0 => w
  | S n' => deliver n' handler (snd (handler w))
  end.

(** The name of lines 74-77 and the id of line 78, as functions of the store. *)
Definition initial_name (w : World) (l : loc) : value :=
  let displayName := read_field w l "displayName" in
  if truthy displayName then displayName else
  let name := read_field w l "name" in
  if truthy name then name else
  let ctor := read_field w l "constructor" in
  let fromCtor :=
    if truthy ctor
    then (if truthy (prop_of w ctor "displayName")
          then prop_of w ctor "displayName" else prop_of w ctor "name")
    else ctor in
  if truthy fromCtor then fromCtor else VString "<component>".

Definition root_node_id (w : World) (l : loc) : value :=
  let internal := read_field w l "_reactInternalInstance" in
  if truthy internal then prop_of w internal "_rootNodeID" else internal.

(** The world [componentWillMount] leaves on an instance whose [render]
    is the function [render]: the bound render, the closure variables,
    the two arrow functions, and [this.render] replaced (lines 79-126). *)
Definition mounted_world (l : loc) (render : value) (w : World) : World :=
  let baseRender := VFunction (next w) (CBound render (VObject l)) in
  let e := S (next w) in
  let initialRenderFn := VFunction (S e) (CInitialRender e) in
  let reactiveRenderFn := VFunction (S (S e)) (CReactiveRender e) in
  let w1 := allocated empty_object w in
  let w2 := with_next (S e)
              (with_scopes (<[e := mkScope (VObject l) (initial_name w l) (root_node_id w l)
                                           baseRender VNull false VUndefined]> (scopes w1)) w1) in
  let w3 := allocated empty_object (allocated empty_object w2) in
  let w4 := with_scopes (<[e := mkScope (VObject l) (initial_name w l) (root_node_id w l)
                                        baseRender VNull false reactiveRenderFn]> (scopes w3)) w3 in
  write_field l "render" initialRenderFn w4.

(** The render of the instance at [l] is the user's function [id], bound
    to the instance (line 79). *)
Definition renders_with (w : World) (l e : loc) (id : nat) : Prop :=
  exists lb lu, s_baseRender (scope_at w e) = VFunction lb (CBound (VFunction lu (CNative id)) (VObject l)).

(** What a run of the reactive render changes: the closure variables not
    at all, the store in the two timestamps at most, the trace by the
    user's render entered once. *)
Record base_rendered (w w' : World) (l : loc) (id : nat) : Prop := mkBaseRendered {
  br_scopes : scopes w' = scopes w;
  br_next : next w' = next w;
  br_trace : trace w' = (trace w ++ [ECall id (VObject l) []])%list;
  br_store : forall l' k, k ≠ "__$mobRenderStart" -> k ≠ "__$mobRenderEnd" ->
                          read_field w' l' k = read_field w l' k
}.

(** Undefined or null: the values a property read throws on. *)
Definition nullish (v : value) : bool :=
  match v with VUndefined | VNull => true | _ => false end.

(** The number of reports emitted in a trace. *)
Fixpoint emits (t : list event) : nat :=
  match t with
  | [] => 0
  | EEmit _ :: rest => S (emits rest)
  | _ :: rest => emits rest
  end.

(** The component registered for a node in [componentByNodeRegistery]. *)
Definition registered (w : World) (node : loc) : option value :=
  match componentByNodeRegistery w with
  | Some m => m !! node
  | None => None
  end.

(** The outside state in which the user's [render] is entered by the
    reactive render: with the devtools on, the clock was read once
    before (line 116). *)
Definition render_host (w : World) : H :=
  if isDevtoolsEnabled w then snd (host_now (host w)) else host w.

(** What [findDOMNode] (lines 18-22) gets for a component: the host's
    answer, or null where there is no [ReactDOM]. *)
Definition found_node (component : value) (w : World) : result value * H :=
  match ReactDOM with
  | Some find => find component (host w)
  | None => (Returns VNull, host w)
  end.

(** The report of lines 29-35 for the component at [l], sent at time [now]. *)
Definition render_report (w : World) (l : loc) (node now : value) : list (string * value) :=
  [("event", VString "render");
   ("renderTime", js_minus (read_field w l "__$mobRenderEnd") (read_field w l "__$mobRenderStart"));
   ("totalTime", js_minus now (read_field w l "__$mobRenderStart"));
   ("component", VObject l);
   ("node", node)].

(** What no function of the module undoes: the two switches stay as
    they are, a set unmounted flag stays set and a disposed reaction
    stays disposed on the objects that exist, and, while the devtools
    are off, nothing is emitted and the registry is left alone. *)
Record kept (w w' : World) : Prop := mkKept {
  k_devtools : isDevtoolsEnabled w' = isDevtoolsEnabled w;
  k_static : isUsingStaticRendering w' = isUsingStaticRendering w;
  k_next : next w <= next w';
  k_unmounted : forall l, l < next w -> is_unmounted w l = true -> is_unmounted w' l = true;
  k_disposed : forall r, r < next w -> is_disposed w r = true -> is_disposed w' r = true;
  k_silent : isDevtoolsEnabled w = false ->
             componentByNodeRegistery w' = componentByNodeRegistery w /\
             emits (trace w') = emits (trace w)
}.

(** A computation that keeps all of this, in any world, or in the
    worlds where the devtools are on. *)
Definition keeps {A} (m : M A) : Prop := forall w, kept w (snd (m w)).

Definition keeps_on {A} (m : M A) : Prop :=
  forall w, isDevtoolsEnabled w = true -> kept w (snd (m w)).





(** The world after calls into the module made one after the other,
    whatever each returned or threw. *)
Fixpoint after_calls (calls : list (nat * value * value * list value)) (w : World) : World :=
  match calls with
  | [] => w
  | (fuel, f, this, args) :: rest => after_calls rest (snd (call fuel f this args w))
  end.

End Model.

(** ** A host and a component to run the model on *)

(** The host state counts the calls made into foreign code. *)
Definition demo_native (id : nat) (this : value) (args : list value) (h : nat)
  : result value * nat :=
  match id with
  | 0 => (Returns (VString "rendered"), S h)      (* the user's render *)
  | 1 => (Returns VUndefined, S h)                (* the user's componentWillReact *)
  | 2 => (Returns VUndefined, S h)                (* the user's componentWillMount *)
  | _ => (Throws (Raised (VString "failed")), S h)
  end.

Definition demo_forceUpdate (this : value) (h : nat) : result value * nat :=
  (Returns VUndefined, S h).

(** A host whose forced update throws. *)
Definition failing_forceUpdate (this : value) (h : nat) : result value * nat :=
  (Throws (Raised (VString "render failed")), S h).

Definition demo_ReactDOM : option (value -> nat -> result value * nat) := None.

Definition demo_now (h : nat) : value * nat := (VNumber 0, h).

Definition demo_minus (a b : value) : value := VNumber 0.

Definition demo_to_string (v : value) : string := "?".

Definition demo_isObservable (v : value) (h : nat) : bool := false.

Definition demo_isPrototypeOf (v : value) : bool := false.

(** [React.createClass]: a class whose prototype holds the [render] of
    the specification. *)
Definition demo_createClass (spec : value) (w : World nat) : result value * World nat :=
  match spec with
  | VObject s =>
      let proto := next w in
      let class := S (next w) in
      (Returns (VFunction class (CNative 7)),
       with_next (S class)
         (with_heap
            (<[class := mkObject [("prototype", VObject proto);
                                  ("displayName", read_field w s "displayName")] false]>
               (<[proto := mkObject [("render", read_field w s "render")] false]> (heap w)))
            w))
  | _ => (Throws TypeError, w)
  end.

Definition demo_inject (storeNames : value) (w : World nat) : result value * World nat :=
  (Returns (VFunction 9 (CNative 8)), w).

Definition demo_host : Host nat :=
  mkHost nat demo_native demo_forceUpdate demo_ReactDOM demo_now demo_minus demo_to_string
         demo_isObservable demo_isPrototypeOf true demo_createClass demo_inject.

Definition failing_host : Host nat :=
  mkHost nat demo_native failing_forceUpdate demo_ReactDOM demo_now demo_minus demo_to_string
         demo_isObservable demo_isPrototypeOf true demo_createClass demo_inject.

Definition demo_call : nat -> value -> value -> list value -> M nat value :=
  call (X := demo_host).

Definition failing_call : nat -> value -> value -> list value -> M nat value :=
  call (X := failing_host).

(** A store with a component instance at 10, its [render] the user's
    function at 11, its props at 12; a component class at 13 with its
    prototype at 14, which has a [render] and a [componentWillMount] of
    the user; a function component at 16. *)
Definition demo_heap : gmap loc object :=
  <[10 := mkObject [("render", VFunction 11 (CNative 0));
                    ("props", VObject 12);
                    ("state", VNull);
                    ("componentWillReact", VFunction 15 (CNative 1))] false]>
  (<[12 := mkObject [("title", VString "a"); ("count", VNumber 1)] false]>
  (<[13 := mkObject [("prototype", VObject 14); ("name", VString "Counter")] false]>
  (<[14 := mkObject [("render", VFunction 11 (CNative 0));
                     ("componentWillMount", VFunction 17 (CNative 2))] false]>
  (<[16 := mkObject [("name", VString "Label"); ("defaultProps", VObject 12)] false]>
  ∅)))).

Definition demo_world : World nat :=
  mkWorld false (VBool false) (Some ∅) demo_heap ∅ ∅ 20 [] 0.

Definition static_world : World nat := with_static (VBool true) demo_world.

(** The instance mounted, and then rendered once. *)
Definition mounted : World nat :=
  snd (componentWillMount (demo_call 1) (VObject 10) demo_world).

Definition rendered_once : World nat :=
  snd (demo_call 6 (read_field mounted 10 "render") (VObject 10) [] mounted).

(** The world after the user's [componentWillReact] ran on the rendered
    instance, the pending flag set. *)
Definition reacted : World nat :=
  match after_componentWillReact (X := demo_host) 10 (pending true 21 rendered_once) with
  | Some w => w
  | None => rendered_once
  end.

(** An instance at 30 whose props, at 31, are [{a: 1, "": 0}]; the next
    props, at 32, are [{a: 2, "": 0}]. *)
Definition empty_key_world : World nat :=
  mkWorld false (VBool false) (Some ∅)
    (<[30 := mkObject [("state", VNull); ("props", VObject 31)] false]>
    (<[31 := mkObject [("a", VNumber 1); ("", VNumber 0)] false]>
    (<[32 := mkObject [("a", VNumber 2); ("", VNumber 0)] false]> ∅)))
    ∅ ∅ 40 [] 0.

(** The world [React.createClass] leaves when [observer] wraps the
    function component at 16: the class at 24, its prototype at 23. *)
Definition wrapped_world : World nat :=
  snd (demo_createClass (VObject 22)
         (with_trace [ECreateClass (VObject 22)] (spec_allocated 16 (CNative 5) demo_world))).

(** The example store with an array of store names at 20. *)
Definition stores_world : World nat :=
  allocated (mkObject [("0", VString "counterStore")] true) demo_world.

(** The class at 13 marked as the result of [inject]. *)
Definition injector_world : World nat :=
  write_field 13 "isInjector" (VBool true) demo_world.

(** The rendered instance with a [componentWillReact] that throws. *)
Definition throwing_hook_world : World nat :=
  write_field 10 "componentWillReact" (VFunction 15 (CNative 3)) rendered_once.

(** A host with a DOM, in which every component has the node at 40, and
    with a clock that reads 100 at first and 130 later. *)
Definition dom_find (component : value) (h : nat) : result value * nat :=
  (Returns (VObject 40), h).

Definition dom_now (h : nat) : value * nat :=
  (VNumber (match h with 1 => 100%float | _ => 130%float end), S h).

Definition dom_minus (a b : value) : value :=
  match a, b with
  | VNumber x, VNumber y => VNumber (x - y)%float
  | _, _ => VUndefined
  end.

Definition dom_host : Host nat :=
  mkHost nat demo_native demo_forceUpdate (Some dom_find) dom_now dom_minus demo_to_string
         demo_isObservable demo_isPrototypeOf true demo_createClass demo_inject.

(** The rendered instance after [trackComponents], and after one more
    render on the host with a DOM. *)
Definition devtools_world : World nat := with_devtools true rendered_once.

Definition timed_world : World nat :=
  snd (reactiveRender (call (X := dom_host) 4) 21 devtools_world).

(** An instance at 30 whose props, at 31, are [{a: 1, "": 0, b: 2}]; the
    next props, at 32, are [{a: 5, "": 0, b: 2}]. *)
Definition hidden_change_world : World nat :=
  mkWorld false (VBool false) (Some ∅)
    (<[30 := mkObject [("state", VNull); ("props", VObject 31)] false]>
    (<[31 := mkObject [("a", VNumber 1); ("", VNumber 0); ("b", VNumber 2)] false]>
    (<[32 := mkObject [("a", VNumber 5); ("", VNumber 0); ("b", VNumber 2)] false]> ∅)))
    ∅ ∅ 40 [] 0.

(** ** Properties *)

Section Properties.

Context {H : Type} {X : Host H}.
Local Abbreviation World := (World H).
Local Abbreviation M := (M H).

Implicit Types (w : World).

Set Default Proof Using "Type".

(** *** Property lists and the object store *)

Lemma field_put_same k v fs : field k (put k v fs) = Some v.
Proof.
  induction fs as [|[k' v'] fs IH]; simpl.
  - by rewrite String.eqb_refl.
  - destruct (String.eqb k' k) eqn:E; simpl.
    + by rewrite String.eqb_refl.
    + by rewrite E.
Qed.

Lemma field_put_other k k' v fs : k ≠ k' -> field k' (put k v fs) = field k' fs.
Proof.
  intros Hne. induction fs as [|[k0 v0] fs IH]; simpl.
  - destruct (String.eqb k k') eqn:E; [|done].
    apply String.eqb_eq in E. congruence.
  - destruct (String.eqb k0 k) eqn:E; simpl.
    + apply String.eqb_eq in E. subst k0.
      destruct (String.eqb k k') eqn:E'; [|done].
      apply String.eqb_eq in E'. congruence.
    + by rewrite IH.
Qed.

Lemma keys_put_present k v fs : is_Some (field k fs) -> keys (put k v fs) = keys fs.
Proof.
  induction fs as [|[k0 v0] fs IH]; simpl.
  - by intros [? ?].
  - destruct (String.eqb k0 k) eqn:E; simpl.
    + apply String.eqb_eq in E. by subst.
    + intros Hs. f_equal. by apply IH.
Qed.

Lemma read_write_same l k v w : read_field (write_field l k v w) l k = v.
Proof.
  unfold read_field, write_field, obj_at. simpl.
  rewrite lookup_insert_eq. simpl. by rewrite field_put_same.
Qed.

Lemma read_write_other_key l l' k k' v w :
  k ≠ k' -> read_field (write_field l k v w) l' k' = read_field w l' k'.
Proof.
  intros Hk. unfold read_field, write_field, obj_at. simpl.
  destruct (decide (l = l')) as [->|Hl].
  - rewrite lookup_insert_eq. simpl. by rewrite field_put_other.
  - by rewrite lookup_insert_ne.
Qed.

Lemma read_write_other_loc l l' k k' v w :
  l ≠ l' -> read_field (write_field l k v w) l' k' = read_field w l' k'.
Proof.
  intros Hl. unfold read_field, write_field, obj_at. simpl.
  by rewrite lookup_insert_ne.
Qed.

(** Reading a property sees the store only. *)
Lemma read_with_devtools b w l k : read_field (with_devtools b w) l k = read_field w l k.
Proof. done. Qed.

Lemma read_with_static v w l k : read_field (with_static v w) l k = read_field w l k.
Proof. done. Qed.

Lemma read_with_registry r w l k : read_field (with_registry r w) l k = read_field w l k.
Proof. done. Qed.

Lemma read_with_scopes s w l k : read_field (with_scopes s w) l k = read_field w l k.
Proof. done. Qed.

Lemma read_with_frames f w l k : read_field (with_frames f w) l k = read_field w l k.
Proof. done. Qed.

Lemma read_with_next n w l k : read_field (with_next n w) l k = read_field w l k.
Proof. done. Qed.

Lemma read_with_trace t w l k : read_field (with_trace t w) l k = read_field w l k.
Proof. done. Qed.

Lemma read_with_host h w l k : read_field (with_host h w) l k = read_field w l k.
Proof. done. Qed.

Create Rewrite HintDb store.

#[local] Hint Rewrite read_with_devtools read_with_static read_with_registry read_with_scopes
  read_with_frames read_with_next read_with_trace read_with_host : store.

(** Reads of a property that the writes in between left alone. *)
Ltac read_past :=
  repeat first [ rewrite read_write_other_key by congruence
               | progress autorewrite with store ].

(** *** C5: static rendering *)

(** C5. When static rendering is active ([isUsingStaticRendering] is
    [true]), [componentWillMount] and [componentWillUnmount] return at
    once and leave the world as it was: the instance keeps its render
    function, no reaction is created or disposed, no flag is set and no
    event is emitted. The same holds when they are called as the
    functions of [reactiveMixin]. *)
Theorem static_rendering_bypasses_mount_and_unmount :
  forall (w : World) (fuel : nat) (this : value) (args : list value),
    isUsingStaticRendering w = VBool true ->
    componentWillMount (call fuel) this w = (Ret VUndefined, w) /\
    componentWillUnmount (call fuel) this w = (Ret VUndefined, w) /\
    call (S fuel) (mixin_fn componentWillMountM) this args w = (Ret VUndefined, w) /\
    call (S fuel) (mixin_fn componentWillUnmountM) this args w = (Ret VUndefined, w).
Proof.
  intros w fuel this args Hs.
  assert (Hm : componentWillMount (call fuel) this w = (Ret VUndefined, w)).
  { unfold componentWillMount, bind, static_rendering. by rewrite Hs. }
  assert (Hu : componentWillUnmount (call fuel) this w = (Ret VUndefined, w)).
  { unfold componentWillUnmount, bind, static_rendering. by rewrite Hs. }
  repeat split; try done.
Qed.

(** *** C3: the update gate *)

Lemma visited_all ks : Forall (fun key => key ≠ "") ks -> visited ks = ks.
Proof.
  induction 1 as [|key ks Hk _ IH]; simpl; [done|].
  destruct (String.eqb key "") eqn:E.
  - apply String.eqb_eq in E. done.
  - by rewrite IH.
Qed.

Lemma gate_loop_visits (w : World) (l lp ln : loc) (ks : list string) (n : nat) :
  read_field w l "props" = VObject lp ->
  n <= length ks ->
  gate_loop (VObject l) (VObject ln) ks n w
  = (Ret (VBool (existsb (key_forces_update w lp ln) (visited (rev (take n ks))))), w).
Proof.
  intros Hp. induction n as [|i IH]; intros Hn.
  - by rewrite take_0.
  - destruct (lookup_lt_is_Some_2 ks i ltac:(lia)) as [key Hkey].
    rewrite (take_S_r _ _ _ Hkey), rev_app_distr. simpl.
    rewrite Hkey. simpl.
    destruct (String.eqb key "") eqn:E; simpl; [done|].
    cbv [bind get ret mobx_isObservable]. rewrite Hp.
    unfold key_forces_update at 1, plain_object.
    destruct (strict_eq (read_field w ln key) (read_field w lp key)); simpl; [|done].
    destruct (truthy (read_field w ln key) && jstype_eqb (typeof (read_field w ln key)) TObject)
      eqn:Eo; simpl.
    + destruct (isObservable (read_field w ln key) (host w)); simpl; [|done].
      apply IH. lia.
    + apply IH. lia.
Qed.

Lemma existsb_pointwise {A} (f g : A -> bool) (xs : list A) :
  (forall x, f x = g x) -> existsb f xs = existsb g xs.
Proof. intros E. induction xs as [|x xs IH]; simpl; [done|]. by rewrite E, IH. Qed.

Lemma read_field_gate_world w l k : read_field (gate_world w) l k = read_field w l k.
Proof. unfold gate_world. by destruct (truthy _). Qed.

Lemma shouldComponentUpdate_result (w : World) (l lp ln : loc) (nextState : value) :
  read_field w l "props" = VObject lp ->
  shouldComponentUpdate (VObject l) (VObject ln) nextState w
  = (Ret (VBool (gate_result w l lp ln nextState)), gate_world w).
Proof.
  intros Hp. unfold shouldComponentUpdate, gate_result.
  assert (Hp' : read_field (gate_world w) l "props" = VObject lp)
    by by rewrite read_field_gate_world.
  assert (Ho : forall x, obj_at (gate_world w) x = obj_at w x).
  { intros x. unfold gate_world. by destruct (truthy _). }
  assert (Hh : host (gate_world w) = host w).
  { unfold gate_world. by destruct (truthy _). }
  assert (Hk : forall key, key_forces_update (gate_world w) lp ln key
                           = key_forces_update w lp ln key).
  { intros key. unfold key_forces_update, read_field. by rewrite !Ho, Hh. }
  pose proof (gate_loop_visits (gate_world w) l lp ln (keys (fields (obj_at w lp)))
                (length (keys (fields (obj_at w lp)))) Hp' ltac:(lia)) as Hloop.
  rewrite firstn_all in Hloop.
  rewrite (existsb_pointwise _ _ _ Hk) in Hloop.
  assert (Hw : forall A (k : value -> M A),
             bind (if truthy (isUsingStaticRendering w)
                   then log (EWarn "[mobx-react] It seems that a re-rendering of a React component is triggered while in static (server-side) mode. Please make sure components are rendered only once server-side.")
                   else ret VUndefined) k w = k VUndefined (gate_world w)).
  { intros A k. unfold gate_world, bind. by destruct (truthy _). }
  cbv [static_rendering]. unfold bind at 1. rewrite Hw.
  cbv [bind get object_keys ret]. rewrite read_field_gate_world.
  destruct (strict_eq (read_field w l "state") nextState); simpl; [|done].
  rewrite Hp', !Ho.
  destruct (Nat.eqb _ _); simpl; [|done].
  apply Hloop.
Qed.

Lemma existsb_false_Forall {A} (f : A -> bool) (xs : list A) :
  existsb f xs = false <-> Forall (fun x => f x = false) xs.
Proof.
  induction xs as [|x xs IH]; simpl.
  - split; [constructor|done].
  - rewrite orb_false_iff, IH, Forall_cons. done.
Qed.

Lemma Forall_rev_iff {A} (P : A -> Prop) (xs : list A) :
  Forall P (rev xs) <-> Forall P xs.
Proof.
  split; intros Hf.
  - rewrite <- (rev_involutive xs). by apply Forall_rev.
  - by apply Forall_rev.
Qed.

Lemma plain_object_strict_eq (a b : value) (h : H) :
  strict_eq a b = true -> plain_object a h = plain_object b h.
Proof.
  unfold plain_object.
  destruct a as [| | | | |x|], b as [| | | | |y|]; simpl;
    rewrite ?andb_false_r; try done.
  intros E. apply Nat.eqb_eq in E. by subst.
Qed.

(** X1. The gate on props without an empty key: it answers "skip" ([false])
    exactly when the state is the same value, the two props objects have
    as many keys, every key of the current props has the same value in
    the next props, and none of these values is a non-null value of type
    ["object"] that the tracker does not know as observable. *)
Theorem update_gate_skips_iff :
  forall (w : World) (l lp ln : loc) (nextState : value),
    read_field w l "props" = VObject lp ->
    Forall (fun key => key ≠ "") (keys (fields (obj_at w lp))) ->
    exists b : bool,
      shouldComponentUpdate (VObject l) (VObject ln) nextState w
      = (Ret (VBool b), gate_world w) /\
      (b = false <->
       strict_eq (read_field w l "state") nextState = true /\
       length (keys (fields (obj_at w lp))) = length (keys (fields (obj_at w ln))) /\
       Forall (fun key => strict_eq (read_field w ln key) (read_field w lp key) = true)
              (keys (fields (obj_at w lp))) /\
       Forall (fun key => plain_object (read_field w lp key) (host w) = false)
              (keys (fields (obj_at w lp)))).
Proof.
  intros w l lp ln nextState Hp Hne.
  exists (gate_result w l lp ln nextState). split.
  - by apply shouldComponentUpdate_result.
  - unfold gate_result.
    rewrite visited_all by (by apply Forall_rev).
    rewrite !orb_false_iff, !negb_false_iff, Nat.eqb_eq, existsb_false_Forall.
    rewrite Forall_rev_iff.
    assert (Hsplit : Forall (fun key => key_forces_update w lp ln key = false)
                            (keys (fields (obj_at w lp)))
                     <-> Forall (fun key => strict_eq (read_field w ln key) (read_field w lp key) = true)
                                (keys (fields (obj_at w lp)))
                         /\ Forall (fun key => plain_object (read_field w lp key) (host w) = false)
                                   (keys (fields (obj_at w lp)))).
    { rewrite <- Forall_and. apply Forall_iff. intros key.
      unfold key_forces_update. rewrite orb_false_iff, negb_false_iff.
      split.
      - intros [E P]. split; [done|]. by rewrite <- (plain_object_strict_eq _ _ _ E).
      - intros [E P]. split; [done|]. by rewrite (plain_object_strict_eq _ _ _ E). }
    rewrite Hsplit.
    split; [intros [[? ?] [? ?]]|intros (? & ? & ? & ?)]; repeat split; assumption.
Qed.

(** *** Running the primitives *)

Lemma bind_ret {A B} (a : A) (k : A -> M B) w : bind (ret a) k w = k a w.
Proof. done. Qed.

Lemma bind_assoc {A B C} (m : M A) (f : A -> M B) (g : B -> M C) w :
  bind (bind m f) g w = bind m (fun x => bind (f x) g) w.
Proof. unfold bind. destruct (m w) as [[a|e|] w']; done. Qed.

Lemma bind_throw {A B} (e : exn) (k : A -> M B) w : bind (throw e) k w = (Exc e, w).
Proof. done. Qed.

Lemma get_ref o l k w : ref_loc o = Some l -> get o k w = (Ret (read_field w l k), w).
Proof. destruct o; simpl; intros E; by inversion E. Qed.

Lemma set_ref o l k v w : ref_loc o = Some l -> set o k v w = (Ret v, write_field l k v w).
Proof. destruct o; simpl; intros E; by inversion E. Qed.

Lemma bind_get o l k {B} (f : value -> M B) w :
  ref_loc o = Some l -> bind (get o k) f w = f (read_field w l k) w.
Proof. intros E. unfold bind. by rewrite (get_ref _ _ _ _ E). Qed.

Lemma bind_set o l k v {B} (f : value -> M B) w :
  ref_loc o = Some l -> bind (set o k v) f w = f v (write_field l k v w).
Proof. intros E. unfold bind. by rewrite (set_ref _ _ _ _ _ E). Qed.

Lemma bind_alloc_function c {B} (f : value -> M B) w :
  bind (alloc_function c) f w = f (VFunction (next w) c) (allocated empty_object w).
Proof. done. Qed.

Lemma bind_alloc_object o {B} (f : value -> M B) w :
  bind (alloc_object o) f w = f (VObject (next w)) (allocated o w).
Proof. done. Qed.

Lemma bind_log ev {B} (f : value -> M B) w :
  bind (log ev) f w = f VUndefined (with_trace (trace w ++ [ev]) w).
Proof. done. Qed.

Lemma bind_read_scope e {B} (f : scope -> M B) w :
  bind (read_scope e) f w = f (scope_at w e) w.
Proof. done. Qed.

Lemma bind_update_scope e g {B} (f : value -> M B) w :
  bind (update_scope e g) f w
  = f VUndefined (with_scopes (<[e := g (scope_at w e)]> (scopes w)) w).
Proof. done. Qed.

Lemma bind_new_scope s {B} (f : loc -> M B) w :
  bind (new_scope s) f w
  = f (next w) (with_next (S (next w)) (with_scopes (<[next w := s]> (scopes w)) w)).
Proof. done. Qed.

Lemma bind_new_frame v {B} (f : loc -> M B) w :
  bind (new_frame v) f w
  = f (next w) (with_next (S (next w)) (with_frames (<[next w := v]> (frames w)) w)).
Proof. done. Qed.

Lemma bind_write_frame a v {B} (f : value -> M B) w :
  bind (write_frame a v) f w = f v (with_frames (<[a := v]> (frames w)) w).
Proof. done. Qed.

Lemma bind_devtools {B} (f : bool -> M B) w :
  bind devtools f w = f (isDevtoolsEnabled w) w.
Proof. done. Qed.

Lemma bind_static_rendering {B} (f : value -> M B) w :
  bind static_rendering f w = f (isUsingStaticRendering w) w.
Proof. done. Qed.

Lemma bind_runs {A B} (m : M A) (k : A -> M B) w :
  bind m k w
  = match m w with
    | (Ret a, w') => k a w'
    | (Exc e, w') => (Exc e, w')
    | (OutOfFuel, w') => (OutOfFuel, w')
    end.
Proof. done. Qed.

Lemma try_finally_runs {A} (body : M A) (handler : bool -> M value) w :
  try_finally body handler w
  = match body w with
    | (Ret a, w') =>
        match handler false w' with
        | (Ret _, w'') => (Ret a, w'')
        | (Exc e, w'') => (Exc e, w'')
        | (OutOfFuel, w'') => (OutOfFuel, w'')
        end
    | (Exc e, w') =>
        match handler true w' with
        | (Ret _, w'') => (Exc e, w'')
        | (Exc e', w'') => (Exc e', w'')
        | (OutOfFuel, w'') => (OutOfFuel, w'')
        end
    | (OutOfFuel, w') => (OutOfFuel, w')
    end.
Proof. done. Qed.

Lemma forceUpdate_runs this w :
  forceUpdate this w
  = (lift (fst (host_forceUpdate this (host w))),
     with_host (snd (host_forceUpdate this (host w)))
               (with_trace (trace w ++ [EForceUpdate this]) w)).
Proof.
  unfold forceUpdate. rewrite bind_log. unfold on_host. simpl.
  by destruct (host_forceUpdate this (host w)).
Qed.

Lemma foreign_runs id this args w :
  foreign id this args w
  = (lift (fst (native id this args (host w))),
     with_host (snd (native id this args (host w)))
               (with_trace (trace w ++ [ECall id this args]) w)).
Proof.
  unfold foreign. rewrite bind_log. unfold on_host. simpl.
  by destruct (native id this args (host w)).
Qed.

Lemma truthy_ref v : truthy v = true -> forall k w, exists x, get v k w = (Ret x, w).
Proof. destruct v; simpl; try done; eauto. Qed.

Lemma read_allocated o l k w : l ≠ next w -> read_field (allocated o w) l k = read_field w l k.
Proof.
  intros Hl. unfold read_field, allocated, obj_at. simpl. by rewrite lookup_insert_ne.
Qed.

Lemma read_allocated_new o k w :
  read_field (allocated o w) (next w) k = match field k (fields o) with Some v => v | None => VUndefined end.
Proof. unfold read_field, allocated, obj_at. simpl. by rewrite lookup_insert_eq. Qed.

Lemma next_write_field l k v w : next (write_field l k v w) = next w.
Proof. done. Qed.

Lemma next_allocated o w : next (allocated o w) = S (next w).
Proof. done. Qed.

(** *** C6: the hook composer *)

Lemma patch_runs target l funcName w :
  ref_loc target = Some l ->
  patch target funcName w = (Ret VUndefined, patch_world l funcName w).
Proof.
  intros E. unfold patch, patch_world. rewrite (bind_get _ _ _ _ _ E).
  destruct (truthy (read_field w l funcName)); simpl.
  - rewrite bind_alloc_function. by rewrite (bind_set _ _ _ _ _ _ E).
  - by rewrite (bind_set _ _ _ _ _ _ E).
Qed.

Lemma patch_world_hook l funcName w :
  read_field (patch_world l funcName w) l funcName
  = if truthy (read_field w l funcName)
    then VFunction (next w) (CPatched (read_field w l funcName) (reactiveMixin funcName))
    else reactiveMixin funcName.
Proof.
  unfold patch_world. destruct (truthy _); by rewrite read_write_same.
Qed.

Lemma patch_world_other l funcName l' k w :
  l' < next w -> k ≠ funcName ->
  read_field (patch_world l funcName w) l' k = read_field w l' k.
Proof.
  intros Hl Hk. unfold patch_world. destruct (truthy _).
  - rewrite read_write_other_key by done. apply read_allocated. lia.
  - by rewrite read_write_other_key.
Qed.

Lemma patch_world_next l funcName w : next w <= next (patch_world l funcName w).
Proof. unfold patch_world. destruct (truthy _); simpl; lia. Qed.

(** C6. [patch] on a target object: when the target has no hook of that
    name (the property is falsy), the mixin's function is stored under the
    name; when it has one, a new function is stored that, called with any
    [this] and arguments in any world, first calls the original hook with
    that [this] and those arguments, then, if it returned, calls the
    mixin's function with the same [this] and arguments in the world the
    original left, and returns undefined. *)
Theorem patch_installs_or_composes :
  forall (w : World) (target : value) (l : loc) (funcName : string),
    ref_loc target = Some l ->
    exists w' : World,
      patch target funcName w = (Ret VUndefined, w') /\
      (truthy (read_field w l funcName) = false ->
       read_field w' l funcName = reactiveMixin funcName) /\
      (truthy (read_field w l funcName) = true ->
       exists lf : loc,
         read_field w' l funcName
         = VFunction lf (CPatched (read_field w l funcName) (reactiveMixin funcName)) /\
         forall (fuel : nat) (this : value) (args : list value) (w0 : World),
           call (S fuel)
                (VFunction lf (CPatched (read_field w l funcName) (reactiveMixin funcName)))
                this args w0
           = match call fuel (read_field w l funcName) this args w0 with
             | (Ret _, w1) =>
                 match call fuel (reactiveMixin funcName) this args w1 with
                 | (Ret _, w2) => (Ret VUndefined, w2)
                 | other => other
                 end
             | other => other
             end).
Proof.
  intros w target l funcName E.
  exists (patch_world l funcName w). split; [by apply patch_runs|].
  rewrite patch_world_hook. split; intros Ht; rewrite Ht; [done|].
  eexists. split; [done|].
  intros fuel this args w0. simpl. unfold patched, bind.
  destruct (call fuel (read_field w l funcName) this args w0) as [[v|e|] w1]; done.
Qed.

(** *** C7, C8, C9: the decorator *)

Lemma get_truthy v k w : truthy v = true -> get v k w = (Ret (prop_of w v k), w).
Proof. destruct v; simpl; done. Qed.

Lemma is_stateless_runs componentClass w :
  is_stateless componentClass w = (Ret (stateless_shape w componentClass), w).
Proof.
  unfold is_stateless, stateless_shape.
  destruct componentClass as [| | | | | |l c]; try done.
  cbn [is_function negb].
  rewrite (bind_get _ l) by done.
  destruct (truthy (read_field w l "prototype")) eqn:Ep; cbn [negb orb].
  - rewrite bind_assoc, (bind_get _ l) by done.
    rewrite bind_assoc. unfold bind at 1. rewrite (get_truthy _ _ _ Ep).
    rewrite bind_ret.
    destruct (truthy (prop_of w (read_field w l "prototype") "render")); simpl; [done|].
    rewrite (bind_get _ l) by done.
    by destruct (truthy (read_field w l "isReactClass")).
  - rewrite bind_ret. simpl. rewrite (bind_get _ l) by done.
    by destruct (truthy (read_field w l "isReactClass")).
Qed.

Lemma read_injector_warned lc w l k : read_field (injector_warned lc w) l k = read_field w l k.
Proof. unfold injector_warned. by destruct (_ && _). Qed.

Lemma next_injector_warned lc w : next (injector_warned lc w) = next w.
Proof. unfold injector_warned. by destruct (_ && _). Qed.

Lemma is_array_runs v w : is_array v w = (Ret (array_shape w v), w).
Proof. by destruct v. Qed.

(** [observer] on an object that is not an array, up to the test for a
    stateless function. *)
Lemma observer_on_object fuel cc lc arg2 w :
  ref_loc cc = Some lc ->
  array_shape w cc = false ->
  observer (call fuel) cc arg2 w
  = (if stateless_shape w cc then
       displayName <- get cc "displayName" ;;
       displayName' <- (if truthy displayName then ret displayName
                        else get cc "name") ;;
       propTypes <- get cc "propTypes" ;;
       contextTypes <- get cc "contextTypes" ;;
       getDefaultProps <- alloc_function (CGetDefaultProps cc) ;;
       render <- alloc_function (CStatelessRender cc) ;;
       spec <- alloc_object (mkObject [("displayName", displayName');
                                       ("propTypes", propTypes);
                                       ("contextTypes", contextTypes);
                                       ("getDefaultProps", getDefaultProps);
                                       ("render", render)] false) ;;
       wrapper <- React_createClass spec ;;
       call fuel observer_fn VUndefined [wrapper]
     else
       proto <- get cc "prototype" ;;
       let target := js_or proto cc in
       patch target "componentWillMount" ;;;
       patch target "componentWillUnmount" ;;;
       patch target "componentDidMount" ;;;
       patch target "componentDidUpdate" ;;;
       gate <- get target "shouldComponentUpdate" ;;
       (if negb (truthy gate)
        then set target "shouldComponentUpdate" (reactiveMixin "shouldComponentUpdate")
        else ret VUndefined) ;;;
       set cc "isMobXReactObserver" (VBool true) ;;;
       ret cc) (injector_warned lc w).
Proof.
  intros Hc Ha. unfold observer.
  assert (Hty : jstype_eqb (typeof cc) TString = false) by by destruct cc.
  rewrite Hty. rewrite bind_runs, is_array_runs, Ha.
  rewrite (bind_get _ lc) by done.
  assert (Hwarn : forall B (k : value -> M B),
             bind (if negb (strict_eq (read_field w lc "isInjector") VUndefined)
                   then isInjector' <- get cc "isInjector" ;;
                        (if truthy isInjector'
                         then log (EWarn "Mobx Observer: You are trying to use 'observer' on a component that already has 'inject'. Please apply 'observer' before applying 'inject'")
                         else ret VUndefined)
                   else ret VUndefined) k w
             = k VUndefined (injector_warned lc w)).
  { intros B k. unfold injector_warned.
    destruct (strict_eq (read_field w lc "isInjector") VUndefined); simpl; [done|].
    rewrite bind_assoc, (bind_get _ lc) by done.
    destruct (truthy (read_field w lc "isInjector")); done. }
  rewrite Hwarn. rewrite bind_runs, is_stateless_runs.
  assert (Hs : stateless_shape (injector_warned lc w) cc = stateless_shape w cc).
  { unfold stateless_shape, prop_of. destruct cc as [| | | | | |l c]; try done.
    rewrite !read_injector_warned.
    destruct (ref_loc (read_field w l "prototype")); by rewrite ?read_injector_warned. }
  rewrite Hs. destruct (stateless_shape w cc) eqn:Es; [reflexivity|].
  assert (Htr : truthy cc = true) by by destruct cc.
  by rewrite Htr.
Qed.

Lemma patched_hooks_spec k :
  k ∈ patched_hooks <->
  k = "componentWillMount" \/ k = "componentWillUnmount"
  \/ k = "componentDidMount" \/ k = "componentDidUpdate".
Proof.
  unfold patched_hooks. rewrite !elem_of_cons, elem_of_nil.
  split; [intros [|[|[|[|[]]]]]|intros [|[|[|]]]]; auto.
Qed.

Lemma hooks_patched_other lt l k w :
  l < next w -> k ∉ patched_hooks ->
  read_field (hooks_patched lt w) l k = read_field w l k.
Proof.
  intros Hl Hk. unfold hooks_patched, patched_hooks in *.
  pose proof (patch_world_next lt "componentWillMount" w).
  pose proof (patch_world_next lt "componentWillUnmount" (patch_world lt "componentWillMount" w)).
  pose proof (patch_world_next lt "componentDidMount"
                (patch_world lt "componentWillUnmount" (patch_world lt "componentWillMount" w))).
  rewrite patched_hooks_spec in Hk.
  rewrite !patch_world_other; try done; try lia; intros ->; apply Hk;
    first [by left | by right; left | by right; right; left | by right; right; right].
Qed.

Lemma hooks_patched_hook lt funcName w :
  lt < next w -> funcName ∈ patched_hooks ->
  if truthy (read_field w lt funcName)
  then exists lf, read_field (hooks_patched lt w) lt funcName
                  = VFunction lf (CPatched (read_field w lt funcName) (reactiveMixin funcName))
  else read_field (hooks_patched lt w) lt funcName = reactiveMixin funcName.
Proof.
  intros Hl Hk. unfold hooks_patched.
  pose proof (patch_world_next lt "componentWillMount" w) as H1.
  pose proof (patch_world_next lt "componentWillUnmount"
                (patch_world lt "componentWillMount" w)) as H2.
  pose proof (patch_world_next lt "componentDidMount"
                (patch_world lt "componentWillUnmount"
                   (patch_world lt "componentWillMount" w))) as H3.
  unfold patched_hooks in Hk.
  repeat (apply elem_of_cons in Hk as [->|Hk]); [| | | |by apply elem_of_nil in Hk].
  - rewrite 3!patch_world_other by (done || lia).
    rewrite patch_world_hook. destruct (truthy _); eauto.
  - rewrite 2!patch_world_other by (done || lia).
    rewrite patch_world_hook.
    rewrite !patch_world_other by (done || lia). destruct (truthy _); eauto.
  - rewrite patch_world_other by (done || lia).
    rewrite patch_world_hook.
    rewrite !patch_world_other by (done || lia). destruct (truthy _); eauto.
  - rewrite patch_world_hook.
    rewrite !patch_world_other by (done || lia). destruct (truthy _); eauto.
Qed.

Lemma observer_decorates fuel cc lc arg2 target lt w :
  ref_loc cc = Some lc ->
  array_shape w cc = false ->
  stateless_shape w cc = false ->
  js_or (read_field w lc "prototype") cc = target ->
  ref_loc target = Some lt ->
  observer (call fuel) cc arg2 w = (Ret cc, decorated lc lt w).
Proof.
  intros Hc Ha Hs Ht Hl. rewrite (observer_on_object _ _ lc) by done. rewrite Hs.
  rewrite (bind_get _ lc) by done. rewrite read_injector_warned, Ht.
  rewrite bind_runs, (patch_runs _ _ _ _ Hl).
  rewrite bind_runs, (patch_runs _ _ _ _ Hl).
  rewrite bind_runs, (patch_runs _ _ _ _ Hl).
  rewrite bind_runs, (patch_runs _ _ _ _ Hl).
  fold (hooks_patched lt (injector_warned lc w)).
  rewrite (bind_get _ lt) by done.
  unfold decorated.
  destruct (truthy (read_field (hooks_patched lt (injector_warned lc w)) lt "shouldComponentUpdate"));
    cbn [negb].
  - rewrite bind_ret. by rewrite (bind_set _ lc).
  - rewrite bind_runs, (set_ref _ _ _ _ _ Hl). by rewrite (bind_set _ lc).
Qed.

(** C9. [observer] on a component class (a function that is not a
    stateless function, or an object that is not an array) whose hooks
    live in an allocated object (its prototype, or the class itself when
    it has none): the update gate becomes [shouldComponentUpdate] only
    when the target has none; one that is there stays as it is. Each of
    the four lifecycle hooks is always the mixin's: alone when the
    target had none, behind the target's own otherwise. *)
Theorem observer_installs_gate_only_when_absent :
  forall (w : World) (fuel : nat) (componentClass : value) (lc : loc)
         (arg2 target : value) (lt : loc),
    ref_loc componentClass = Some lc ->
    array_shape w componentClass = false ->
    stateless_shape w componentClass = false ->
    js_or (read_field w lc "prototype") componentClass = target ->
    ref_loc target = Some lt ->
    lt < next w ->
    exists w' : World,
      observer (call fuel) componentClass arg2 w = (Ret componentClass, w') /\
      read_field w' lt "shouldComponentUpdate"
      = (if truthy (read_field w lt "shouldComponentUpdate")
         then read_field w lt "shouldComponentUpdate"
         else mixin_fn shouldComponentUpdateM) /\
      forall funcName : string,
        funcName ∈ patched_hooks ->
        if truthy (read_field w lt funcName)
        then exists lf, read_field w' lt funcName
                        = VFunction lf (CPatched (read_field w lt funcName)
                                                 (reactiveMixin funcName))
        else read_field w' lt funcName = reactiveMixin funcName.
Proof.
  intros w fuel cc lc arg2 target lt Hc Ha Hs Ht Hl Hlt.
  exists (decorated lc lt w). split; [by eapply observer_decorates|].
  assert (Hn : lt < next (injector_warned lc w)) by by rewrite next_injector_warned.
  assert (Hgate : read_field (hooks_patched lt (injector_warned lc w)) lt "shouldComponentUpdate"
                  = read_field w lt "shouldComponentUpdate").
  { rewrite hooks_patched_other; [apply read_injector_warned|done|].
    rewrite patched_hooks_spec. intros [|[|[|]]]; done. }
  unfold decorated. split.
  - rewrite read_write_other_key by done. rewrite Hgate.
    destruct (truthy (read_field w lt "shouldComponentUpdate")); simpl.
    + done.
    + by rewrite read_write_same.
  - intros funcName Hf.
    assert (Hk1 : "isMobXReactObserver" ≠ funcName).
    { intros <-. apply patched_hooks_spec in Hf as [|[|[|]]]; done. }
    assert (Hk2 : "shouldComponentUpdate" ≠ funcName).
    { intros <-. apply patched_hooks_spec in Hf as [|[|[|]]]; done. }
    pose proof (hooks_patched_hook lt funcName _ Hn Hf) as Hh.
    rewrite read_injector_warned in Hh.
    rewrite read_write_other_key by done.
    destruct (negb (truthy (read_field (hooks_patched lt (injector_warned lc w)) lt
                                       "shouldComponentUpdate")));
      rewrite ?read_write_other_key by done; exact Hh.
Qed.

(** Store names given as one string: the error of line 197. *)
Lemma observer_rejects_a_string fuel s arg2 w :
  observer (call fuel) (VString s) arg2 w
  = (Exc (Error "Store names should be provided as array"), w).
Proof. done. Qed.

(** A falsy target that is neither null nor undefined reaches the guard
    of lines 232-234. *)
Lemma observer_rejects_false fuel arg2 w :
  observer (call fuel) (VBool false) arg2 w
  = (Exc (Error "Please pass a valid component to 'observer'"), w).
Proof. done. Qed.

(** Without [WeakMap], [trackComponents] throws (lines 39-40) and
    changes nothing. *)
Lemma trackComponents_needs_WeakMap w :
  hasWeakMap = false ->
  trackComponents w
  = (Exc (Error "[mobx-react] tracking components is not supported in this browser."), w).
Proof. intros E. unfold trackComponents. by rewrite E. Qed.

(** C7, at the failing input. [observer(undefined)] and [observer(null)]
    do not reach the guard of lines 232-234: reading [isInjector] on
    line 211 raises the language's TypeError first, so the descriptive
    error "Please pass a valid component to 'observer'" is never thrown
    for an absent target. *)
Theorem observer_absent_target_raises_TypeError :
  forall (fuel : nat) (arg2 : value) (w : World),
    observer (call fuel) VUndefined arg2 w = (Exc TypeError, w) /\
    observer (call fuel) VNull arg2 w = (Exc TypeError, w) /\
    Exc (A := value) TypeError ≠ Exc (Error "Please pass a valid component to 'observer'").
Proof. intros fuel arg2 w. repeat split; done. Qed.

(** The hooks and the gate of the target after the decoration. *)
Lemma decorated_hook lc lt funcName w :
  lt < next w -> funcName ∈ patched_hooks ->
  if truthy (read_field w lt funcName)
  then exists lf, read_field (decorated lc lt w) lt funcName
                  = VFunction lf (CPatched (read_field w lt funcName) (reactiveMixin funcName))
  else read_field (decorated lc lt w) lt funcName = reactiveMixin funcName.
Proof.
  intros Hlt Hf.
  assert (Hn : lt < next (injector_warned lc w)) by by rewrite next_injector_warned.
  assert (Hk1 : "isMobXReactObserver" ≠ funcName).
  { intros <-. apply patched_hooks_spec in Hf as [|[|[|]]]; done. }
  assert (Hk2 : "shouldComponentUpdate" ≠ funcName).
  { intros <-. apply patched_hooks_spec in Hf as [|[|[|]]]; done. }
  pose proof (hooks_patched_hook lt funcName _ Hn Hf) as Hh.
  rewrite read_injector_warned in Hh.
  unfold decorated. cbv zeta. rewrite read_write_other_key by done.
  destruct (negb (truthy (read_field (hooks_patched lt (injector_warned lc w)) lt
                                     "shouldComponentUpdate")));
    rewrite ?read_write_other_key by done; exact Hh.
Qed.

Lemma decorated_gate lc lt w :
  lt < next w ->
  read_field (decorated lc lt w) lt "shouldComponentUpdate"
  = if truthy (read_field w lt "shouldComponentUpdate")
    then read_field w lt "shouldComponentUpdate"
    else reactiveMixin "shouldComponentUpdate".
Proof.
  intros Hlt.
  assert (Hgate : read_field (hooks_patched lt (injector_warned lc w)) lt "shouldComponentUpdate"
                  = read_field w lt "shouldComponentUpdate").
  { rewrite hooks_patched_other; [apply read_injector_warned|by rewrite next_injector_warned|].
    rewrite patched_hooks_spec. intros [|[|[|]]]; done. }
  unfold decorated. cbv zeta. rewrite read_write_other_key by done. rewrite Hgate.
  destruct (truthy (read_field w lt "shouldComponentUpdate")); cbn [negb]; [done|].
  by rewrite read_write_same.
Qed.

(** C8. [observer] on a function that passes the test of lines 218-221
    allocates a class specification whose [displayName] is the function's
    [displayName] or else its [name], whose [propTypes] and
    [contextTypes] are the function's, whose [getDefaultProps] returns
    the function's [defaultProps] and whose [render] calls the function
    on the instance with the instance's current [props] and [context];
    it hands the specification to [React.createClass]. When that throws,
    [observer] throws the same. When that returns a component class,
    [observer] decorates it as it decorates any component class and
    returns it: each of the four lifecycle hooks of its target is the
    mixin's function, alone or behind the hook the class had, the gate
    is installed unless the class had one, and the class is marked. *)
Theorem observer_wraps_stateless_function :
  forall (w : World) (fuel : nat) (lf : loc) (c : code) (arg2 : value),
    stateless_shape w (VFunction lf c) = true ->
    let w0 := injector_warned lf w in
    let spec := next (allocated empty_object (allocated empty_object w0)) in
    let asked := with_trace (trace (spec_allocated lf c w0) ++ [ECreateClass (VObject spec)])
                            (spec_allocated lf c w0) in
    observer (call (S fuel)) (VFunction lf c) arg2 w
    = bind (React_createClass (VObject spec))
           (fun wrapper => observer (call fuel) wrapper VUndefined)
           (spec_allocated lf c w0) /\
    obj_at (spec_allocated lf c w0) spec
    = mkObject
        [("displayName", js_or (read_field w lf "displayName") (read_field w lf "name"));
         ("propTypes", read_field w lf "propTypes");
         ("contextTypes", read_field w lf "contextTypes");
         ("getDefaultProps", VFunction (next w0) (CGetDefaultProps (VFunction lf c)));
         ("render", VFunction (S (next w0)) (CStatelessRender (VFunction lf c)))]
        false /\
    (forall (fuel' : nat) (this : value) (args : list value) (w' : World),
        call (S fuel') (VFunction (next w0) (CGetDefaultProps (VFunction lf c))) this args w'
        = (Ret (read_field w' lf "defaultProps"), w')) /\
    (forall (fuel' : nat) (instance : loc) (args : list value) (w' : World),
        call (S fuel') (VFunction (S (next w0)) (CStatelessRender (VFunction lf c)))
             (VObject instance) args w'
        = call fuel' (VFunction lf c) (VObject instance)
               [read_field w' instance "props"; read_field w' instance "context"] w') /\
    (forall (x : exn) (w1 : World),
        host_createClass (VObject spec) asked = (Throws x, w1) ->
        observer (call (S fuel)) (VFunction lf c) arg2 w = (Exc x, w1)) /\
    (forall (wrapper : value) (w1 : World) (lw : loc) (target : value) (lt : loc),
        host_createClass (VObject spec) asked = (Returns wrapper, w1) ->
        ref_loc wrapper = Some lw ->
        array_shape w1 wrapper = false ->
        stateless_shape w1 wrapper = false ->
        js_or (read_field w1 lw "prototype") wrapper = target ->
        ref_loc target = Some lt ->
        lt < next w1 ->
        exists wf : World,
          observer (call (S fuel)) (VFunction lf c) arg2 w = (Ret wrapper, wf) /\
          read_field wf lw "isMobXReactObserver" = VBool true /\
          read_field wf lt "shouldComponentUpdate"
          = (if truthy (read_field w1 lt "shouldComponentUpdate")
             then read_field w1 lt "shouldComponentUpdate"
             else mixin_fn shouldComponentUpdateM) /\
          forall funcName : string,
            funcName ∈ patched_hooks ->
            if truthy (read_field w1 lt funcName)
            then exists lh, read_field wf lt funcName
                            = VFunction lh (CPatched (read_field w1 lt funcName)
                                                     (reactiveMixin funcName))
            else read_field wf lt funcName = reactiveMixin funcName).
Proof.
  intros w fuel lf c arg2 Hs w0 spec asked.
  assert (Erun : observer (call (S fuel)) (VFunction lf c) arg2 w
                 = bind (React_createClass (VObject spec))
                        (fun wrapper => observer (call fuel) wrapper VUndefined)
                        (spec_allocated lf c w0)).
  { rewrite (observer_on_object _ _ lf) by done. rewrite Hs. fold w0.
    rewrite (bind_get _ lf) by done.
    assert (Hname : forall B (k : value -> M B) w1,
               bind (if truthy (read_field w0 lf "displayName")
                     then ret (read_field w0 lf "displayName")
                     else get (VFunction lf c) "name") k w1
               = k (js_or (read_field w0 lf "displayName") (read_field w1 lf "name")) w1).
    { intros B k w1. unfold js_or. destruct (truthy _); [done|].
      by rewrite (bind_get _ lf). }
    rewrite Hname. rewrite !(bind_get _ lf) by done.
    rewrite !bind_alloc_function, bind_alloc_object.
    unfold spec_allocated, stateless_spec, spec. subst w0.
    by rewrite !read_injector_warned. }
  assert (Eclass : observer (call (S fuel)) (VFunction lf c) arg2 w
                   = match host_createClass (VObject spec) asked with
                     | (Returns wrapper, w1) => observer (call fuel) wrapper VUndefined w1
                     | (Throws x, w1) => (Exc x, w1)
                     end).
  { rewrite Erun. unfold React_createClass. rewrite bind_assoc, bind_log. fold asked.
    rewrite bind_runs. by destruct (host_createClass (VObject spec) asked) as [[wrapper|x] w1]. }
  split; [exact Erun|]. split; [|split; [|split; [|split]]].
  - unfold spec_allocated, obj_at, allocated at 1, spec. simpl.
    rewrite lookup_insert_eq. unfold stateless_spec. subst w0.
    by rewrite !read_injector_warned.
  - done.
  - intros fuel' instance args w'. simpl. unfold stateless_render.
    by rewrite !(bind_get _ instance).
  - intros x w1 Hx. by rewrite Eclass, Hx.
  - intros wrapper w1 lw target lt Hr Hw Ha Hn Ht Hl Hlt.
    exists (decorated lw lt w1). rewrite Eclass, Hr.
    split; [by apply (observer_decorates _ _ _ _ target)|].
    split; [unfold decorated; by rewrite read_write_same|].
    split; [by apply decorated_gate|].
    intros funcName Hf. by apply decorated_hook.
Qed.

(** *** The invalidation handler, and C4 *)

Lemma forced_updates_app t t' :
  forced_updates (t ++ t') = forced_updates t + forced_updates t'.
Proof. induction t as [|[] t IH]; simpl; lia. Qed.

Lemma scope_at_pending b e w :
  scope_at (pending b e w) e = set_pending b (scope_at w e).
Proof. unfold scope_at, pending. simpl. by rewrite lookup_insert_eq. Qed.

Lemma read_field_pending b e w l k : read_field (pending b e w) l k = read_field w l k.
Proof. done. Qed.

(** A pending render: the handler returns at once (lines 85 and 104). *)
Lemma onInvalidate_pending fuel e w :
  is_pending w e = true ->
  onInvalidate (call fuel) e w = (Ret VUndefined, w).
Proof.
  unfold is_pending. intros Hp. unfold onInvalidate, bind, read_scope. by rewrite Hp.
Qed.

(** No render pending: the handler up to the test of line 92. *)
Lemma onInvalidate_idle fuel l e w :
  s_this (scope_at w e) = VObject l ->
  is_pending w e = false ->
  onInvalidate (call (S fuel)) e w
  = match read_field w l "componentWillReact" with
    | VFunction lh c =>
        bind (call (S fuel) (VFunction lh c) (VObject l) [])
             (fun _ =>
                unmounted <- get (VObject l) "__$mobxIsUnmounted" ;;
                if negb (strict_eq unmounted (VBool true)) then
                  try_finally
                    (forceUpdate (VObject l))
                    (fun hasError =>
                       if hasError
                       then (s' <- read_scope e ;; invoke (call (S fuel)) (s_reaction s') "dispose" [])
                       else ret VUndefined) ;;;
                  ret VUndefined
                else ret VUndefined)
             (pending true e w)
    | _ =>
        bind (get (VObject l) "__$mobxIsUnmounted")
             (fun unmounted =>
                if negb (strict_eq unmounted (VBool true)) then
                  try_finally
                    (forceUpdate (VObject l))
                    (fun hasError =>
                       if hasError
                       then (s' <- read_scope e ;; invoke (call (S fuel)) (s_reaction s') "dispose" [])
                       else ret VUndefined) ;;;
                  ret VUndefined
                else ret VUndefined)
             (pending true e w)
    end.
Proof.
  unfold is_pending. intros Ht Hp.
  unfold onInvalidate. rewrite bind_read_scope, Hp, Ht. cbn [negb].
  rewrite bind_update_scope. fold (pending true e w).
  rewrite (bind_get _ l) by done. rewrite read_field_pending.
  destruct (read_field w l "componentWillReact") as [| | | | | |lh c] eqn:Eh;
    cbn [is_function]; rewrite ?bind_ret; try reflexivity.
  unfold invoke at 1. rewrite bind_assoc. rewrite (bind_get _ l) by done.
  by rewrite read_field_pending, Eh.
Qed.

Lemma after_componentWillReact_store l w w1 :
  after_componentWillReact l w = Some w1 ->
  heap w1 = heap w /\ scopes w1 = scopes w /\ next w1 = next w /\ frames w1 = frames w.
Proof.
  unfold after_componentWillReact.
  destruct (read_field w l "componentWillReact") as [| | | | | |lh []]; try done;
    try (intros E; by inversion E).
  destruct (native id (VObject l) [] (host w)) as [[v|x] h]; [|done].
  intros E. by inversion E.
Qed.

(** The handler, once the user's hook returned: the test of line 92 and
    the forced update. *)
Lemma onInvalidate_after_hook fuel l e w w1 :
  s_this (scope_at w e) = VObject l ->
  is_pending w e = false ->
  after_componentWillReact l (pending true e w) = Some w1 ->
  onInvalidate (call (S fuel)) e w
  = (if negb (is_unmounted w l) then
       try_finally
         (forceUpdate (VObject l))
         (fun hasError =>
            if hasError
            then (s' <- read_scope e ;; invoke (call (S fuel)) (s_reaction s') "dispose" [])
            else ret VUndefined) ;;;
       ret VUndefined
     else ret VUndefined) w1.
Proof.
  intros Ht Hp Hh. rewrite (onInvalidate_idle _ _ _ _ Ht Hp).
  pose proof (after_componentWillReact_store _ _ _ Hh) as (Hheap & _).
  assert (Hflag : read_field w1 l "__$mobxIsUnmounted" = read_field w l "__$mobxIsUnmounted").
  { unfold read_field, obj_at. by rewrite Hheap. }
  unfold after_componentWillReact in Hh. rewrite read_field_pending in Hh.
  unfold is_unmounted. rewrite <- Hflag.
  destruct (read_field w l "componentWillReact") as [| | | | | |lh c];
    try (inversion Hh; subst w1; by rewrite (bind_get _ l)).
  destruct c; try done.
  change (host (pending true e w)) with (host w) in Hh.
  unfold bind at 1. simpl call. unfold foreign. rewrite bind_log.
  unfold on_host. simpl host.
  destruct (native id (VObject l) [] (host w)) as [[v|x] h] eqn:En; [|done].
  inversion Hh. subst w1. clear Hh. simpl lift.
  by rewrite (bind_get _ l).
Qed.

(** The handler on an idle, mounted instance once the user's hook
    returned: the forced update, and the disposal when it throws. *)
Lemma onInvalidate_forces :
  forall (w : World) (fuel : nat) (l e r : loc) (w1 : World),
    tracking w l e r ->
    is_pending w e = false ->
    is_unmounted w l = false ->
    after_componentWillReact l (pending true e w) = Some w1 ->
    match host_forceUpdate (VObject l) (host w1) with
    | (Throws x, h) =>
        let w' := write_field r "isDisposed" (VBool true)
                    (with_trace (trace w1 ++ [EForceUpdate (VObject l); EDispose (VObject r)])
                                (with_host h w1)) in
        onInvalidate (call (S fuel)) e w = (Exc x, w') /\
        is_disposed w' r = true
    | (Returns _, h) =>
        let w' := with_trace (trace w1 ++ [EForceUpdate (VObject l)]) (with_host h w1) in
        onInvalidate (call (S fuel)) e w = (Ret VUndefined, w') /\
        is_disposed w' r = is_disposed w r
    end.
Proof.
  intros w fuel l e r w1 [Ht Hr _ Hd] Hp Hu Hh.
  rewrite (onInvalidate_after_hook _ _ _ _ _ Ht Hp Hh), Hu. cbn [negb].
  pose proof (after_componentWillReact_store _ _ _ Hh) as (Hheap & Hscopes & _).
  assert (Hrd : forall l' k, read_field w1 l' k = read_field w l' k).
  { intros l' k. unfold read_field, obj_at. by rewrite Hheap. }
  assert (Hsc : s_reaction (scope_at w1 e) = VObject r).
  { unfold scope_at. rewrite Hscopes. simpl. rewrite lookup_insert_eq. by simpl. }
  rewrite bind_runs, try_finally_runs, forceUpdate_runs.
  assert (Hd' : forall w', heap w' = heap w1 ->
                read_field w' r "dispose" = VFunction dispose_loc CReactionDispose).
  { intros w' E. rewrite <- Hd, <- Hrd. unfold read_field, obj_at. by rewrite E. }
  destruct (host_forceUpdate (VObject l) (host w1)) as [[v|x] h]; cbn [lift fst snd].
  - cbv zeta. split; [reflexivity|].
    unfold is_disposed, read_field, obj_at. simpl. by rewrite Hheap.
  - rewrite bind_read_scope.
    change (scope_at (with_host h (with_trace (trace w1 ++ [EForceUpdate (VObject l)]) w1)) e)
      with (scope_at w1 e).
    rewrite Hsc. unfold invoke. rewrite (bind_get _ r) by done.
    rewrite Hd' by done. simpl call. unfold reaction_dispose. rewrite bind_log.
    rewrite (bind_set _ r) by done. unfold ret.
    cbv zeta. split.
    + simpl. rewrite <- app_assoc. reflexivity.
    + unfold is_disposed. by rewrite read_write_same.
Qed.

(** C4. The handler on an idle, mounted instance whose
    [componentWillReact], if any, returned, leaving the world [w1]. When
    forcing the update throws [x], [reaction.dispose()] runs after the
    forced update and before the handler is left, and the handler throws
    the same [x]; when forcing the update returns, the handler returns
    and the reaction is as disposed as it was. *)
Theorem forced_update_error_disposes_then_rethrows :
  forall (w : World) (fuel : nat) (l e r : loc) (w1 : World),
    tracking w l e r ->
    is_pending w e = false ->
    is_unmounted w l = false ->
    after_componentWillReact l (pending true e w) = Some w1 ->
    match host_forceUpdate (VObject l) (host w1) with
    | (Throws x, h) =>
        let w' := write_field r "isDisposed" (VBool true)
                    (with_trace (trace w1 ++ [EForceUpdate (VObject l); EDispose (VObject r)])
                                (with_host h w1)) in
        onInvalidate (call (S fuel)) e w = (Exc x, w') /\
        is_disposed w' r = true
    | (Returns _, h) =>
        let w' := with_trace (trace w1 ++ [EForceUpdate (VObject l)]) (with_host h w1) in
        onInvalidate (call (S fuel)) e w = (Ret VUndefined, w') /\
        is_disposed w' r = is_disposed w r
    end.
Proof. exact onInvalidate_forces. Qed.

(** *** C2: after unmount *)

Lemma renders_app t t' : renders (t ++ t') = renders t + renders t'.
Proof. induction t as [|[] t IH]; simpl; lia. Qed.

Lemma disposals_app t t' : disposals (t ++ t') = disposals t + disposals t'.
Proof. induction t as [|[] t IH]; simpl; lia. Qed.

Lemma quiet_refl w : quiet w w.
Proof. by split. Qed.

Lemma quiet_trans w1 w2 w3 : quiet w1 w2 -> quiet w2 w3 -> quiet w1 w3.
Proof. intros [] []. split; congruence. Qed.

Lemma report_destroyed_quiet this w : quiet w (snd (report_destroyed this w)).
Proof.
  unfold report_destroyed. rewrite bind_devtools.
  destruct (isDevtoolsEnabled w); [|apply quiet_refl].
  rewrite bind_runs. unfold findDOMNode.
  destruct ReactDOM as [find|].
  - unfold on_host. destruct (find this (host w)) as [[node|x] h]; simpl lift; cbv iota;
      [|by split].
    unfold registry_defined at 1. rewrite bind_runs. cbv beta iota.
    rewrite bind_runs.
    destruct (truthy node && _) eqn:E.
    + unfold weakmap_delete. simpl componentByNodeRegistery.
      destruct (componentByNodeRegistery w) as [m|]; [|by split].
      destruct node; simpl; split; simpl; rewrite ?forced_updates_app, ?renders_app, ?disposals_app; simpl; lia || done.
    + simpl. split; simpl; rewrite ?forced_updates_app, ?renders_app, ?disposals_app; simpl; lia || done.
  - unfold ret at 1. cbv iota. unfold registry_defined at 1. rewrite bind_runs. cbv beta iota.
    simpl. split; simpl; rewrite ?forced_updates_app, ?renders_app, ?disposals_app; simpl; lia || done.
Qed.

(** [componentWillUnmount] on an instance that renders reactively, static
    rendering off: the reaction is disposed, the flag set, then the report. *)
Lemma componentWillUnmount_tracking fuel l e r lr w :
  tracking w l e r ->
  rendering_reactively w l e r lr ->
  strict_eq (isUsingStaticRendering w) (VBool true) = false ->
  componentWillUnmount (call (S fuel)) (VObject l) w
  = report_destroyed (VObject l)
      (write_field l "__$mobxIsUnmounted" (VBool true)
         (write_field r "isDisposed" (VBool true)
            (with_trace (trace w ++ [EDispose (VObject r)]) w))).
Proof.
  intros [_ _ _ Hd] [Hr Hm] Hs.
  unfold componentWillUnmount. rewrite bind_static_rendering, Hs.
  rewrite (bind_get _ l), Hr by done. rewrite (bind_get _ lr), Hm by done.
  cbn [truthy]. rewrite bind_assoc, (bind_get _ l), Hr by done.
  rewrite bind_assoc, (bind_get _ lr), Hm by done.
  unfold invoke. rewrite bind_assoc, (bind_get _ r), Hd by done.
  rewrite bind_runs. simpl call. unfold reaction_dispose.
  rewrite bind_log, (bind_set _ r) by done. unfold ret at 1. cbv iota.
  rewrite (bind_set _ l) by done. reflexivity.
Qed.

(** The handler on an unmounted instance forces nothing (line 92). *)
Lemma onInvalidate_unmounted fuel l e w :
  s_this (scope_at w e) = VObject l ->
  is_unmounted w l = true ->
  user_hook w l ->
  let w' := snd (onInvalidate (call (S fuel)) e w) in
  heap w' = heap w /\
  s_this (scope_at w' e) = VObject l /\
  s_reaction (scope_at w' e) = s_reaction (scope_at w e) /\
  forced_updates (trace w') = forced_updates (trace w) /\
  renders (trace w') = renders (trace w).
Proof.
  intros Ht Hu Hh. destruct (is_pending w e) eqn:Hp.
  - rewrite onInvalidate_pending by done. simpl. done.
  - rewrite (onInvalidate_idle _ _ _ _ Ht Hp).
    assert (Hflag : forall w0, heap w0 = heap w ->
              bind (get (VObject l) "__$mobxIsUnmounted")
                   (fun unmounted =>
                      if negb (strict_eq unmounted (VBool true)) then
                        try_finally
                          (forceUpdate (VObject l))
                          (fun hasError =>
                             if hasError
                             then (s' <- read_scope e ;;
                                   invoke (call (S fuel)) (s_reaction s') "dispose" [])
                             else ret VUndefined) ;;;
                        ret VUndefined
                      else ret VUndefined) w0 = (Ret VUndefined, w0)).
    { intros w0 E. rewrite (bind_get _ l) by done.
      assert (Hrd : read_field w0 l "__$mobxIsUnmounted" = read_field w l "__$mobxIsUnmounted").
      { unfold read_field, obj_at. by rewrite E. }
      unfold is_unmounted in Hu. by rewrite Hrd, Hu. }
    assert (Hsc : scope_at (pending true e w) e = set_pending true (scope_at w e))
      by apply scope_at_pending.
    unfold user_hook in Hh.
    destruct (read_field w l "componentWillReact") as [| | | | | |lh c];
      try (rewrite Hflag by done; simpl; by rewrite Hsc).
    destruct c; try done.
    rewrite bind_runs. simpl call. rewrite foreign_runs.
    destruct (native id (VObject l) [] (host (pending true e w))) as [[v|x] h];
      cbn [lift fst snd].
    + rewrite Hflag by done. simpl.
      change (scope_at _ e) with (scope_at (pending true e w) e) at 1.
      change (scope_at (with_host h (with_trace (trace w ++ [ECall id (VObject l) []]) (pending true e w))) e)
        with (scope_at (pending true e w) e).
      rewrite Hsc, forced_updates_app, renders_app. simpl. repeat split; try done; lia.
    + simpl.
      change (scope_at (with_host h (with_trace (trace w ++ [ECall id (VObject l) []]) (pending true e w))) e)
        with (scope_at (pending true e w) e).
      rewrite Hsc, forced_updates_app, renders_app. simpl. repeat split; try done; lia.
Qed.

Lemma read_field_heap w w' l k : heap w' = heap w -> read_field w' l k = read_field w l k.
Proof. intros E. unfold read_field, obj_at. by rewrite E. Qed.

Lemma deliver_unmounted fuel l e n w :
  s_this (scope_at w e) = VObject l ->
  is_unmounted w l = true ->
  user_hook w l ->
  let w' := deliver n (onInvalidate (call (S fuel)) e) w in
  heap w' = heap w /\
  forced_updates (trace w') = forced_updates (trace w) /\
  renders (trace w') = renders (trace w).
Proof.
  revert w. induction n as [|n IH]; intros w Ht Hu Hh; [done|].
  cbn [deliver].
  destruct (onInvalidate_unmounted fuel l e w Ht Hu Hh) as (Hheap & Ht' & _ & Hf & Hr).
  destruct (IH (snd (onInvalidate (call (S fuel)) e w))) as (Hheap' & Hf' & Hr').
  - done.
  - unfold is_unmounted. by rewrite (read_field_heap _ _ _ _ Hheap).
  - unfold user_hook. by rewrite (read_field_heap _ _ _ _ Hheap).
  - cbv zeta in *. repeat split.
    + by rewrite Hheap'.
    + by rewrite Hf'.
    + by rewrite Hr'.
Qed.

(** The tracker does not run a disposed reaction. *)
Lemma notify_disposed fuel r w :
  is_disposed w r = true -> notify fuel (VObject r) w = (Ret VUndefined, w).
Proof.
  unfold is_disposed. intros Hd. unfold notify. rewrite (bind_get _ r) by done. by rewrite Hd.
Qed.

(** C2. [componentWillUnmount] on an instance that renders reactively,
    static rendering off, whose [componentWillReact] is absent or the
    user's: the reaction is disposed and the unmounted flag is [true]
    in the world it leaves; after any number of invalidations delivered
    to the handler from there, the flag is still [true], the reaction
    still disposed, and no update was forced and no render run since
    before the unmount; and the tracker, asked to notify the reaction,
    does nothing. *)
Theorem unmount_is_terminal :
  forall (w : World) (fuel : nat) (l e r lr : loc) (n : nat),
    tracking w l e r ->
    rendering_reactively w l e r lr ->
    strict_eq (isUsingStaticRendering w) (VBool true) = false ->
    user_hook w l ->
    let w1 := snd (componentWillUnmount (call (S fuel)) (VObject l) w) in
    let wn := deliver n (onInvalidate (call (S fuel)) e) w1 in
    is_disposed w1 r = true /\
    is_unmounted w1 l = true /\
    is_unmounted wn l = true /\
    is_disposed wn r = true /\
    forced_updates (trace wn) = forced_updates (trace w) /\
    renders (trace wn) = renders (trace w) /\
    notify (S fuel) (VObject r) wn = (Ret VUndefined, wn).
Proof.
  intros w fuel l e r lr n Htr Hrr Hs Hh w1 wn.
  set (wu := write_field l "__$mobxIsUnmounted" (VBool true)
               (write_field r "isDisposed" (VBool true)
                  (with_trace (trace w ++ [EDispose (VObject r)]) w))).
  assert (E1 : w1 = snd (report_destroyed (VObject l) wu)).
  { subst w1. by rewrite (componentWillUnmount_tracking _ _ _ _ _ _ Htr Hrr Hs). }
  destruct (report_destroyed_quiet (VObject l) wu) as [Qh Qs Qf Qr _]. rewrite <- E1 in *.
  assert (Hd1 : is_disposed w1 r = true).
  { unfold is_disposed. rewrite (read_field_heap _ _ _ _ Qh). subst wu.
    rewrite read_write_other_key by done. by rewrite read_write_same. }
  assert (Hu1 : is_unmounted w1 l = true).
  { unfold is_unmounted. rewrite (read_field_heap _ _ _ _ Qh). subst wu.
    by rewrite read_write_same. }
  assert (Ht1 : s_this (scope_at w1 e) = VObject l).
  { unfold scope_at. rewrite Qs. apply Htr. }
  assert (Hh1 : user_hook w1 l).
  { unfold user_hook. rewrite (read_field_heap _ _ _ _ Qh). subst wu.
    rewrite !read_write_other_key by done. exact Hh. }
  destruct (deliver_unmounted fuel l e n w1 Ht1 Hu1 Hh1) as (Hheap & Hf & Hr).
  fold wn in Hheap, Hf, Hr.
  assert (Hdn : is_disposed wn r = true).
  { unfold is_disposed. by rewrite (read_field_heap _ _ _ _ Hheap). }
  repeat split; try done.
  - unfold is_unmounted. by rewrite (read_field_heap _ _ _ _ Hheap).
  - rewrite Hf, Qf. subst wu. simpl. rewrite forced_updates_app. simpl. lia.
  - rewrite Hr, Qr. subst wu. simpl. rewrite renders_app. simpl. lia.
  - by apply notify_disposed.
Qed.

(** *** Mounting, and C10 *)

Lemma componentWillMount_runs fuel l lr c w :
  strict_eq (isUsingStaticRendering w) (VBool true) = false ->
  read_field w l "render" = VFunction lr c ->
  componentWillMount (call fuel) (VObject l) w
  = (Ret VUndefined, mounted_world l (VFunction lr c) w).
Proof.
  intros Hs Hr. unfold componentWillMount.
  rewrite bind_static_rendering, Hs. rewrite (bind_get _ l) by done.
  assert (Hname : forall B (k : value -> M B),
             bind (if truthy (read_field w l "displayName")
                   then ret (read_field w l "displayName") else
                   name <- get (VObject l) "name" ;;
                   if truthy name then ret name else
                   ctor <- get (VObject l) "constructor" ;;
                   fromCtor <-
                     (if truthy ctor then
                        ctor' <- get (VObject l) "constructor" ;;
                        ctorDisplayName <- get ctor' "displayName" ;;
                        if truthy ctorDisplayName then ret ctorDisplayName
                        else (ctor'' <- get (VObject l) "constructor" ;; get ctor'' "name")
                      else ret ctor) ;;
                   if truthy fromCtor then ret fromCtor else ret (VString "<component>")) k w
             = k (initial_name w l) w).
  { intros B k. unfold initial_name.
    destruct (truthy (read_field w l "displayName")); [done|].
    rewrite bind_assoc, (bind_get _ l) by done.
    destruct (truthy (read_field w l "name")); [done|].
    rewrite bind_assoc, (bind_get _ l) by done. rewrite bind_assoc.
    destruct (truthy (read_field w l "constructor")) eqn:Ec.
    - rewrite bind_assoc, (bind_get _ l) by done. rewrite bind_assoc.
      rewrite bind_runs, (get_truthy _ _ _ Ec).
      destruct (truthy (prop_of w (read_field w l "constructor") "displayName")) eqn:Ed.
      + rewrite bind_ret. by rewrite Ed.
      + rewrite bind_assoc, (bind_get _ l) by done.
        rewrite bind_runs, (get_truthy _ _ _ Ec).
        by destruct (truthy (prop_of w (read_field w l "constructor") "name")).
    - rewrite bind_ret. by rewrite Ec. }
  rewrite Hname. rewrite (bind_get _ l) by done.
  assert (Hid : forall B (k : value -> M B),
             bind (if truthy (read_field w l "_reactInternalInstance")
                   then (internal' <- get (VObject l) "_reactInternalInstance" ;;
                         get internal' "_rootNodeID")
                   else ret (read_field w l "_reactInternalInstance")) k w
             = k (root_node_id w l) w).
  { intros B k. unfold root_node_id.
    destruct (truthy (read_field w l "_reactInternalInstance")) eqn:Ei; [|done].
    rewrite bind_assoc, (bind_get _ l) by done.
    by rewrite bind_runs, (get_truthy _ _ _ Ei). }
  rewrite Hid. unfold bind_render. rewrite bind_assoc. rewrite (bind_get _ l) by done.
  rewrite Hr.
  cbn [is_function]. rewrite bind_alloc_function, bind_new_scope.
  rewrite !bind_alloc_function, bind_update_scope.
  rewrite (bind_set _ l) by done. unfold ret, mounted_world. cbv zeta.
  f_equal. f_equal. unfold scope_at, allocated. simpl.
  rewrite lookup_insert_eq. simpl. by rewrite !insert_insert_eq.
Qed.

(** The report throws only what [findDOMNode] throws. *)
Lemma report_destroyed_outcome this w :
  fst (report_destroyed this w) = Ret VUndefined \/
  exists find x, ReactDOM = Some find /\ fst (find this (host w)) = Throws x.
Proof.
  unfold report_destroyed. rewrite bind_devtools.
  destruct (isDevtoolsEnabled w); [|by left].
  rewrite bind_runs. unfold findDOMNode.
  destruct ReactDOM as [find|].
  - unfold on_host. destruct (find this (host w)) as [[node|x] h] eqn:Ef; simpl lift; cbv iota.
    + left. unfold registry_defined at 1. rewrite bind_runs. cbv beta iota.
      rewrite bind_runs.
      unfold weakmap_delete.
      change (componentByNodeRegistery (with_host h w)) with (componentByNodeRegistery w).
      destruct (componentByNodeRegistery w) as [m|] eqn:Er; [|by rewrite andb_false_r].
      destruct (truthy node && true); [|done].
      change (componentByNodeRegistery (with_host h w)) with (componentByNodeRegistery w).
      rewrite Er. by destruct node.
    + right. exists find, x. by rewrite Ef.
  - left. unfold ret at 1. cbv iota. unfold registry_defined at 1. by rewrite bind_runs.
Qed.

(** C10. On an instance with a render function, static rendering off,
    [componentWillMount] followed by [componentWillUnmount] with no
    render in between: after the mount, [this.render] is the initial
    render, whose [$mobx] is undefined; the unmount then disposes
    nothing, sets the unmounted flag to [true], and raises nothing of
    its own (with the devtools off it returns undefined and changes the
    flag only; with them on, only [findDOMNode] can throw, after the
    flag is set). *)
Theorem unmount_before_first_render_is_safe :
  forall (w : World) (fuel : nat) (l lr : loc) (c : code),
    strict_eq (isUsingStaticRendering w) (VBool true) = false ->
    read_field w l "render" = VFunction lr c ->
    let w1 := snd (componentWillMount (call fuel) (VObject l) w) in
    let w2 := snd (componentWillUnmount (call fuel) (VObject l) w1) in
    (exists li e, read_field w1 l "render" = VFunction li (CInitialRender e) /\
                  read_field w1 li "$mobx" = VUndefined) /\
    is_unmounted w2 l = true /\
    disposals (trace w2) = disposals (trace w1) /\
    (fst (componentWillUnmount (call fuel) (VObject l) w1) = Ret VUndefined \/
     exists find x, ReactDOM = Some find /\ fst (find (VObject l) (host w)) = Throws x) /\
    (isDevtoolsEnabled w = false ->
     componentWillUnmount (call fuel) (VObject l) w1
     = (Ret VUndefined, write_field l "__$mobxIsUnmounted" (VBool true) w1)).
Proof.
  intros w fuel l lr c Hs Hr w1 w2.
  assert (E1 : w1 = mounted_world l (VFunction lr c) w).
  { subst w1. by rewrite (componentWillMount_runs _ _ _ _ _ Hs Hr). }
  assert (Hrender : read_field w1 l "render"
                    = VFunction (S (S (next w))) (CInitialRender (S (next w)))).
  { rewrite E1. unfold mounted_world. cbv zeta. by rewrite read_write_same. }
  assert (Hmobx : read_field w1 (S (S (next w))) "$mobx" = VUndefined).
  { rewrite E1. unfold mounted_world. cbv zeta. rewrite read_write_other_key by done.
    unfold read_field, obj_at, allocated. simpl.
    rewrite lookup_insert_ne by lia. by rewrite lookup_insert_eq. }
  assert (Hrun : componentWillUnmount (call fuel) (VObject l) w1
                 = report_destroyed (VObject l)
                     (write_field l "__$mobxIsUnmounted" (VBool true) w1)).
  { unfold componentWillUnmount. rewrite bind_static_rendering.
    assert (Hs1 : isUsingStaticRendering w1 = isUsingStaticRendering w) by by rewrite E1.
    rewrite Hs1, Hs. rewrite (bind_get _ l), Hrender by done.
    rewrite (bind_get _ (S (S (next w)))), Hmobx by done.
    cbn [truthy]. rewrite bind_ret. rewrite (bind_set _ l) by done. reflexivity. }
  destruct (report_destroyed_quiet (VObject l)
              (write_field l "__$mobxIsUnmounted" (VBool true) w1)) as [Qh _ _ _ Qd].
  split; [eauto|]. subst w2. rewrite Hrun. repeat split.
  - unfold is_unmounted. rewrite (read_field_heap _ _ _ _ Qh). by rewrite read_write_same.
  - by rewrite Qd.
  - destruct (report_destroyed_outcome (VObject l)
                (write_field l "__$mobxIsUnmounted" (VBool true) w1)) as [?|(find & x & ? & Hf)];
      [by left|right].
    exists find, x. split; [done|]. rewrite <- Hf. by rewrite E1.
  - intros Hd. unfold report_destroyed. rewrite bind_devtools.
    assert (Hd1 : isDevtoolsEnabled (write_field l "__$mobxIsUnmounted" (VBool true) w1)
                  = false) by by rewrite E1.
    by rewrite Hd1.
Qed.

(** *** Rendering *)

Lemma Date_now_runs w :
  Date_now w = (Ret (fst (host_now (host w))), with_host (snd (host_now (host w))) w).
Proof. unfold Date_now, on_host. by destruct (host_now (host w)). Qed.

Lemma bind_Date_now {B} (f : value -> M B) w :
  bind Date_now f w = f (fst (host_now (host w))) (with_host (snd (host_now (host w))) w).
Proof. by rewrite bind_runs, Date_now_runs. Qed.

Lemma tracked_runs fuel l e a id w :
  s_this (scope_at w e) = VObject l ->
  renders_with w l e id ->
  base_rendered w (snd (tracked (call (S (S fuel))) e a w)) l id /\
  fst (tracked (call (S (S fuel))) e a w) ≠ OutOfFuel.
Proof.
  intros Ht (lb & lu & Hb). unfold tracked.
  rewrite bind_read_scope, bind_devtools, Ht, Hb.
  assert (Hbase : forall w0,
             call (S (S fuel)) (VFunction lb (CBound (VFunction lu (CNative id)) (VObject l)))
                  VUndefined [] w0
             = (lift (fst (native id (VObject l) [] (host w0))),
                with_host (snd (native id (VObject l) [] (host w0)))
                          (with_trace (trace w0 ++ [ECall id (VObject l) []]) w0))).
  { intros w0. simpl call. apply foreign_runs. }
  destruct (isDevtoolsEnabled w) eqn:Hd.
  - rewrite bind_assoc, bind_Date_now, (bind_set _ l) by done.
    rewrite bind_runs, Hbase.
    destruct (native id (VObject l) [] _) as [[v|x] h]; cbn [lift fst snd].
    + rewrite bind_write_frame, bind_devtools. simpl isDevtoolsEnabled. rewrite Hd.
      rewrite bind_assoc, bind_Date_now, (bind_set _ l) by done.
      unfold ret. simpl. split; [|done]. split; simpl; try done.
      intros l' k Hk1 Hk2. by read_past.
    + simpl. split; [|done]. split; simpl; try done.
      intros l' k Hk1 Hk2. by read_past.
  - rewrite bind_ret. rewrite bind_runs, Hbase.
    destruct (native id (VObject l) [] _) as [[v|x] h]; cbn [lift fst snd].
    + rewrite bind_write_frame, bind_devtools. simpl isDevtoolsEnabled. rewrite Hd.
      rewrite bind_ret. unfold ret. simpl. split; [|done]. by split.
    + simpl. split; [|done]. by split.
Qed.

(** A reactive render: the pending flag is cleared, the tracker runs the
    user's render once, and the instance keeps tracking (lines 111-124). *)
Lemma reactiveRender_runs fuel l e r id w :
  tracking w l e r ->
  renders_with w l e id ->
  r < next w ->
  let w' := snd (reactiveRender (call (S (S (S (S fuel))))) e w) in
  is_pending w' e = false /\
  scope_at w' e = set_pending false (scope_at w e) /\
  trace w' = (trace w ++ [ETrack (VObject r); ECall id (VObject l) []])%list /\
  (forall l' k, l' < next w -> k ≠ "__$mobRenderStart" -> k ≠ "__$mobRenderEnd" ->
                read_field w' l' k = read_field w l' k) /\
  next w <= next w' /\
  fst (reactiveRender (call (S (S (S (S fuel))))) e w) ≠ OutOfFuel.
Proof.
  intros [Ht Hr Htrack _] Hb Hlt.
  unfold reactiveRender. rewrite bind_update_scope. fold (pending false e w).
  rewrite bind_new_frame, bind_alloc_function, bind_read_scope.
  lazymatch goal with
  | |- context [s_reaction (scope_at ?W e)] => set (w0 := W)
  end.
  assert (Hs0 : scope_at w0 e = set_pending false (scope_at w e)).
  { unfold scope_at, w0, allocated, pending. simpl. by rewrite lookup_insert_eq. }
  assert (Hrd0 : forall l' k, l' < next w -> read_field w0 l' k = read_field w l' k).
  { intros l' k Hl'. unfold w0. rewrite read_allocated by (simpl; lia). done. }
  rewrite Hs0. simpl s_reaction. rewrite Hr.
  unfold invoke. rewrite bind_assoc, (bind_get _ r) by done.
  rewrite Hrd0, Htrack by done.
  rewrite bind_runs.
  lazymatch goal with
  | |- context [call _ (VFunction track_loc CReactionTrack) (VObject r) [?body] w0] =>
      change (call (S (S (S (S fuel)))) (VFunction track_loc CReactionTrack) (VObject r) [body] w0)
        with (reaction_track (call (S (S (S fuel)))) (VObject r) body w0)
  end.
  unfold reaction_track. rewrite bind_log, bind_runs.
  set (w1 := with_trace (trace w0 ++ [ETrack (VObject r)]) w0).
  lazymatch goal with
  | |- context [call _ (VFunction ?lt (CTracked e ?a)) VUndefined [] w1] =>
      change (call (S (S (S fuel))) (VFunction lt (CTracked e a)) VUndefined [] w1)
        with (tracked (call (S (S fuel))) e a w1); set (rendering := a)
  end.
  assert (Ht1 : s_this (scope_at w1 e) = VObject l).
  { change (scope_at w1 e) with (scope_at w0 e). by rewrite Hs0. }
  assert (Hb1 : renders_with w1 l e id).
  { destruct Hb as (lb & lu & Hb). exists lb, lu.
    change (scope_at w1 e) with (scope_at w0 e). by rewrite Hs0. }
  destruct (tracked_runs fuel l e rendering id w1 Ht1 Hb1) as [[Bs Bn Bt Bh] Hfuel].
  destruct (tracked (call (S (S fuel))) e rendering w1) as [[v|x|] w2]; [| |done];
    cbn [fst snd] in *; cbv beta iota delta [ret read_frame fst snd].
  - unfold is_pending, scope_at. rewrite Bs. fold (scope_at w1 e).
    change (scope_at w1 e) with (scope_at w0 e). rewrite Hs0.
    repeat split; try done.
    + rewrite Bt. subst w1 w0. simpl. by rewrite <- app_assoc.
    + intros l' k Hl' Hk1 Hk2. rewrite Bh by done.
      change (read_field w1 l' k) with (read_field w0 l' k). by apply Hrd0.
    + rewrite Bn. subst w1 w0. simpl. lia.
  - unfold is_pending, scope_at. rewrite Bs. fold (scope_at w1 e).
    change (scope_at w1 e) with (scope_at w0 e). rewrite Hs0.
    repeat split; try done.
    + rewrite Bt. subst w1 w0. simpl. by rewrite <- app_assoc.
    + intros l' k Hl' Hk1 Hk2. rewrite Bh by done.
      change (read_field w1 l' k) with (read_field w0 l' k). by apply Hrd0.
    + rewrite Bn. subst w1 w0. simpl. lia.
Qed.

(** The first render (lines 83-109) on a freshly mounted instance whose
    [render] is the user's: the reaction is created and attached, the
    closure variables of the mount belong to the instance, and no render
    is pending. This is the state the claims on mounted instances start
    from. *)
Lemma first_render_tracks fuel l lu id w :
  strict_eq (isUsingStaticRendering w) (VBool true) = false ->
  read_field w l "render" = VFunction lu (CNative id) ->
  l < next w ->
  let w1 := snd (componentWillMount (call fuel) (VObject l) w) in
  let w2 := snd (call (S (S (S (S (S (S fuel)))))) (read_field w1 l "render") (VObject l) [] w1) in
  let e := S (next w) in
  let lr := S (S (S (next w))) in
  let r := S (S (S (S (S (next w))))) in
  tracking w2 l e r /\
  rendering_reactively w2 l e r lr /\
  renders_with w2 l e id /\
  is_pending w2 e = false /\
  r < next w2 /\
  is_unmounted w2 l = is_unmounted w l /\
  user_hook w2 l = user_hook w l.
Proof.
  intros Hs Hr Hl w1 w2 e lr r.
  assert (E1 : w1 = mounted_world l (VFunction lu (CNative id)) w).
  { subst w1. by rewrite (componentWillMount_runs _ _ _ _ _ Hs Hr). }
  assert (Hrender : read_field w1 l "render" = VFunction (S (S (next w))) (CInitialRender e)).
  { rewrite E1. unfold mounted_world. cbv zeta. by rewrite read_write_same. }
  assert (Hsc1 : scope_at w1 e
                 = mkScope (VObject l) (initial_name w l) (root_node_id w l)
                           (VFunction (next w) (CBound (VFunction lu (CNative id)) (VObject l)))
                           VNull false (VFunction lr (CReactiveRender e))).
  { rewrite E1. unfold mounted_world, scope_at. cbv zeta. simpl.
    by rewrite lookup_insert_eq. }
  assert (Hn1 : next w1 = S (S (S (S (next w))))) by by rewrite E1.
  assert (Hrd1 : forall l' k, l' < next w -> k ≠ "render" ->
                              read_field w1 l' k = read_field w l' k).
  { intros l' k Hl' Hk. rewrite E1. unfold mounted_world. cbv zeta.
    rewrite read_write_other_key by done. autorewrite with store.
    rewrite !read_allocated by (simpl; lia). autorewrite with store.
    apply read_allocated. lia. }
  set (handler := VFunction (next w1) (COnInvalidate e)).
  set (name := to_string (initial_name w l) ++ "#" ++ to_string (root_node_id w l) ++ ".render()").
  set (robj := mkObject [("name", VString name); ("onInvalidate", handler);
                         ("isDisposed", VBool false);
                         ("track", VFunction track_loc CReactionTrack);
                         ("dispose", VFunction dispose_loc CReactionDispose)] false).
  set (wa := allocated robj (allocated empty_object w1)).
  set (wt := with_trace (trace wa ++ [ENewReaction (VObject r) name]) wa).
  set (wb := with_scopes (<[e := set_reaction (VObject r) (scope_at wt e)]> (scopes wt)) wt).
  set (wc := write_field l "render" (VFunction lr (CReactiveRender e))
               (write_field lr "$mobx" (VObject r) wb)).
  assert (Erun : call (S (S (S (S (S (S fuel)))))) (read_field w1 l "render") (VObject l) [] w1
                 = reactiveRender (call (S (S (S (S (S fuel)))))) e wc).
  { rewrite Hrender.
    change (call (S (S (S (S (S (S fuel)))))) (VFunction (S (S (next w))) (CInitialRender e))
                 (VObject l) [] w1)
      with (initialRender (call (S (S (S (S (S fuel)))))) e w1).
    unfold initialRender.
    rewrite bind_read_scope, Hsc1. cbn [s_initialName s_rootNodeID].
    rewrite bind_alloc_function. unfold new_Reaction.
    rewrite bind_assoc, bind_alloc_object, bind_assoc, bind_log, bind_ret.
    rewrite bind_update_scope, bind_read_scope.
    assert (Enext : next (allocated empty_object w1) = r) by (simpl; by rewrite Hn1).
    rewrite Enext.
    fold handler. fold name. fold robj. fold wa. fold wt.
    change (with_scopes (<[e := set_reaction (VObject r) (scope_at wt e)]> (scopes wt)) wt)
      with wb.
    assert (Hscb : scope_at wb e
                   = mkScope (VObject l) (initial_name w l) (root_node_id w l)
                             (VFunction (next w) (CBound (VFunction lu (CNative id)) (VObject l)))
                             (VObject r) false (VFunction lr (CReactiveRender e))).
    { unfold wb, scope_at at 1. simpl. rewrite lookup_insert_eq.
      change (scope_at wt e) with (scope_at w1 e). by rewrite Hsc1. }
    rewrite Hscb. cbn [s_reactiveRender s_this].
    rewrite (bind_set _ lr) by done. rewrite (bind_set _ l) by done. reflexivity. }
  assert (Hscc : scope_at wc e
                 = mkScope (VObject l) (initial_name w l) (root_node_id w l)
                           (VFunction (next w) (CBound (VFunction lu (CNative id)) (VObject l)))
                           (VObject r) false (VFunction lr (CReactiveRender e))).
  { unfold wc, wb, scope_at at 1. simpl. rewrite lookup_insert_eq.
    change (scope_at wt e) with (scope_at w1 e). by rewrite Hsc1. }
  assert (Hnc : next wc = S (S (S (S (S (S (next w))))))).
  { unfold wc, wb, wt, wa. simpl. by rewrite Hn1. }
  assert (Hreadr : forall k, k ≠ "render" -> k ≠ "$mobx" ->
             read_field wc r k = match field k (fields robj) with Some v => v | None => VUndefined end).
  { intros k Hk1 Hk2. unfold wc. rewrite !read_write_other_key by done.
    unfold wb, wt. autorewrite with store. unfold wa.
    assert (Er : r = next (allocated empty_object w1)) by (simpl; by rewrite Hn1).
    rewrite Er. apply read_allocated_new. }
  assert (Htc : tracking wc l e r).
  { split; rewrite ?Hscc; try done; by rewrite Hreadr. }
  assert (Hbc : renders_with wc l e id).
  { exists (next w), lu. by rewrite Hscc. }
  destruct (reactiveRender_runs (S fuel) l e r id wc Htc Hbc ltac:(lia))
    as (R1 & R2 & _ & R4 & R5 & _).
  assert (E2 : w2 = snd (reactiveRender (call (S (S (S (S (S fuel)))))) e wc)).
  { unfold w2. by rewrite Erun. }
  rewrite <- E2 in R1, R2, R4, R5.
  assert (Hlc : forall k, k ≠ "render" -> read_field wc l k = read_field w l k).
  { intros k Hk. unfold wc. rewrite read_write_other_key by done.
    destruct (decide (k = "$mobx")) as [->|Hk'].
    - rewrite read_write_other_loc by (unfold lr; lia).
      unfold wb, wt. autorewrite with store. unfold wa.
      rewrite !read_allocated by (simpl; lia). by apply Hrd1.
    - rewrite read_write_other_key by done.
      unfold wb, wt. autorewrite with store. unfold wa.
      rewrite !read_allocated by (simpl; lia). by apply Hrd1. }
  repeat split.
  - by rewrite R2, Hscc.
  - by rewrite R2, Hscc.
  - rewrite R4 by (done || lia). by rewrite Hreadr.
  - rewrite R4 by (done || lia). by rewrite Hreadr.
  - rewrite R4 by (done || lia). unfold wc. by rewrite read_write_same.
  - rewrite R4 by (done || unfold lr; lia). unfold wc.
    rewrite read_write_other_key by done. by rewrite read_write_same.
  - exists (next w), lu. by rewrite R2, Hscc.
  - done.
  - lia.
  - unfold is_unmounted. rewrite R4 by (done || lia). by rewrite Hlc.
  - unfold user_hook. rewrite R4 by (done || lia). by rewrite Hlc.
Qed.

(** *** C1: coalescing *)

Lemma deliver_pending fuel e n w :
  is_pending w e = true -> deliver n (onInvalidate (call fuel) e) w = w.
Proof.
  intros Hp. induction n as [|n IH]; [done|].
  cbn [deliver]. by rewrite onInvalidate_pending.
Qed.



(** *** The update gate on any arguments *)

(** The warning of lines 160-162, then the rest of the gate. *)
Lemma shouldComponentUpdate_warns this nextProps nextState w :
  shouldComponentUpdate this nextProps nextState w
  = (state <- get this "state" ;;
     if negb (strict_eq state nextState) then ret (VBool true) else
     props <- get this "props" ;;
     keys <- object_keys props ;;
     nextKeys <- object_keys nextProps ;;
     if negb (Nat.eqb (length keys) (length nextKeys)) then ret (VBool true) else
     gate_loop this nextProps keys (length keys)) (gate_world w).
Proof.
  unfold shouldComponentUpdate. rewrite bind_static_rendering.
  unfold gate_world. by destruct (truthy (isUsingStaticRendering w)).
Qed.

(** X2. A state that is not strictly equal to the next state (lines 164-166):
    the gate answers "must update" before it looks at the props, so
    whatever the props and the next props are, even undefined. *)
Theorem state_change_forces_update :
  forall (w : World) (l : loc) (nextProps nextState : value),
    strict_eq (read_field w l "state") nextState = false ->
    shouldComponentUpdate (VObject l) nextProps nextState w
    = (Ret (VBool true), gate_world w).
Proof.
  intros w l nextProps nextState Hs. rewrite shouldComponentUpdate_warns.
  rewrite (bind_get _ l) by done. rewrite read_field_gate_world. by rewrite Hs.
Qed.

Lemma object_keys_nullish v w : nullish v = true -> object_keys v w = (Exc TypeError, w).
Proof. by destruct v. Qed.

Lemma object_keys_returns v w :
  nullish v = false -> exists ks, object_keys v w = (Ret ks, w).
Proof. destruct v; try done; simpl; eauto. Qed.

(** X3. With an unchanged state, props or next props that are undefined or
    null make [Object.keys] (lines 168-169) raise the language's
    TypeError: the gate has no answer for them. *)
Theorem update_gate_raises_without_props :
  forall (w : World) (l : loc) (nextProps nextState : value),
    strict_eq (read_field w l "state") nextState = true ->
    nullish (read_field w l "props") || nullish nextProps = true ->
    shouldComponentUpdate (VObject l) nextProps nextState w
    = (Exc TypeError, gate_world w).
Proof.
  intros w l nextProps nextState Hs Hn. rewrite shouldComponentUpdate_warns.
  rewrite (bind_get _ l) by done. rewrite read_field_gate_world, Hs. cbn [negb].
  rewrite (bind_get _ l) by done. rewrite read_field_gate_world.
  destruct (nullish (read_field w l "props")) eqn:Ep.
  - by rewrite bind_runs, object_keys_nullish.
  - simpl in Hn. destruct (object_keys_returns _ (gate_world w) Ep) as [ks Ek].
    rewrite bind_runs, Ek. by rewrite bind_runs, object_keys_nullish.
Qed.

(** The loop reads the store and asks the tracker; it writes nothing. *)
Lemma gate_loop_reads this nextProps ks n w : snd (gate_loop this nextProps ks n w) = w.
Proof.
  induction n as [|i IH]; [done|]. cbn [gate_loop].
  destruct (ks !! i) as [key|]; [|done].
  destruct (negb (truthy (VString key))); [done|].
  assert (Hget : forall o k, snd (get o k w) = w /\
                   (fst (get o k w) = Exc TypeError \/ exists x, get o k w = (Ret x, w))).
  { intros o k. destruct o; simpl; eauto. }
  rewrite bind_runs. destruct (Hget nextProps key) as [_ [E|[x E]]].
  - destruct (get nextProps key w) as [[?|?|] w0] eqn:Eg; simpl in *; try done.
    pose proof (proj1 (Hget nextProps key)) as Hw. rewrite Eg in Hw. done.
  - rewrite E. rewrite bind_runs. destruct (Hget this "props") as [_ [E'|[p E']]].
    + destruct (get this "props" w) as [[?|?|] w0] eqn:Eg; simpl in *; try done.
      pose proof (proj1 (Hget this "props")) as Hw. rewrite Eg in Hw. done.
    + rewrite E'. rewrite bind_runs. destruct (Hget p key) as [_ [E''|[o E'']]].
      * destruct (get p key w) as [[?|?|] w0] eqn:Eg; simpl in *; try done.
        pose proof (proj1 (Hget p key)) as Hw. rewrite Eg in Hw. done.
      * rewrite E''. destruct (negb (strict_eq x o)); [done|].
        destruct (truthy x && jstype_eqb (typeof x) TObject).
        -- cbv [bind mobx_isObservable ret]. cbn [negb].
           destruct (isObservable x (host w)); cbn [negb]; [apply IH|done].
        -- rewrite bind_ret. apply IH.
Qed.

(** What the loop answers depends on the store and on the tracker only. *)
Lemma gate_loop_answer this nextProps ks n w w' :
  heap w' = heap w -> host w' = host w ->
  fst (gate_loop this nextProps ks n w') = fst (gate_loop this nextProps ks n w).
Proof.
  intros Hh Ho. induction n as [|i IH]; [done|]. cbn [gate_loop].
  destruct (ks !! i) as [key|]; [|done].
  destruct (negb (truthy (VString key))); [done|].
  assert (Hget : forall o k,
             (get o k w = (Exc TypeError, w) /\ get o k w' = (Exc TypeError, w'))
             \/ exists x, get o k w = (Ret x, w) /\ get o k w' = (Ret x, w')).
  { intros o k. destruct o; simpl; eauto; right; eexists;
      rewrite (read_field_heap _ _ _ _ Hh); eauto. }
  rewrite !(bind_runs (get nextProps key)).
  destruct (Hget nextProps key) as [[E E']|(x & E & E')]; rewrite E, E'; [done|].
  rewrite !(bind_runs (get this "props")).
  destruct (Hget this "props") as [[F F']|(p & F & F')]; rewrite F, F'; [done|].
  rewrite !(bind_runs (get p key)).
  destruct (Hget p key) as [[G G']|(o & G & G')]; rewrite G, G'; [done|].
  destruct (negb (strict_eq x o)); [done|].
  destruct (truthy x && jstype_eqb (typeof x) TObject).
  - cbv [bind mobx_isObservable ret]. rewrite Ho.
    destruct (isObservable x (host w)); cbn [negb]; [apply IH|done].
  - rewrite !bind_ret. apply IH.
Qed.

(** The gate's world and answer, on any arguments. *)
Lemma shouldComponentUpdate_queries :
  forall (w : World) (this nextProps nextState static : value),
    snd (shouldComponentUpdate this nextProps nextState w) = gate_world w /\
    heap (gate_world w) = heap w /\
    scopes (gate_world w) = scopes w /\
    componentByNodeRegistery (gate_world w) = componentByNodeRegistery w /\
    trace (gate_world w)
    = (if truthy (isUsingStaticRendering w)
       then trace w ++ [EWarn "[mobx-react] It seems that a re-rendering of a React component is triggered while in static (server-side) mode. Please make sure components are rendered only once server-side."]
       else trace w)%list /\
    fst (shouldComponentUpdate this nextProps nextState (with_static static w))
    = fst (shouldComponentUpdate this nextProps nextState w).
Proof.
  intros w this nextProps nextState static.
  assert (Hrun : forall w0 w1, heap w1 = heap w0 -> host w1 = host w0 ->
            let rest :=
              (state <- get this "state" ;;
               if negb (strict_eq state nextState) then ret (VBool true) else
               props <- get this "props" ;;
               keys <- object_keys props ;;
               nextKeys <- object_keys nextProps ;;
               if negb (Nat.eqb (length keys) (length nextKeys)) then ret (VBool true) else
               gate_loop this nextProps keys (length keys)) in
            snd (rest w0) = w0 /\ fst (rest w1) = fst (rest w0)).
  { intros w0 w1 Hh Ho. cbv zeta.
    assert (Hget : forall o k,
               (get o k w0 = (Exc TypeError, w0) /\ get o k w1 = (Exc TypeError, w1))
               \/ exists x, get o k w0 = (Ret x, w0) /\ get o k w1 = (Ret x, w1)).
    { intros o k. destruct o; simpl; eauto; right; eexists;
        rewrite (read_field_heap _ _ _ _ Hh); eauto. }
    assert (Hkeys : forall o,
               (object_keys o w0 = (Exc TypeError, w0) /\ object_keys o w1 = (Exc TypeError, w1))
               \/ exists ks, object_keys o w0 = (Ret ks, w0) /\ object_keys o w1 = (Ret ks, w1)).
    { intros o. destruct o; simpl; eauto; right; eexists; unfold obj_at; rewrite Hh; eauto. }
    rewrite !(bind_runs (get this "state")).
    destruct (Hget this "state") as [[E E']|(s & E & E')]; rewrite E, E'; [done|].
    destruct (negb (strict_eq s nextState)); [done|].
    rewrite !(bind_runs (get this "props")).
    destruct (Hget this "props") as [[F F']|(p & F & F')]; rewrite F, F'; [done|].
    rewrite !(bind_runs (object_keys p)).
    destruct (Hkeys p) as [[G G']|(ks & G & G')]; rewrite G, G'; [done|].
    rewrite !(bind_runs (object_keys nextProps)).
    destruct (Hkeys nextProps) as [[I I']|(nks & I & I')]; rewrite I, I'; [done|].
    destruct (negb (Nat.eqb (length ks) (length nks))); [done|].
    split; [apply gate_loop_reads|by apply gate_loop_answer]. }
  split; [|split; [|split; [|split; [|split]]]].
  - rewrite shouldComponentUpdate_warns. apply (Hrun (gate_world w) (gate_world w)); done.
  - unfold gate_world. by destruct (truthy _).
  - unfold gate_world. by destruct (truthy _).
  - unfold gate_world. by destruct (truthy _).
  - unfold gate_world. by destruct (truthy _).
  - rewrite !shouldComponentUpdate_warns.
    apply (Hrun (gate_world w) (gate_world (with_static static w)));
      unfold gate_world; simpl; by repeat destruct (truthy _).
Qed.

(** X4. The gate is a query. On any arguments it leaves the world as it was,
    apart from the warning of static mode, also when it throws; and its
    answer is the same whatever [isUsingStaticRendering] holds: static
    mode adds the warning and changes no decision. *)
Theorem update_gate_is_a_query :
  forall (w : World) (this nextProps nextState static : value),
    snd (shouldComponentUpdate this nextProps nextState w) = gate_world w /\
    heap (gate_world w) = heap w /\
    scopes (gate_world w) = scopes w /\
    componentByNodeRegistery (gate_world w) = componentByNodeRegistery w /\
    trace (gate_world w)
    = (if truthy (isUsingStaticRendering w)
       then trace w ++ [EWarn "[mobx-react] It seems that a re-rendering of a React component is triggered while in static (server-side) mode. Please make sure components are rendered only once server-side."]
       else trace w)%list /\
    fst (shouldComponentUpdate this nextProps nextState (with_static static w))
    = fst (shouldComponentUpdate this nextProps nextState w).
Proof. exact shouldComponentUpdate_queries. Qed.

(** *** The gate behind an empty key *)

Lemma visited_stops pre post :
  Forall (fun key => key ≠ "") post ->
  visited (rev (pre ++ "" :: post)) = rev post.
Proof.
  intros Hp. rewrite rev_app_distr. cbn [rev]. rewrite <- app_assoc. cbn [app].
  assert (Hr : Forall (fun key => key ≠ "") (rev post)) by by apply Forall_rev.
  induction Hr as [|key ks Hk _ IH]; [done|]. cbn [app visited].
  destruct (String.eqb key "") eqn:E.
  - apply String.eqb_eq in E. done.
  - by rewrite IH.
Qed.

(** X5. Props with an empty-string key: the loop of lines 173-187 runs from
    the last key backwards and ends at the empty key, so that only the
    keys enumerated after it are compared. With an unchanged state and
    as many keys in the next props, the gate's answer is decided by
    those keys alone: a change of any prop enumerated before the empty
    key, or of the empty key's own value, is not seen. *)
Theorem update_gate_stops_at_an_empty_key :
  forall (w : World) (l lp ln : loc) (nextState : value) (pre post : list string),
    read_field w l "props" = VObject lp ->
    keys (fields (obj_at w lp)) = (pre ++ "" :: post)%list ->
    Forall (fun key => key ≠ "") post ->
    strict_eq (read_field w l "state") nextState = true ->
    length (keys (fields (obj_at w lp))) = length (keys (fields (obj_at w ln))) ->
    shouldComponentUpdate (VObject l) (VObject ln) nextState w
    = (Ret (VBool (existsb (key_forces_update w lp ln) (rev post))), gate_world w).
Proof.
  intros w l lp ln nextState pre post Hp Hk Hpost Hs Hlen.
  rewrite (shouldComponentUpdate_result _ _ _ _ _ Hp). unfold gate_result.
  rewrite Hs, <- Hlen, Nat.eqb_refl. cbn [negb orb].
  by rewrite Hk, visited_stops.
Qed.

(** *** The decorator on other arguments *)

(** X6. [observer] on a value that is neither an object nor a function
    throws and leaves the world as it was: the error of line 197 for a
    string (the empty one too), the language's TypeError for undefined
    and null (line 211) and for a truthy boolean or number (the
    assignment of line 57 on a primitive, in strict code), and the error
    of line 233 for [false], zero and NaN. *)
Theorem observer_never_decorates_a_primitive :
  forall (fuel : nat) (v arg2 : value) (w : World),
    ref_loc v = None ->
    observer (call fuel) v arg2 w
    = (Exc match v with
           | VString _ => Error "Store names should be provided as array"
           | VUndefined | VNull => TypeError
           | _ => if truthy v then TypeError
                  else Error "Please pass a valid component to 'observer'"
           end, w).
Proof.
  intros fuel v arg2 w Hv. destruct v as [| |b|n|s|l|l c]; try done.
  - by destruct b.
  - unfold observer. cbn [typeof jstype_eqb]. rewrite bind_runs, is_array_runs.
    cbn [array_shape]. cbv [bind get ret is_stateless is_function negb strict_eq].
    by destruct (truthy (VNumber n)).
Qed.

(** X7. [observer] with an array of store names (lines 199-207). Without a
    second argument it allocates a decorator and does nothing else; the
    decorator called with [componentClass] is [observer(arg1,
    componentClass)], whatever its [this] and further arguments, so
    called with nothing or with a falsy value it returns a decorator
    again instead of raising. With a truthy second argument,
    [inject.apply(null, arg1)] runs first, then [observer(arg2)], then
    the injector on the observed class. *)
Theorem observer_with_store_names :
  forall (w : World) (fuel : nat) (stores arg2 : value),
    array_shape w stores = true ->
    (truthy arg2 = false ->
     observer (call fuel) stores arg2 w
     = (Ret (VFunction (next w) (CDecorator stores)), allocated empty_object w)) /\
    (truthy arg2 = true ->
     observer (call (S fuel)) stores arg2 w
     = (injector <- inject_apply stores ;;
        observed <- observer (call fuel) arg2 VUndefined ;;
        call (S fuel) injector VUndefined [observed]) w) /\
    (forall (fuel' : nat) (this componentClass : value) (rest : list value) (w' : World),
        call (S (S fuel')) (VFunction (next w) (CDecorator stores)) this
             (componentClass :: rest) w'
        = observer (call fuel') stores componentClass w') /\
    (forall (fuel' : nat) (this : value) (w' : World),
        array_shape w' stores = true ->
        call (S (S fuel')) (VFunction (next w) (CDecorator stores)) this [] w'
        = (Ret (VFunction (next w') (CDecorator stores)), allocated empty_object w')).
Proof.
  intros w fuel stores arg2 Ha.
  assert (Hrun : forall fuel0 a2 w0,
             array_shape w0 stores = true ->
             observer (call fuel0) stores a2 w0
             = (if negb (truthy a2) then alloc_function (CDecorator stores)
                else
                  injector <- inject_apply stores ;;
                  observed <- call fuel0 observer_fn VUndefined [a2] ;;
                  call fuel0 injector VUndefined [observed]) w0).
  { intros fuel0 a2 w0 Ha0. unfold observer.
    assert (Hty : jstype_eqb (typeof stores) TString = false) by by destruct stores.
    rewrite Hty. by rewrite bind_runs, is_array_runs, Ha0. }
  split; [|split; [|split]].
  - intros Hf. rewrite Hrun by done. by rewrite Hf.
  - intros Ht. rewrite Hrun by done. by rewrite Ht.
  - done.
  - intros fuel' this w' Ha'.
    change (call (S (S fuel')) (VFunction (next w) (CDecorator stores)) this [] w')
      with (observer (call fuel') stores VUndefined w').
    by rewrite Hrun.
Qed.

Lemma patch_world_other_loc l funcName l' k w :
  l' < next w -> l' ≠ l ->
  read_field (patch_world l funcName w) l' k = read_field w l' k.
Proof.
  intros Hl Hne. unfold patch_world. destruct (truthy _).
  - rewrite read_write_other_loc by done. apply read_allocated. lia.
  - by rewrite read_write_other_loc.
Qed.

Lemma hooks_patched_other_loc lt l k w :
  l < next w -> l ≠ lt -> read_field (hooks_patched lt w) l k = read_field w l k.
Proof.
  intros Hl Hne. unfold hooks_patched.
  pose proof (patch_world_next lt "componentWillMount" w).
  pose proof (patch_world_next lt "componentWillUnmount" (patch_world lt "componentWillMount" w)).
  pose proof (patch_world_next lt "componentDidMount"
                (patch_world lt "componentWillUnmount" (patch_world lt "componentWillMount" w))).
  rewrite !patch_world_other_loc; done || lia.
Qed.

(** What [observer] leaves alone on a component class: every property
    but the four hooks, the gate and the mark. *)
Lemma read_decorated_key lc lt l k w :
  l < next w -> k ∉ patched_hooks ->
  k ≠ "shouldComponentUpdate" -> k ≠ "isMobXReactObserver" ->
  read_field (decorated lc lt w) l k = read_field w l k.
Proof.
  intros Hl Hk Hg Hm. unfold decorated. cbv zeta.
  rewrite read_write_other_key by done.
  assert (Hh : read_field (hooks_patched lt (injector_warned lc w)) l k = read_field w l k).
  { rewrite hooks_patched_other by (by rewrite ?next_injector_warned).
    apply read_injector_warned. }
  destruct (negb _); [|done]. by rewrite read_write_other_key.
Qed.

Lemma trace_patch_world l funcName w : trace (patch_world l funcName w) = trace w.
Proof. unfold patch_world. by destruct (truthy _). Qed.

Lemma trace_decorated lc lt w : trace (decorated lc lt w) = trace (injector_warned lc w).
Proof.
  unfold decorated. cbv zeta.
  assert (Hh : trace (hooks_patched lt (injector_warned lc w)) = trace (injector_warned lc w)).
  { unfold hooks_patched. by rewrite !trace_patch_world. }
  by destruct (negb _).
Qed.

Lemma read_decorated lc lt l k w :
  l < next w ->
  ~ (l = lt /\ (k ∈ patched_hooks \/ k = "shouldComponentUpdate")) ->
  ~ (l = lc /\ k = "isMobXReactObserver") ->
  read_field (decorated lc lt w) l k = read_field w l k.
Proof.
  intros Hl Hhook Hmark. unfold decorated. cbv zeta.
  assert (Hh : read_field (hooks_patched lt (injector_warned lc w)) l k = read_field w l k).
  { rewrite <- (read_injector_warned lc w l k).
    destruct (decide (l = lt)) as [->|Hne].
    - apply hooks_patched_other; [by rewrite next_injector_warned|].
      intros Hk. apply Hhook. split; [done|by left].
    - apply hooks_patched_other_loc; [by rewrite next_injector_warned|done]. }
  assert (Hg : forall w0, read_field w0 l k = read_field w l k ->
                 read_field (write_field lt "shouldComponentUpdate"
                               (reactiveMixin "shouldComponentUpdate") w0) l k
                 = read_field w l k).
  { intros w0 E0. destruct (decide (l = lt)) as [->|Hne].
    - rewrite read_write_other_key; [done|].
      intros <-. apply Hhook. split; [done|by right].
    - by rewrite read_write_other_loc. }
  assert (Hm : forall w0, read_field w0 l k = read_field w l k ->
                 read_field (write_field lc "isMobXReactObserver" (VBool true) w0) l k
                 = read_field w l k).
  { intros w0 E0. destruct (decide (l = lc)) as [->|Hne].
    - rewrite read_write_other_key; [done|].
      intros <-. by apply Hmark.
    - by rewrite read_write_other_loc. }
  apply Hm. destruct (negb _); [by apply Hg|done].
Qed.

(** Decoration writes to the store only. *)
Lemma decorated_rest lc lt w :
  scopes (decorated lc lt w) = scopes w /\
  frames (decorated lc lt w) = frames w /\
  componentByNodeRegistery (decorated lc lt w) = componentByNodeRegistery w /\
  host (decorated lc lt w) = host w /\
  isDevtoolsEnabled (decorated lc lt w) = isDevtoolsEnabled w /\
  isUsingStaticRendering (decorated lc lt w) = isUsingStaticRendering w.
Proof.
  unfold decorated, hooks_patched, patch_world, injector_warned. cbv zeta.
  repeat match goal with |- context [if ?b then _ else _] => destruct b end; done.
Qed.

(** X8. [observer] on a component class returns the class and changes
    the store that was there in the hooks only: of the properties of
    the objects that existed, all are as they were but the four
    lifecycle hooks and [shouldComponentUpdate] of the target, and
    [isMobXReactObserver] of the class, which is [true] afterwards. A
    property of the class itself that is named like a hook, and an
    [isMobXReactObserver] of the prototype, are left alone as well. The
    closure variables, the registry, the two switches and the outside
    state are as they were. *)
Theorem observer_changes_the_hooks_only :
  forall (w : World) (fuel : nat) (componentClass : value) (lc : loc)
         (arg2 target : value) (lt : loc),
    ref_loc componentClass = Some lc ->
    array_shape w componentClass = false ->
    stateless_shape w componentClass = false ->
    js_or (read_field w lc "prototype") componentClass = target ->
    ref_loc target = Some lt ->
    exists w' : World,
      observer (call fuel) componentClass arg2 w = (Ret componentClass, w') /\
      read_field w' lc "isMobXReactObserver" = VBool true /\
      (forall (l : loc) (k : string),
          l < next w ->
          ~ (l = lt /\ (k ∈ patched_hooks \/ k = "shouldComponentUpdate")) ->
          ~ (l = lc /\ k = "isMobXReactObserver") ->
          read_field w' l k = read_field w l k) /\
      scopes w' = scopes w /\
      frames w' = frames w /\
      componentByNodeRegistery w' = componentByNodeRegistery w /\
      host w' = host w /\
      isDevtoolsEnabled w' = isDevtoolsEnabled w /\
      isUsingStaticRendering w' = isUsingStaticRendering w.
Proof.
  intros w fuel cc lc arg2 target lt Hc Ha Hs Ht Hl.
  exists (decorated lc lt w). split; [by eapply observer_decorates|].
  split; [|split].
  - unfold decorated. by rewrite read_write_same.
  - intros l k. apply read_decorated.
  - apply decorated_rest.
Qed.

(** X9. A class that [inject] produced ([isInjector] truthy, lines 211-213)
    gets one warning, and is decorated and returned all the same; any
    other class gets none. *)
Theorem observer_warns_on_an_injector :
  forall (w : World) (fuel : nat) (componentClass : value) (lc : loc)
         (arg2 target : value) (lt : loc),
    ref_loc componentClass = Some lc ->
    array_shape w componentClass = false ->
    stateless_shape w componentClass = false ->
    js_or (read_field w lc "prototype") componentClass = target ->
    ref_loc target = Some lt ->
    fst (observer (call fuel) componentClass arg2 w) = Ret componentClass /\
    trace (snd (observer (call fuel) componentClass arg2 w))
    = (if truthy (read_field w lc "isInjector")
       then trace w ++ [EWarn "Mobx Observer: You are trying to use 'observer' on a component that already has 'inject'. Please apply 'observer' before applying 'inject'"]
       else trace w)%list.
Proof.
  intros w fuel cc lc arg2 target lt Hc Ha Hs Ht Hl.
  rewrite (observer_decorates _ _ _ _ _ _ _ Hc Ha Hs Ht Hl). split; [done|].
  cbn [snd]. rewrite trace_decorated. unfold injector_warned.
  destruct (read_field w lc "isInjector") as [| |[]|n|s|l|l c]; cbn [strict_eq negb andb]; try done.
  all: by destruct (truthy _).
Qed.

(** *** The decorator applied twice *)

Lemma isArray_write_field l k v w l' :
  isArray (obj_at (write_field l k v w) l') = isArray (obj_at w l').
Proof.
  unfold write_field, obj_at. simpl. destruct (decide (l = l')) as [->|Hne].
  - by rewrite lookup_insert_eq.
  - by rewrite lookup_insert_ne.
Qed.

Lemma isArray_allocated o w l' :
  l' ≠ next w -> isArray (obj_at (allocated o w) l') = isArray (obj_at w l').
Proof. intros Hne. unfold allocated, obj_at. simpl. by rewrite lookup_insert_ne. Qed.

Lemma isArray_patch_world l funcName w l' :
  l' < next w -> isArray (obj_at (patch_world l funcName w) l') = isArray (obj_at w l').
Proof.
  intros Hl. unfold patch_world. destruct (truthy _); rewrite isArray_write_field; [|done].
  apply isArray_allocated. lia.
Qed.

Lemma isArray_decorated lc lt w l' :
  l' < next w -> isArray (obj_at (decorated lc lt w) l') = isArray (obj_at w l').
Proof.
  intros Hl. unfold decorated. cbv zeta. rewrite isArray_write_field.
  assert (Hh : isArray (obj_at (hooks_patched lt (injector_warned lc w)) l')
               = isArray (obj_at w l')).
  { unfold hooks_patched.
    pose proof (patch_world_next lt "componentWillMount" (injector_warned lc w)).
    pose proof (patch_world_next lt "componentWillUnmount"
                  (patch_world lt "componentWillMount" (injector_warned lc w))).
    pose proof (patch_world_next lt "componentDidMount"
                  (patch_world lt "componentWillUnmount"
                     (patch_world lt "componentWillMount" (injector_warned lc w)))).
    pose proof (next_injector_warned lc w).
    rewrite !isArray_patch_world by lia.
    unfold injector_warned. by destruct (_ && _). }
  destruct (negb _); [|done]. by rewrite isArray_write_field.
Qed.

Lemma next_decorated lc lt w : next w <= next (decorated lc lt w).
Proof.
  unfold decorated. cbv zeta.
  assert (Hh : next w <= next (hooks_patched lt (injector_warned lc w))).
  { unfold hooks_patched.
    pose proof (patch_world_next lt "componentWillMount" (injector_warned lc w)).
    pose proof (patch_world_next lt "componentWillUnmount"
                  (patch_world lt "componentWillMount" (injector_warned lc w))).
    pose proof (patch_world_next lt "componentDidMount"
                  (patch_world lt "componentWillUnmount"
                     (patch_world lt "componentWillMount" (injector_warned lc w)))).
    pose proof (patch_world_next lt "componentDidUpdate"
                  (patch_world lt "componentDidMount"
                     (patch_world lt "componentWillUnmount"
                        (patch_world lt "componentWillMount" (injector_warned lc w))))).
    pose proof (next_injector_warned lc w). lia. }
  by destruct (negb _).
Qed.

(** X10. [observer] does not look at the mark it leaves. Applied again to a
    class it has decorated, it composes each of the four hooks once
    more, behind the hook the first application left (which is always a
    function), so that the mixin's function runs twice for each
    lifecycle event; the gate stays as the first application left it. *)
Theorem observer_twice_composes_twice :
  forall (w : World) (fuel fuel' : nat) (componentClass : value) (lc : loc)
         (arg2 arg2' target : value) (lt : loc),
    ref_loc componentClass = Some lc ->
    array_shape w componentClass = false ->
    stateless_shape w componentClass = false ->
    js_or (read_field w lc "prototype") componentClass = target ->
    ref_loc target = Some lt ->
    lc < next w ->
    lt < next w ->
    let w1 := snd (observer (call fuel) componentClass arg2 w) in
    let w2 := snd (observer (call fuel') componentClass arg2' w1) in
    read_field w1 lc "isMobXReactObserver" = VBool true /\
    fst (observer (call fuel') componentClass arg2' w1) = Ret componentClass /\
    (forall funcName : string,
        funcName ∈ patched_hooks ->
        is_function (read_field w1 lt funcName) = true /\
        exists lf : loc,
          read_field w2 lt funcName
          = VFunction lf (CPatched (read_field w1 lt funcName) (reactiveMixin funcName))) /\
    read_field w2 lt "shouldComponentUpdate" = read_field w1 lt "shouldComponentUpdate".
Proof.
  intros w fuel fuel' cc lc arg2 arg2' target lt Hc Ha Hs Ht Hl Hlc Hlt w1 w2.
  assert (E1 : w1 = decorated lc lt w).
  { subst w1. by rewrite (observer_decorates _ _ _ _ _ _ _ Hc Ha Hs Ht Hl). }
  assert (Hproto : read_field w1 lc "prototype" = read_field w lc "prototype").
  { rewrite E1. apply read_decorated_key; try done.
    rewrite patched_hooks_spec. intros [|[|[|]]]; done. }
  assert (Ha1 : array_shape w1 cc = false).
  { rewrite <- Ha. destruct cc; try done. simpl. rewrite E1. simpl in Hc.
    injection Hc as ->. by apply isArray_decorated. }
  assert (Hs1 : stateless_shape w1 cc = false).
  { rewrite <- Hs. destruct cc as [| | | | | |l c]; try done. simpl in Hc.
    injection Hc as ->. unfold stateless_shape. rewrite Hproto.
    assert (Hreact : read_field w1 lc "isReactClass" = read_field w lc "isReactClass").
    { rewrite E1. apply read_decorated_key; try done.
      rewrite patched_hooks_spec. intros [|[|[|]]]; done. }
    rewrite Hreact.
    assert (Hrender : prop_of w1 (read_field w lc "prototype") "render"
                      = prop_of w (read_field w lc "prototype") "render").
    { unfold prop_of. destruct (ref_loc (read_field w lc "prototype")) as [lp|] eqn:Ep; [|done].
      assert (Etarget : target = read_field w lc "prototype").
      { rewrite <- Ht. unfold js_or.
        by destruct (read_field w lc "prototype"). }
      assert (lp = lt) as -> by (rewrite Etarget in Hl; congruence).
      rewrite E1. apply read_decorated_key; try done.
      rewrite patched_hooks_spec. intros [|[|[|]]]; done. }
    by rewrite Hrender. }
  assert (Ht1 : js_or (read_field w1 lc "prototype") cc = target)
    by by rewrite Hproto.
  assert (E2 : observer (call fuel') cc arg2' w1 = (Ret cc, decorated lc lt w1)).
  { by apply (observer_decorates _ _ _ _ target). }
  assert (Hlt1 : lt < next w1).
  { rewrite E1. pose proof (next_decorated lc lt w). lia. }
  split; [|split; [|split]].
  - rewrite E1. unfold decorated. by rewrite read_write_same.
  - by rewrite E2.
  - intros funcName Hf.
    assert (Hfun : is_function (read_field w1 lt funcName) = true).
    { pose proof (decorated_hook lc lt funcName w Hlt Hf) as Hh. rewrite <- E1 in Hh.
      destruct (truthy (read_field w lt funcName)).
      - destruct Hh as [lf ->]. done.
      - rewrite Hh. apply patched_hooks_spec in Hf as [-> | [-> | [-> | ->]]]; done. }
    split; [done|].
    pose proof (decorated_hook lc lt funcName w1 Hlt1 Hf) as Hh.
    assert (Htr : truthy (read_field w1 lt funcName) = true).
    { by destruct (read_field w1 lt funcName). }
    rewrite Htr in Hh. unfold w2. rewrite E2. exact Hh.
  - unfold w2. rewrite E2. cbn [snd]. rewrite decorated_gate by done.
    assert (Htr : truthy (read_field w1 lt "shouldComponentUpdate") = true).
    { rewrite E1, decorated_gate by done.
      destruct (truthy (read_field w lt "shouldComponentUpdate")) eqn:E; [done|]. done. }
    by rewrite Htr.
Qed.

(** *** Mounting an instance that cannot render *)

(** [componentWillMount] up to line 79: the name and the id are read,
    nothing is written. *)
Lemma componentWillMount_binds fuel l w :
  strict_eq (isUsingStaticRendering w) (VBool true) = false ->
  componentWillMount (call fuel) (VObject l) w
  = (baseRender <- bind_render (call fuel) (VObject l) ;;
     e <- new_scope (mkScope (VObject l) (initial_name w l) (root_node_id w l)
                             baseRender VNull false VUndefined) ;;
     initialRenderFn <- alloc_function (CInitialRender e) ;;
     reactiveRenderFn <- alloc_function (CReactiveRender e) ;;
     update_scope e (fun s => mkScope (s_this s) (s_initialName s) (s_rootNodeID s)
                                      (s_baseRender s) (s_reaction s)
                                      (s_isRenderingPending s) reactiveRenderFn) ;;;
     set (VObject l) "render" initialRenderFn ;;;
     ret VUndefined) w.
Proof.
  intros Hs. unfold componentWillMount.
  rewrite bind_static_rendering, Hs. rewrite (bind_get _ l) by done.
  assert (Hname : forall B (k : value -> M B),
             bind (if truthy (read_field w l "displayName")
                   then ret (read_field w l "displayName") else
                   name <- get (VObject l) "name" ;;
                   if truthy name then ret name else
                   ctor <- get (VObject l) "constructor" ;;
                   fromCtor <-
                     (if truthy ctor then
                        ctor' <- get (VObject l) "constructor" ;;
                        ctorDisplayName <- get ctor' "displayName" ;;
                        if truthy ctorDisplayName then ret ctorDisplayName
                        else (ctor'' <- get (VObject l) "constructor" ;; get ctor'' "name")
                      else ret ctor) ;;
                   if truthy fromCtor then ret fromCtor else ret (VString "<component>")) k w
             = k (initial_name w l) w).
  { intros B k. unfold initial_name.
    destruct (truthy (read_field w l "displayName")); [done|].
    rewrite bind_assoc, (bind_get _ l) by done.
    destruct (truthy (read_field w l "name")); [done|].
    rewrite bind_assoc, (bind_get _ l) by done. rewrite bind_assoc.
    destruct (truthy (read_field w l "constructor")) eqn:Ec.
    - rewrite bind_assoc, (bind_get _ l) by done. rewrite bind_assoc.
      rewrite bind_runs, (get_truthy _ _ _ Ec).
      destruct (truthy (prop_of w (read_field w l "constructor") "displayName")) eqn:Ed.
      + rewrite bind_ret. by rewrite Ed.
      + rewrite bind_assoc, (bind_get _ l) by done.
        rewrite bind_runs, (get_truthy _ _ _ Ec).
        by destruct (truthy (prop_of w (read_field w l "constructor") "name")).
    - rewrite bind_ret. by rewrite Ec. }
  rewrite Hname. rewrite (bind_get _ l) by done.
  assert (Hid : forall B (k : value -> M B),
             bind (if truthy (read_field w l "_reactInternalInstance")
                   then (internal' <- get (VObject l) "_reactInternalInstance" ;;
                         get internal' "_rootNodeID")
                   else ret (read_field w l "_reactInternalInstance")) k w
             = k (root_node_id w l) w).
  { intros B k. unfold root_node_id.
    destruct (truthy (read_field w l "_reactInternalInstance")) eqn:Ei; [|done].
    rewrite bind_assoc, (bind_get _ l) by done.
    by rewrite bind_runs, (get_truthy _ _ _ Ei). }
  by rewrite Hid.
Qed.

(** X11. An instance whose [render] cannot be bound (line 79): it is not a
    function and has no [bind] method of its own, as when it is missing.
    [componentWillMount] raises the language's TypeError and leaves the
    instance as it was: [render] is not replaced, no closure variable is
    created. *)
Theorem componentWillMount_needs_a_render :
  forall (w : World) (fuel : nat) (l : loc),
    strict_eq (isUsingStaticRendering w) (VBool true) = false ->
    is_function (read_field w l "render") = false ->
    is_function (prop_of w (read_field w l "render") "bind") = false ->
    componentWillMount (call (S fuel)) (VObject l) w = (Exc TypeError, w).
Proof.
  intros w fuel l Hs Hr Hb. rewrite componentWillMount_binds by done.
  rewrite bind_runs. unfold bind_render. rewrite (bind_get _ l) by done.
  rewrite Hr. unfold invoke.
  destruct (read_field w l "render") as [| |b|n|s|lr|lr c] eqn:Er; try done.
  - unfold prop_of in Hb. simpl in Hb. rewrite (bind_get _ lr) by done.
    by destruct (read_field w lr "bind").
Qed.
(** *** Unmounting an instance that cannot render *)

(** X12. [componentWillUnmount] (static rendering off) on an instance whose
    [render] is undefined or null raises the language's TypeError on
    line 132, before the unmounted flag is set: the world is as it was. *)
Theorem componentWillUnmount_needs_a_render :
  forall (w : World) (fuel : nat) (l : loc),
    strict_eq (isUsingStaticRendering w) (VBool true) = false ->
    nullish (read_field w l "render") = true ->
    componentWillUnmount (call fuel) (VObject l) w = (Exc TypeError, w).
Proof.
  intros w fuel l Hs Hn.
  unfold componentWillUnmount. rewrite bind_static_rendering, Hs.
  rewrite (bind_get _ l) by done.
  by destruct (read_field w l "render").
Qed.

(** *** What a render returns *)

(** A reactive render (lines 111-124), in full: what it returns, where
    the pending flag and the trace stand, and the two timestamps. *)
Lemma reactiveRender_outcome fuel l e r id w :
  tracking w l e r ->
  renders_with w l e id ->
  r < next w ->
  l < next w ->
  let run := reactiveRender (call (S (S (S (S fuel))))) e w in
  let entered := native id (VObject l) [] (render_host w) in
  fst run = lift (fst entered) /\
  read_field (snd run) l "__$mobRenderStart"
  = (if isDevtoolsEnabled w then fst (host_now (host w))
     else read_field w l "__$mobRenderStart") /\
  read_field (snd run) l "__$mobRenderEnd"
  = (match isDevtoolsEnabled w, fst entered with
     | true, Returns _ => fst (host_now (snd entered))
     | _, _ => read_field w l "__$mobRenderEnd"
     end).
Proof.
  intros [Ht Hr Htrack _] (lb & lu & Hb) Hlt Hl run entered. subst run.
  unfold reactiveRender. rewrite bind_update_scope. fold (pending false e w).
  rewrite bind_new_frame, bind_alloc_function, bind_read_scope.
  lazymatch goal with
  | |- context [s_reaction (scope_at ?W e)] => set (w0 := W)
  end.
  assert (Hs0 : scope_at w0 e = set_pending false (scope_at w e)).
  { unfold scope_at, w0, allocated, pending. simpl. by rewrite lookup_insert_eq. }
  assert (Hrd0 : forall l' k, l' < next w -> read_field w0 l' k = read_field w l' k).
  { intros l' k Hl'. unfold w0. rewrite read_allocated by (simpl; lia). done. }
  rewrite Hs0. simpl s_reaction. rewrite Hr.
  unfold invoke. rewrite bind_assoc, (bind_get _ r) by done.
  rewrite Hrd0, Htrack by done.
  rewrite bind_runs.
  lazymatch goal with
  | |- context [call _ (VFunction track_loc CReactionTrack) (VObject r) [?body] w0] =>
      change (call (S (S (S (S fuel)))) (VFunction track_loc CReactionTrack) (VObject r) [body] w0)
        with (reaction_track (call (S (S (S fuel)))) (VObject r) body w0)
  end.
  unfold reaction_track. rewrite bind_log, bind_runs.
  set (w1 := with_trace (trace w0 ++ [ETrack (VObject r)]) w0).
  lazymatch goal with
  | |- context [call _ (VFunction ?lt (CTracked e ?a)) VUndefined [] w1] =>
      change (call (S (S (S fuel))) (VFunction lt (CTracked e a)) VUndefined [] w1)
        with (tracked (call (S (S fuel))) e a w1)
  end.
  assert (Hs1 : scope_at w1 e = set_pending false (scope_at w e)).
  { change (scope_at w1 e) with (scope_at w0 e). by rewrite Hs0. }
  assert (Hbase : forall w',
             call (S (S fuel)) (VFunction lb (CBound (VFunction lu (CNative id)) (VObject l)))
                  VUndefined [] w'
             = (lift (fst (native id (VObject l) [] (host w'))),
                with_host (snd (native id (VObject l) [] (host w')))
                          (with_trace (trace w' ++ [ECall id (VObject l) []]) w'))).
  { intros w'. simpl call. apply foreign_runs. }
  assert (Hd1 : isDevtoolsEnabled w1 = isDevtoolsEnabled w) by done.
  assert (Hh1 : host w1 = host w) by done.
  assert (Hrd1 : forall k, read_field w1 l k = read_field w l k).
  { intros k. change (read_field w1 l k) with (read_field w0 l k). by apply Hrd0. }
  unfold tracked. rewrite bind_read_scope, bind_devtools, Hs1, Hd1.
  cbn [s_this s_baseRender set_pending]. rewrite Ht, Hb.
  subst entered. unfold render_host.
  destruct (isDevtoolsEnabled w) eqn:Hd.
  - rewrite bind_assoc, bind_Date_now, (bind_set _ l) by done.
    rewrite bind_runs, Hbase. cbn [host with_host write_field with_heap]. rewrite Hh1.
    destruct (native id (VObject l) [] (snd (host_now (host w)))) as [[v|x] h];
      cbn [lift fst snd].
    + rewrite bind_write_frame, bind_devtools. simpl isDevtoolsEnabled. rewrite Hd.
      rewrite bind_assoc, bind_Date_now, (bind_set _ l) by done.
      cbv beta iota delta [ret bind read_frame fst snd]. cbn [fst snd].
      split; [|split].
      * simpl. by rewrite lookup_insert_eq.
      * rewrite read_write_other_key by done. read_past. by rewrite read_write_same.
      * by rewrite read_write_same.
    + cbv beta iota delta [ret bind read_frame fst snd]. cbn [fst snd].
      split; [done|split].
      * read_past. by rewrite read_write_same.
      * read_past. apply Hrd1.
  - rewrite bind_ret. rewrite bind_runs, Hbase. rewrite Hh1.
    destruct (native id (VObject l) [] (host w)) as [[v|x] h]; cbn [lift fst snd].
    + rewrite bind_write_frame, bind_devtools. simpl isDevtoolsEnabled. rewrite Hd.
      rewrite bind_ret.
      cbv beta iota delta [ret bind read_frame fst snd]. cbn [fst snd].
      split; [|split].
      * simpl. by rewrite lookup_insert_eq.
      * read_past. apply Hrd1.
      * read_past. apply Hrd1.
    + cbv beta iota delta [ret bind read_frame fst snd]. cbn [fst snd].
      split; [done|split]; read_past; apply Hrd1.
Qed.

(** X13. A render as the host asks for it, through [this.render], whatever
    [this] and arguments it passes: the user's [render] is entered once,
    on the instance and without arguments, under the tracker; what it
    returns is returned and what it throws is thrown; the pending flag
    is cleared in both cases. *)
Theorem reactive_render_returns_the_users_rendering :
  forall (w : World) (fuel : nat) (l e r lr : loc) (id : nat)
         (this : value) (args : list value),
    tracking w l e r ->
    rendering_reactively w l e r lr ->
    renders_with w l e id ->
    r < next w ->
    l < next w ->
    let run := call (S (S (S (S (S fuel))))) (read_field w l "render") this args w in
    fst run = lift (fst (native id (VObject l) [] (render_host w))) /\
    is_pending (snd run) e = false /\
    trace (snd run) = (trace w ++ [ETrack (VObject r); ECall id (VObject l) []])%list.
Proof.
  intros w fuel l e r lr id this args Htr [Hrender _] Hb Hr Hl run.
  assert (E : run = reactiveRender (call (S (S (S (S fuel))))) e w).
  { subst run. by rewrite Hrender. }
  rewrite E.
  destruct (reactiveRender_outcome fuel l e r id w Htr Hb Hr Hl) as (O & _).
  destruct (reactiveRender_runs fuel l e r id w Htr Hb Hr) as (P & _ & T & _).
  done.
Qed.

(** X14. With the devtools on, a render leaves on the instance the clock's
    reading from before the user's [render] was entered, and, when it
    returned, the reading from after; a [render] that throws leaves the
    end time of the render before. With the devtools off the clock is
    not read and neither property is written. *)
Theorem render_times_are_recorded :
  forall (w : World) (fuel : nat) (l e r : loc) (id : nat),
    tracking w l e r ->
    renders_with w l e id ->
    r < next w ->
    l < next w ->
    let w' := snd (reactiveRender (call (S (S (S (S fuel))))) e w) in
    let entered := native id (VObject l) [] (render_host w) in
    read_field w' l "__$mobRenderStart"
    = (if isDevtoolsEnabled w then fst (host_now (host w))
       else read_field w l "__$mobRenderStart") /\
    read_field w' l "__$mobRenderEnd"
    = (match isDevtoolsEnabled w, fst entered with
       | true, Returns _ => fst (host_now (snd entered))
       | _, _ => read_field w l "__$mobRenderEnd"
       end).
Proof.
  intros w fuel l e r id Htr Hb Hr Hl w' entered.
  by destruct (reactiveRender_outcome fuel l e r id w Htr Hb Hr Hl) as (_ & S & E).
Qed.

(** *** Reports *)

Lemma emits_app t t' : emits (t ++ t') = emits t + emits t'.
Proof. induction t as [|[] t IH]; simpl; lia. Qed.

Lemma findDOMNode_runs component w :
  findDOMNode component w
  = (lift (fst (found_node component w)), with_host (snd (found_node component w)) w).
Proof.
  unfold findDOMNode, found_node. destruct ReactDOM as [find|].
  - unfold on_host. by destruct (find component (host w)).
  - unfold ret. by destruct w.
Qed.

Lemma with_registry_same w : with_registry (componentByNodeRegistery w) w = w.
Proof. by destruct w. Qed.

Lemma weakmap_set_runs node n v m w :
  ref_loc node = Some n ->
  componentByNodeRegistery w = Some m ->
  weakmap_set node v w = (Ret VUndefined, with_registry (Some (<[n := v]> m)) w).
Proof.
  intros En Er. unfold weakmap_set. rewrite Er.
  destruct node; try done; simpl in En; by injection En as ->.
Qed.

Lemma weakmap_delete_runs node n m w :
  ref_loc node = Some n ->
  componentByNodeRegistery w = Some m ->
  weakmap_delete node w = (Ret VUndefined, with_registry (Some (delete n m)) w).
Proof.
  intros En Er. unfold weakmap_delete. rewrite Er.
  destruct node; try done; simpl in En; by injection En as ->.
Qed.

Lemma registered_insert m n v w :
  componentByNodeRegistery w = Some m ->
  forall w', componentByNodeRegistery w' = Some (<[n := v]> m) ->
  registered w' n = Some v /\ forall n', n' ≠ n -> registered w' n' = registered w n'.
Proof.
  intros E w' E'. unfold registered. rewrite E, E'. split.
  - by rewrite lookup_insert_eq.
  - intros n' Hn. by rewrite lookup_insert_ne.
Qed.

(** [reportRendering] (lines 24-36) when [findDOMNode] returns a node
    that is an object or falsy. *)
Lemma reportRendering_runs l node w :
  fst (found_node (VObject l) w) = Returns node ->
  (truthy node = true -> is_Some (ref_loc node)) ->
  let h1 := snd (found_node (VObject l) w) in
  let reg := match componentByNodeRegistery w, ref_loc node with
             | Some m, Some n => Some (<[n := VObject l]> m)
             | other, _ => other
             end in
  reportRendering (VObject l) w
  = (Ret VUndefined,
     with_trace (trace w ++ [EEmit (render_report w l node (fst (host_now h1)))])
                (with_host (snd (host_now h1)) (with_registry reg w))).
Proof.
  intros Hf Hn h1 reg. unfold reportRendering.
  rewrite bind_runs, findDOMNode_runs, Hf. cbn [lift]. fold h1.
  unfold registry_defined at 1. rewrite bind_runs. cbv beta iota.
  rewrite bind_runs.
  assert (Hset :
            (if truthy node && match componentByNodeRegistery (with_host h1 w) with
                               | Some _ => true | None => false end
             then weakmap_set node (VObject l) else ret VUndefined) (with_host h1 w)
            = (Ret VUndefined, with_registry reg (with_host h1 w))).
  { subst reg.
    change (componentByNodeRegistery (with_host h1 w)) with (componentByNodeRegistery w).
    destruct (componentByNodeRegistery w) as [m|] eqn:Er.
    - destruct (truthy node) eqn:Et; cbn [andb].
      + destruct (Hn eq_refl) as [n En]. rewrite En.
        by apply weakmap_set_runs.
      + assert (Hreg : match ref_loc node with
                       | Some n => Some (<[n := VObject l]> m)
                       | None => Some m
                       end = componentByNodeRegistery (with_host h1 w)).
        { simpl. rewrite Er. by destruct node. }
        rewrite Hreg. by rewrite with_registry_same.
    - rewrite andb_false_r.
      assert (Hreg : @None (gmap loc value) = componentByNodeRegistery (with_host h1 w)).
      { simpl. by rewrite Er. }
      rewrite Hreg. by rewrite with_registry_same. }
  rewrite Hset. rewrite !(bind_get _ l) by done. rewrite bind_Date_now.
  rewrite (bind_get _ l) by done. rewrite bind_log. unfold ret, render_report.
  read_past. reflexivity.
Qed.

(** The report of an unmount (lines 134-144) with the devtools on. *)
Lemma report_destroyed_runs this node w :
  isDevtoolsEnabled w = true ->
  fst (found_node this w) = Returns node ->
  let h1 := snd (found_node this w) in
  let reg := match componentByNodeRegistery w, ref_loc node with
             | Some m, Some n => Some (delete n m)
             | other, _ => other
             end in
  report_destroyed this w
  = (Ret VUndefined,
     with_trace (trace w ++ [EEmit [("event", VString "destroy");
                                    ("component", this); ("node", node)]])
                (with_registry reg (with_host h1 w))).
Proof.
  intros Hd Hf h1 reg. unfold report_destroyed. rewrite bind_devtools, Hd.
  rewrite bind_runs, findDOMNode_runs, Hf. cbn [lift]. fold h1.
  unfold registry_defined at 1. rewrite bind_runs. cbv beta iota.
  rewrite bind_runs.
  assert (Hdel :
            (if truthy node && match componentByNodeRegistery (with_host h1 w) with
                               | Some _ => true | None => false end
             then weakmap_delete node else ret VUndefined) (with_host h1 w)
            = (Ret VUndefined, with_registry reg (with_host h1 w))).
  { subst reg.
    change (componentByNodeRegistery (with_host h1 w)) with (componentByNodeRegistery w).
    destruct (componentByNodeRegistery w) as [m|] eqn:Er.
    - destruct (ref_loc node) as [n|] eqn:En.
      + assert (Et : truthy node = true) by by destruct node.
        rewrite Et. cbn [andb]. by apply weakmap_delete_runs.
      + assert (Hreg : Some m = componentByNodeRegistery (with_host h1 w)).
        { simpl. by rewrite Er. }
        rewrite Hreg, with_registry_same.
        destruct (truthy node); cbn [andb]; [|done].
        unfold weakmap_delete. rewrite <- Hreg. by destruct node.
    - rewrite andb_false_r.
      assert (Hreg : @None (gmap loc value) = componentByNodeRegistery (with_host h1 w)).
      { simpl. by rewrite Er. }
      rewrite Hreg. by rewrite with_registry_same. }
  rewrite Hdel. by rewrite bind_log.
Qed.

(** X15. [componentDidMount] and [componentDidUpdate] (lines 147-157) do the
    same. With the devtools off they do nothing. With the devtools on,
    when [findDOMNode] returns a node (an object, or a falsy value such
    as the null of a host without [ReactDOM]), they emit one report,
    with the render time and the total time computed from the
    timestamps of the instance, and register the instance under the
    node when there is a node and a registry; no other registration
    and nothing in the store changes. *)
Theorem rendering_is_reported :
  forall (w : World) (l : loc) (node : value),
    fst (found_node (VObject l) w) = Returns node ->
    (truthy node = true -> is_Some (ref_loc node)) ->
    let w' := snd (componentDidUpdate (VObject l) w) in
    componentDidMount (VObject l) w = componentDidUpdate (VObject l) w /\
    fst (componentDidUpdate (VObject l) w) = Ret VUndefined /\
    (isDevtoolsEnabled w = false -> w' = w) /\
    (isDevtoolsEnabled w = true ->
     trace w'
     = (trace w ++ [EEmit (render_report w l node
                             (fst (host_now (snd (found_node (VObject l) w)))))])%list /\
     heap w' = heap w /\
     (forall n, ref_loc node = Some n -> componentByNodeRegistery w ≠ None ->
                registered w' n = Some (VObject l)) /\
     (forall n, ref_loc node ≠ Some n -> registered w' n = registered w n)).
Proof.
  intros w l node Hf Hn w'. split; [done|].
  subst w'. unfold componentDidUpdate. rewrite bind_devtools.
  destruct (isDevtoolsEnabled w) eqn:Hd.
  - rewrite (reportRendering_runs l node w Hf Hn). cbn [fst snd].
    split; [done|]. split; [done|]. intros _. split; [done|]. split; [done|].
    unfold registered. cbn [componentByNodeRegistery with_trace with_host with_registry].
    split.
    + intros n En Hr. rewrite En.
      destruct (componentByNodeRegistery w) as [m|]; [|done]. by rewrite lookup_insert_eq.
    + intros n En. destruct (componentByNodeRegistery w) as [m|]; [|done].
      destruct (ref_loc node) as [n'|]; [|done].
      rewrite lookup_insert_ne; [done|congruence].
  - split; [done|]. split; [done|]. done.
Qed.

(** X16. With the devtools on and a host that finds the same node for the
    instance every time: after [componentDidMount] the registry maps
    the node to the instance, and after [componentWillUnmount] the node
    is registered no more, while the other registrations are as they
    were before the mount; a ["render"] report was emitted, then a
    ["destroy"] report for the instance and its node. *)
Theorem registry_follows_the_lifecycle :
  forall (w : World) (fuel : nat) (l e r lr n : loc)
         (find : value -> H -> result value * H),
    isDevtoolsEnabled w = true ->
    ReactDOM = Some find ->
    (forall h, fst (find (VObject l) h) = Returns (VObject n)) ->
    componentByNodeRegistery w ≠ None ->
    tracking w l e r ->
    rendering_reactively w l e r lr ->
    strict_eq (isUsingStaticRendering w) (VBool true) = false ->
    let w1 := snd (componentDidMount (VObject l) w) in
    let w2 := snd (componentWillUnmount (call (S fuel)) (VObject l) w1) in
    registered w1 n = Some (VObject l) /\
    registered w2 n = None /\
    (forall n', n' ≠ n -> registered w2 n' = registered w n') /\
    emits (trace w2) = S (S (emits (trace w))) /\
    exists t, trace w2 = (t ++ [EEmit [("event", VString "destroy");
                                       ("component", VObject l);
                                       ("node", VObject n)]])%list.
Proof.
  intros w fuel l e r lr n find Hd Hdom Hfind Hreg Htr Hrr Hs w1 w2.
  assert (Hfound : forall w0, fst (found_node (VObject l) w0) = Returns (VObject n)).
  { intros w0. unfold found_node. rewrite Hdom. apply Hfind. }
  destruct (componentByNodeRegistery w) as [m|] eqn:Er; [|done].
  assert (E1 : componentDidMount (VObject l) w
               = (Ret VUndefined,
                  with_trace (trace w ++ [EEmit (render_report w l (VObject n)
                                (fst (host_now (snd (found_node (VObject l) w)))))])
                    (with_host (snd (host_now (snd (found_node (VObject l) w))))
                       (with_registry (Some (<[n := VObject l]> m)) w)))).
  { unfold componentDidMount. rewrite bind_devtools, Hd.
    rewrite (reportRendering_runs l (VObject n) w (Hfound w)) by (simpl; eauto).
    by rewrite Er. }
  assert (Hw1 : w1 = with_trace (trace w ++ [EEmit (render_report w l (VObject n)
                                (fst (host_now (snd (found_node (VObject l) w)))))])
                    (with_host (snd (host_now (snd (found_node (VObject l) w))))
                       (with_registry (Some (<[n := VObject l]> m)) w))).
  { subst w1. by rewrite E1. }
  assert (Htr1 : tracking w1 l e r).
  { rewrite Hw1. destruct Htr. by split. }
  assert (Hrr1 : rendering_reactively w1 l e r lr).
  { rewrite Hw1. destruct Hrr. by split. }
  assert (Hs1 : strict_eq (isUsingStaticRendering w1) (VBool true) = false)
    by by rewrite Hw1.
  assert (E2 : w2 = snd (report_destroyed (VObject l)
                      (write_field l "__$mobxIsUnmounted" (VBool true)
                         (write_field r "isDisposed" (VBool true)
                            (with_trace (trace w1 ++ [EDispose (VObject r)]) w1))))).
  { subst w2. by rewrite (componentWillUnmount_tracking _ _ _ _ _ _ Htr1 Hrr1 Hs1). }
  rewrite (report_destroyed_runs _ (VObject n)) in E2; [|by rewrite Hw1|apply Hfound].
  cbn [snd] in E2.
  split; [|split; [|split; [|split]]].
  - rewrite Hw1. unfold registered. simpl. by rewrite lookup_insert_eq.
  - rewrite E2, Hw1. unfold registered. simpl. by rewrite lookup_delete_eq.
  - intros n' Hn'. rewrite E2, Hw1. unfold registered. simpl. rewrite Er.
    rewrite lookup_delete_ne by done. by rewrite lookup_insert_ne.
  - rewrite E2, Hw1. simpl. rewrite !emits_app. simpl. lia.
  - rewrite E2. simpl. eauto.
Qed.
(** *** The first render *)

(** The initial render (lines 83-109) on a freshly mounted instance, up
    to its call of the reactive render. *)
Lemma initialRender_runs fuel l lu id this args w :
  l < next w ->
  let w1 := mounted_world l (VFunction lu (CNative id)) w in
  let e := S (next w) in
  let lr := S (S (S (next w))) in
  let r := S (S (S (S (S (next w))))) in
  let name := to_string (initial_name w l) ++ "#" ++ to_string (root_node_id w l) ++ ".render()" in
  exists wc : World,
    call (S fuel) (VFunction (S (S (next w))) (CInitialRender e)) this args w1
    = reactiveRender (call fuel) e wc /\
    tracking wc l e r /\
    renders_with wc l e id /\
    next wc = S r /\
    trace wc = (trace w ++ [ENewReaction (VObject r) name])%list /\
    isDevtoolsEnabled wc = isDevtoolsEnabled w /\
    host wc = host w /\
    read_field wc l "render" = VFunction lr (CReactiveRender e) /\
    read_field wc lr "$mobx" = VObject r /\
    read_field wc r "name" = VString name /\
    read_field wc r "isDisposed" = VBool false /\
    read_field wc r "onInvalidate" = VFunction (S (S (S (S (next w))))) (COnInvalidate e).
Proof.
  intros Hl w1 e lr r name.
  assert (Hsc1 : scope_at w1 e
                 = mkScope (VObject l) (initial_name w l) (root_node_id w l)
                           (VFunction (next w) (CBound (VFunction lu (CNative id)) (VObject l)))
                           VNull false (VFunction lr (CReactiveRender e))).
  { unfold w1, mounted_world, scope_at. cbv zeta. simpl. by rewrite lookup_insert_eq. }
  assert (Hn1 : next w1 = S (S (S (S (next w))))) by done.
  set (handler := VFunction (next w1) (COnInvalidate e)).
  set (robj := mkObject [("name", VString name); ("onInvalidate", handler);
                         ("isDisposed", VBool false);
                         ("track", VFunction track_loc CReactionTrack);
                         ("dispose", VFunction dispose_loc CReactionDispose)] false).
  set (wa := allocated robj (allocated empty_object w1)).
  set (wt := with_trace (trace wa ++ [ENewReaction (VObject r) name]) wa).
  set (wb := with_scopes (<[e := set_reaction (VObject r) (scope_at wt e)]> (scopes wt)) wt).
  set (wc := write_field l "render" (VFunction lr (CReactiveRender e))
               (write_field lr "$mobx" (VObject r) wb)).
  exists wc.
  assert (Hscc : scope_at wc e
                 = mkScope (VObject l) (initial_name w l) (root_node_id w l)
                           (VFunction (next w) (CBound (VFunction lu (CNative id)) (VObject l)))
                           (VObject r) false (VFunction lr (CReactiveRender e))).
  { unfold wc, wb, scope_at at 1. simpl. rewrite lookup_insert_eq.
    change (scope_at wt e) with (scope_at w1 e). by rewrite Hsc1. }
  assert (Hreadr : forall k, k ≠ "render" -> k ≠ "$mobx" ->
             read_field wc r k = match field k (fields robj) with Some v => v | None => VUndefined end).
  { intros k Hk1 Hk2. unfold wc. rewrite !read_write_other_key by done.
    unfold wb, wt. autorewrite with store. unfold wa.
    assert (Er : r = next (allocated empty_object w1)) by done.
    rewrite Er. apply read_allocated_new. }
  split; [|split; [|split; [|split; [|split; [|split; [|split; [|split; [|split; [|split; [|split]]]]]]]]]].
  - change (call (S fuel) (VFunction (S (S (next w))) (CInitialRender e)) this args w1)
      with (initialRender (call fuel) e w1).
    unfold initialRender.
    rewrite bind_read_scope, Hsc1. cbn [s_initialName s_rootNodeID].
    rewrite bind_alloc_function. unfold new_Reaction.
    rewrite bind_assoc, bind_alloc_object, bind_assoc, bind_log, bind_ret.
    rewrite bind_update_scope, bind_read_scope.
    assert (Enext : next (allocated empty_object w1) = r) by done.
    rewrite Enext.
    fold handler. fold name. fold robj. fold wa. fold wt.
    change (with_scopes (<[e := set_reaction (VObject r) (scope_at wt e)]> (scopes wt)) wt)
      with wb.
    assert (Hscb : scope_at wb e
                   = mkScope (VObject l) (initial_name w l) (root_node_id w l)
                             (VFunction (next w) (CBound (VFunction lu (CNative id)) (VObject l)))
                             (VObject r) false (VFunction lr (CReactiveRender e))).
    { unfold wb, scope_at at 1. simpl. rewrite lookup_insert_eq.
      change (scope_at wt e) with (scope_at w1 e). by rewrite Hsc1. }
    rewrite Hscb. cbn [s_reactiveRender s_this].
    rewrite (bind_set _ lr) by done. rewrite (bind_set _ l) by done. reflexivity.
  - split; rewrite ?Hscc; try done; by rewrite Hreadr.
  - exists (next w), lu. by rewrite Hscc.
  - done.
  - unfold wc, wb, wt, wa, w1, mounted_world. done.
  - done.
  - done.
  - unfold wc. by rewrite read_write_same.
  - unfold wc. rewrite read_write_other_key by done. by rewrite read_write_same.
  - by rewrite Hreadr.
  - by rewrite Hreadr.
  - by rewrite Hreadr.
Qed.

(** X17. The first render of a mounted instance whose [render] is the
    user's. One reaction is created, named after the instance
    ([initialName#rootNodeID.render()], lines 74-78 and 84), not
    disposed, with the invalidation handler of the instance; it becomes
    the [$mobx] of the reactive render, which replaces [this.render];
    the user's [render] is entered once, on the instance, under that
    reaction, and what it returns or throws is the outcome. *)
Theorem first_render_creates_the_reaction :
  forall (w : World) (fuel : nat) (l lu : loc) (id : nat) (this : value) (args : list value),
    strict_eq (isUsingStaticRendering w) (VBool true) = false ->
    read_field w l "render" = VFunction lu (CNative id) ->
    l < next w ->
    let w1 := snd (componentWillMount (call fuel) (VObject l) w) in
    let run := call (S (S (S (S (S (S fuel)))))) (read_field w1 l "render") this args w1 in
    let e := S (next w) in
    let lr := S (S (S (next w))) in
    let r := S (S (S (S (S (next w))))) in
    let name := to_string (initial_name w l) ++ "#" ++ to_string (root_node_id w l)
                ++ ".render()" in
    fst run = lift (fst (native id (VObject l) [] (render_host w))) /\
    trace (snd run)
    = (trace w ++ [ENewReaction (VObject r) name; ETrack (VObject r);
                   ECall id (VObject l) []])%list /\
    read_field (snd run) l "render" = VFunction lr (CReactiveRender e) /\
    read_field (snd run) lr "$mobx" = VObject r /\
    read_field (snd run) r "name" = VString name /\
    read_field (snd run) r "onInvalidate"
    = VFunction (S (S (S (S (next w))))) (COnInvalidate e) /\
    is_disposed (snd run) r = false /\
    is_pending (snd run) e = false.
Proof.
  intros w fuel l lu id this args Hs Hr Hl w1 run e lr r name.
  assert (E1 : w1 = mounted_world l (VFunction lu (CNative id)) w).
  { subst w1. by rewrite (componentWillMount_runs _ _ _ _ _ Hs Hr). }
  assert (Hrender : read_field w1 l "render" = VFunction (S (S (next w))) (CInitialRender e)).
  { rewrite E1. unfold mounted_world. cbv zeta. by rewrite read_write_same. }
  destruct (initialRender_runs (S (S (S (S (S fuel))))) l lu id this args w Hl)
    as (wc & Erun & Htc & Hbc & Hnc & Htrc & Hdc & Hhc & R1 & R2 & R3 & R4 & R5).
  cbv zeta in Erun, Htc, Hbc, Hnc, Htrc, R1, R2, R3, R4, R5.
  subst e lr r name.
  assert (E : run = reactiveRender (call (S (S (S (S (S fuel)))))) (S (next w)) wc).
  { subst run. rewrite Hrender, E1. exact Erun. }
  assert (Hrc : S (S (S (S (S (next w))))) < next wc) by lia.
  assert (Hlc : l < next wc) by lia.
  destruct (reactiveRender_outcome (S fuel) l _ _ id wc Htc Hbc Hrc Hlc) as (O & _).
  destruct (reactiveRender_runs (S fuel) l _ _ id wc Htc Hbc Hrc) as (P & _ & T & F & _).
  rewrite E.
  assert (Hrh : render_host wc = render_host w).
  { unfold render_host. by rewrite Hdc, Hhc. }
  rewrite Hrh in O.
  split; [exact O|]. split.
  { rewrite T, Htrc. by rewrite <- app_assoc. }
  split; [by rewrite F by (done || lia)|].
  split; [by rewrite F by (done || lia)|].
  split; [by rewrite F by (done || lia)|].
  split; [by rewrite F by (done || lia)|].
  split; [|exact P].
  unfold is_disposed. rewrite F by (done || lia). by rewrite R4.
Qed.
(** *** When the user's [componentWillReact] fails *)

(** X18. A [componentWillReact] of the user that throws (line 91): the
    handler throws the same exception after it has set the pending
    flag and before it forces an update; the reaction is not disposed.
    The flag stays set, so every later invalidation is ignored until
    something else renders the instance. *)
Theorem componentWillReact_failure_blocks_updates :
  forall (w : World) (fuel : nat) (l e lh : loc) (id : nat) (x : exn) (n : nat),
    s_this (scope_at w e) = VObject l ->
    is_pending w e = false ->
    read_field w l "componentWillReact" = VFunction lh (CNative id) ->
    fst (native id (VObject l) [] (host w)) = Throws x ->
    let handler := onInvalidate (call (S fuel)) e in
    let w' := snd (handler w) in
    fst (handler w) = Exc x /\
    is_pending w' e = true /\
    trace w' = (trace w ++ [ECall id (VObject l) []])%list /\
    heap w' = heap w /\
    deliver n handler w' = w'.
Proof.
  intros w fuel l e lh id x n Ht Hp Hh Hx handler w'.
  assert (E : handler w
              = (Exc x, with_host (snd (native id (VObject l) [] (host w)))
                          (with_trace (trace w ++ [ECall id (VObject l) []])
                                      (pending true e w)))).
  { unfold handler. rewrite (onInvalidate_idle _ _ _ _ Ht Hp), Hh.
    rewrite bind_runs.
    change (call (S fuel) (VFunction lh (CNative id)) (VObject l) [] (pending true e w))
      with (foreign id (VObject l) [] (pending true e w)).
    rewrite foreign_runs.
    change (host (pending true e w)) with (host w). by rewrite Hx. }
  assert (Hp' : is_pending w' e = true).
  { unfold w'. rewrite E. unfold is_pending. cbn [snd].
    change (scope_at (with_host _ (with_trace _ (pending true e w))) e)
      with (scope_at (pending true e w) e).
    by rewrite scope_at_pending. }
  split; [by rewrite E|]. split; [done|]. split; [by unfold w'; rewrite E|].
  split; [by unfold w'; rewrite E|]. by apply deliver_pending.
Qed.


(** *** The two switches *)

(** X20. [trackComponents] (lines 38-43): without [WeakMap] it throws and
    changes nothing; with it, the devtools are on afterwards and nothing
    else changed. Calling it again changes nothing, and no call turns
    the devtools off. *)
Theorem trackComponents_only_turns_on :
  forall (w : World),
    trackComponents w
    = (if hasWeakMap then (Ret VUndefined, with_devtools true w)
       else (Exc (Error "[mobx-react] tracking components is not supported in this browser."), w)) /\
    snd (trackComponents (snd (trackComponents w))) = snd (trackComponents w) /\
    (isDevtoolsEnabled w = true -> snd (trackComponents w) = w).
Proof.
  intros w.
  assert (E : forall w0, trackComponents w0
              = (if hasWeakMap then (Ret VUndefined, with_devtools true w0)
                 else (Exc (Error "[mobx-react] tracking components is not supported in this browser."), w0))).
  { intros w0. unfold trackComponents. destruct hasWeakMap; cbn [negb]; [|done].
    rewrite bind_devtools. destruct (isDevtoolsEnabled w0) eqn:Ed; cbn [negb]; [|done].
    unfold ret. f_equal. destruct w0. simpl in Ed. by rewrite Ed. }
  split; [apply E|]. rewrite !E. split.
  - by destruct hasWeakMap.
  - intros Ed. destruct hasWeakMap; [|done]. destruct w. simpl in *. by rewrite Ed.
Qed.

Lemma strict_eq_true v : strict_eq v (VBool true) = true <-> v = VBool true.
Proof.
  destruct v as [| |[]| | | |]; simpl; split; try done.
Qed.

(** X21. [useStaticRendering] (lines 45-47) stores its argument as it is, and
    the two readers of the switch disagree on it: mounting is bypassed
    only for the value [true] itself (line 71 compares with [===]),
    while the gate warns of static mode for every truthy value (line
    160). After [useStaticRendering(1)] an instance is mounted
    reactively and warned about on every update. *)
Theorem static_rendering_needs_true :
  forall (w : World) (fuel : nat) (l lr : loc) (c : code) (v nextProps nextState : value),
    read_field w l "render" = VFunction lr c ->
    let w1 := snd (useStaticRendering v w) in
    useStaticRendering v w = (Ret VUndefined, with_static v w) /\
    (componentWillMount (call fuel) (VObject l) w1 = (Ret VUndefined, w1) <-> v = VBool true) /\
    (trace (snd (shouldComponentUpdate (VObject l) nextProps nextState w1)) = trace w
     <-> truthy v = false).
Proof.
  intros w fuel l lr c v nextProps nextState Hr w1. split; [done|].
  assert (E1 : w1 = with_static v w) by done.
  split.
  - destruct (strict_eq v (VBool true)) eqn:Ev.
    + apply strict_eq_true in Ev. subst v. split; [done|]. intros _.
      unfold componentWillMount. rewrite bind_static_rendering. by rewrite E1.
    + split.
      * intros Hm. rewrite (componentWillMount_runs _ l lr c) in Hm; [| by rewrite E1 | by rewrite E1].
        apply (f_equal (fun p => next (snd p))) in Hm.
        cbn [snd] in Hm. unfold mounted_world in Hm. cbv zeta in Hm.
        rewrite next_write_field in Hm. simpl in Hm. lia.
      * intros ->. done.
  - destruct (shouldComponentUpdate_queries w1 (VObject l) nextProps nextState v)
      as (Hw & _ & _ & _ & Ht & _).
    rewrite Hw, Ht. rewrite E1. cbn [isUsingStaticRendering with_static trace].
    destruct (truthy v); split; try done.
    intros Hl. apply (f_equal length) in Hl. rewrite length_app in Hl. simpl in Hl. lia.
Qed.
(** *** What the module never undoes *)

Lemma kept_refl w : kept w w.
Proof. by split. Qed.

Lemma kept_trans w1 w2 w3 : kept w1 w2 -> kept w2 w3 -> kept w1 w3.
Proof.
  intros [D1 S1 N1 U1 P1 Q1] [D2 S2 N2 U2 P2 Q2]. split.
  - congruence.
  - congruence.
  - lia.
  - intros l Hl Hu. apply U2; [lia|]. by apply U1.
  - intros r Hr Hd. apply P2; [lia|]. by apply P1.
  - intros Hd. destruct (Q1 Hd) as [R1 E1]. rewrite <- D1 in Hd.
    destruct (Q2 Hd) as [R2 E2]. split; congruence.
Qed.

(** A step that leaves the two flags of every object that exists, the
    switches, the registry and the number of reports as they are. *)
Lemma kept_frame w w' :
  isDevtoolsEnabled w' = isDevtoolsEnabled w ->
  isUsingStaticRendering w' = isUsingStaticRendering w ->
  next w <= next w' ->
  (forall l, l < next w ->
             read_field w' l "__$mobxIsUnmounted" = read_field w l "__$mobxIsUnmounted" /\
             read_field w' l "isDisposed" = read_field w l "isDisposed") ->
  componentByNodeRegistery w' = componentByNodeRegistery w ->
  emits (trace w') = emits (trace w) ->
  kept w w'.
Proof.
  intros Hd Hs Hn Hf Hr He. split; try done.
  - intros l Hl. unfold is_unmounted. by rewrite (proj1 (Hf l Hl)).
  - intros r Hl. unfold is_disposed. by rewrite (proj2 (Hf r Hl)).
Qed.

Lemma kept_allocated o w : kept w (allocated o w).
Proof.
  apply kept_frame; try done; [simpl; lia|].
  intros l Hl. split; apply read_allocated; lia.
Qed.

Lemma kept_write_field l k v w :
  (k = "__$mobxIsUnmounted" -> v = VBool true) ->
  (k = "isDisposed" -> truthy v = true) ->
  kept w (write_field l k v w).
Proof.
  intros Hu Hd. split; try done.
  - intros l' _. unfold is_unmounted.
    destruct (decide (k = "__$mobxIsUnmounted")) as [->|Hk].
    + destruct (decide (l = l')) as [->|Hl].
      * rewrite read_write_same. by rewrite Hu.
      * by rewrite read_write_other_loc.
    + by rewrite read_write_other_key.
  - intros r _. unfold is_disposed.
    destruct (decide (k = "isDisposed")) as [->|Hk].
    + destruct (decide (l = r)) as [->|Hl].
      * rewrite read_write_same. by rewrite Hd.
      * by rewrite read_write_other_loc.
    + by rewrite read_write_other_key.
Qed.

Lemma keeps_weaken {A} (m : M A) : keeps m -> keeps_on m.
Proof. intros Hm w _. apply Hm. Qed.

Lemma keeps_ret {A} (a : A) : keeps (H := H) (ret a).
Proof. intros w. apply kept_refl. Qed.

Lemma keeps_throw {A} (e : exn) : keeps (H := H) (throw (A := A) e).
Proof. intros w. apply kept_refl. Qed.

Lemma keeps_out_of_fuel {A} : keeps (H := H) (out_of_fuel (A := A)).
Proof. intros w. apply kept_refl. Qed.

Lemma keeps_bind {A B} (m : M A) (k : A -> M B) :
  keeps m -> (forall a, keeps (H := H) (k a)) -> keeps (H := H) (bind m k).
Proof.
  intros Hm Hk w. rewrite bind_runs. specialize (Hm w).
  destruct (m w) as [[a|e|] w1]; simpl in *; [|done|done].
  eapply kept_trans; [exact Hm|apply Hk].
Qed.

Lemma keeps_on_bind {A B} (m : M A) (k : A -> M B) :
  keeps_on m -> (forall a, keeps_on (H := H) (k a)) -> keeps_on (H := H) (bind m k).
Proof.
  intros Hm Hk w Hd. rewrite bind_runs. specialize (Hm w Hd).
  destruct (m w) as [[a|e|] w1]; simpl in *; [|done|done].
  eapply kept_trans; [exact Hm|apply Hk]. by rewrite (k_devtools _ _ Hm).
Qed.

Lemma keeps_try_finally {A} (body : M A) (handler : bool -> M value) :
  keeps body -> (forall b, keeps (H := H) (handler b)) -> keeps (H := H) (try_finally body handler).
Proof.
  intros Hb Hh w. rewrite try_finally_runs. specialize (Hb w).
  destruct (body w) as [[a|e|] w1]; simpl in *; [| |done].
  - pose proof (Hh false w1) as Hf.
    destruct (handler false w1) as [[?|?|] w2]; simpl in *; by eapply kept_trans.
  - pose proof (Hh true w1) as Hf.
    destruct (handler true w1) as [[?|?|] w2]; simpl in *; by eapply kept_trans.
Qed.

Lemma keeps_get o k : keeps (H := H) (get o k).
Proof. intros w. destruct o; apply kept_refl. Qed.

Lemma keeps_set o k v :
  (k = "__$mobxIsUnmounted" -> v = VBool true) ->
  (k = "isDisposed" -> truthy v = true) ->
  keeps (H := H) (set o k v).
Proof.
  intros Hu Hd w. destruct o; simpl; try apply kept_refl; by apply kept_write_field.
Qed.

Lemma keeps_object_keys o : keeps (H := H) (object_keys o).
Proof. intros w. destruct o; apply kept_refl. Qed.

Lemma keeps_is_array o : keeps (H := H) (is_array o).
Proof. intros w. destruct o; apply kept_refl. Qed.

Lemma keeps_alloc_object o : keeps (H := H) (alloc_object o).
Proof. intros w. apply kept_allocated. Qed.

Lemma keeps_alloc_function c : keeps (H := H) (alloc_function c).
Proof. intros w. apply kept_allocated. Qed.

Lemma keeps_new_scope s : keeps (H := H) (new_scope s).
Proof. intros w. apply kept_frame; try done. simpl. lia. Qed.

Lemma keeps_read_scope e : keeps (H := H) (read_scope e).
Proof. intros w. apply kept_refl. Qed.

Lemma keeps_update_scope e f : keeps (H := H) (update_scope e f).
Proof. intros w. by apply kept_frame. Qed.

Lemma keeps_new_frame v : keeps (H := H) (new_frame v).
Proof. intros w. apply kept_frame; try done. simpl. lia. Qed.

Lemma keeps_read_frame a : keeps (H := H) (read_frame a).
Proof. intros w. apply kept_refl. Qed.

Lemma keeps_write_frame a v : keeps (H := H) (write_frame a v).
Proof. intros w. by apply kept_frame. Qed.

Lemma keeps_log ev : (forall p, ev ≠ EEmit p) -> keeps (H := H) (log ev).
Proof.
  intros He w. apply kept_frame; try done. simpl. rewrite emits_app.
  destruct ev; simpl; try lia. by destruct (He payload).
Qed.

Lemma keeps_on_log ev : keeps_on (H := H) (log ev).
Proof. intros w Hd. split; try done. by rewrite Hd. Qed.

Lemma keeps_devtools : keeps (H := H) devtools.
Proof. intros w. apply kept_refl. Qed.

Lemma keeps_static_rendering : keeps (H := H) static_rendering.
Proof. intros w. apply kept_refl. Qed.

Lemma keeps_registry_defined : keeps (H := H) registry_defined.
Proof. intros w. apply kept_refl. Qed.

Lemma keeps_on_host {A} (f : H -> result A * H) : keeps (H := H) (on_host f).
Proof. intros w. unfold on_host. destruct (f (host w)). by apply kept_frame. Qed.

Lemma keeps_on_weakmap_set key v : keeps_on (H := H) (weakmap_set key v).
Proof.
  intros w Hd. unfold weakmap_set.
  destruct (componentByNodeRegistery w); [|apply kept_refl].
  destruct key; simpl; try apply kept_refl; split; try done; by rewrite Hd.
Qed.

Lemma keeps_on_weakmap_delete key : keeps_on (H := H) (weakmap_delete key).
Proof.
  intros w Hd. unfold weakmap_delete.
  destruct (componentByNodeRegistery w); [|apply kept_refl].
  destruct key; simpl; try apply kept_refl; split; try done; by rewrite Hd.
Qed.

Lemma keeps_foreign id this args : keeps (H := H) (foreign id this args).
Proof.
  unfold foreign. apply keeps_bind; [by apply keeps_log|]. intros _. apply keeps_on_host.
Qed.

Lemma keeps_forceUpdate this : keeps (H := H) (forceUpdate this).
Proof.
  unfold forceUpdate. apply keeps_bind; [by apply keeps_log|]. intros _. apply keeps_on_host.
Qed.

Lemma keeps_Date_now : keeps (H := H) Date_now.
Proof. apply keeps_on_host. Qed.

Lemma keeps_mobx_isObservable v : keeps (H := H) (mobx_isObservable v).
Proof. intros w. apply kept_refl. Qed.

Lemma keeps_new_Reaction name handler : keeps (H := H) (new_Reaction name handler).
Proof.
  unfold new_Reaction. apply keeps_bind; [apply keeps_alloc_object|]. intros r.
  apply keeps_bind; [by apply keeps_log|]. intros _. apply keeps_ret.
Qed.

(** The devtools decide between a branch that may report and one that
    does not. *)
Lemma keeps_if_devtools {A} (m1 m2 : M A) :
  keeps_on m1 -> keeps m2 -> keeps (H := H) (d <- devtools ;; if d then m1 else m2).
Proof.
  intros H1 H2 w. rewrite bind_devtools.
  destruct (isDevtoolsEnabled w) eqn:Hd; [by apply H1|apply H2].
Qed.

Section Kept.

(** The two builders of component classes of the host keep it too. *)
Hypothesis createClass_keeps : forall spec w, kept w (snd (host_createClass spec w)).
Hypothesis inject_keeps : forall storeNames w, kept w (snd (host_inject storeNames w)).

Lemma keeps_React_createClass spec : keeps (H := H) (React_createClass spec).
Proof using createClass_keeps.
  unfold React_createClass. apply keeps_bind; [by apply keeps_log|]. intros _ w.
  pose proof (createClass_keeps spec w) as Hk.
  by destruct (host_createClass spec w).
Qed.

Lemma keeps_inject_apply storeNames : keeps (H := H) (inject_apply storeNames).
Proof using inject_keeps.
  unfold inject_apply. apply keeps_bind; [by apply keeps_log|]. intros _ w.
  pose proof (inject_keeps storeNames w) as Hk.
  by destruct (host_inject storeNames w).
Qed.

Ltac keep_step :=
  first
    [ apply keeps_ret | apply keeps_throw | apply keeps_out_of_fuel
    | apply keeps_get | apply keeps_object_keys | apply keeps_is_array
    | apply keeps_alloc_object | apply keeps_alloc_function
    | apply keeps_new_scope | apply keeps_read_scope | apply keeps_update_scope
    | apply keeps_new_frame | apply keeps_read_frame | apply keeps_write_frame
    | apply keeps_devtools | apply keeps_static_rendering | apply keeps_registry_defined
    | apply keeps_on_host | apply keeps_foreign | apply keeps_forceUpdate
    | apply keeps_Date_now | apply keeps_mobx_isObservable | apply keeps_new_Reaction
    | apply keeps_React_createClass | apply keeps_inject_apply
    | apply keeps_set; [by intros | by intros]
    | apply keeps_log; by intros
    | assumption ].

Ltac keep :=
  repeat first
    [ keep_step
    | match goal with
      | |- keeps (H := H) (if ?b then _ else _) => destruct b
      | |- keeps (H := H) (bind _ _) => apply keeps_bind; [|intros ?]
      | |- keeps (H := H) (try_finally _ _) => apply keeps_try_finally; [|intros ?]
      end ].

Ltac keep_on :=
  repeat first
    [ apply keeps_weaken; keep_step
    | apply keeps_on_log | apply keeps_on_weakmap_set | apply keeps_on_weakmap_delete
    | match goal with
      | |- keeps_on (H := H) (if ?b then _ else _) => destruct b
      | |- keeps_on (H := H) (bind _ _) => apply keeps_on_bind; [|intros ?]
      end ].

Lemma keeps_findDOMNode component : keeps (H := H) (findDOMNode component).
Proof. unfold findDOMNode. destruct ReactDOM; keep. Qed.

Lemma keeps_on_reportRendering component : keeps_on (H := H) (reportRendering component).
Proof.
  unfold reportRendering.
  apply keeps_on_bind; [apply keeps_weaken, keeps_findDOMNode|]. intros node. keep_on.
Qed.

Lemma keeps_componentDidMount this : keeps (H := H) (componentDidMount this).
Proof.
  unfold componentDidMount.
  apply keeps_if_devtools; [apply keeps_on_reportRendering|apply keeps_ret].
Qed.

Lemma keeps_componentDidUpdate this : keeps (H := H) (componentDidUpdate this).
Proof.
  unfold componentDidUpdate.
  apply keeps_if_devtools; [apply keeps_on_reportRendering|apply keeps_ret].
Qed.

Lemma keeps_patch target funcName :
  funcName ≠ "__$mobxIsUnmounted" -> funcName ≠ "isDisposed" ->
  keeps (H := H) (patch target funcName).
Proof.
  intros H1 H2. unfold patch. apply keeps_bind; [apply keeps_get|]. intros base.
  destruct (negb (truthy base)).
  - apply keeps_bind; [by apply keeps_set|]. intros _. apply keeps_ret.
  - apply keeps_bind; [apply keeps_alloc_function|]. intros combined.
    apply keeps_bind; [by apply keeps_set|]. intros _. apply keeps_ret.
Qed.

Lemma keeps_gate_loop this nextProps ks n : keeps (H := H) (gate_loop this nextProps ks n).
Proof.
  induction n as [|i IH]; [apply keeps_ret|]. cbn [gate_loop].
  destruct (ks !! i) as [key|]; keep.
Qed.

Lemma keeps_shouldComponentUpdate this nextProps nextState :
  keeps (H := H) (shouldComponentUpdate this nextProps nextState).
Proof. unfold shouldComponentUpdate. keep. apply keeps_gate_loop. Qed.

Lemma keeps_is_stateless componentClass : keeps (H := H) (is_stateless componentClass).
Proof. unfold is_stateless. keep. Qed.

Lemma keeps_getDefaultProps componentClass : keeps (H := H) (getDefaultProps componentClass).
Proof. unfold getDefaultProps. keep. Qed.

Section Calls.

Variable c : value -> value -> list value -> M value.
Hypothesis c_keeps : forall f this args, keeps (H := H) (c f this args).

Lemma keeps_invoke o name args : keeps (H := H) (invoke c o name args).
Proof using c_keeps. unfold invoke. keep. apply c_keeps. Qed.

Lemma keeps_patched base mixinFunc this args : keeps (H := H) (patched c base mixinFunc this args).
Proof using c_keeps. unfold patched. keep; apply c_keeps. Qed.

Lemma keeps_tracked e a : keeps (H := H) (tracked c e a).
Proof using c_keeps. unfold tracked. keep; apply c_keeps. Qed.

Lemma keeps_reactiveRender e : keeps (H := H) (reactiveRender c e).
Proof using c_keeps. unfold reactiveRender. keep. apply keeps_invoke. Qed.

Lemma keeps_onInvalidate e : keeps (H := H) (onInvalidate c e).
Proof using c_keeps. unfold onInvalidate. keep; apply keeps_invoke. Qed.

Lemma keeps_initialRender e : keeps (H := H) (initialRender c e).
Proof using c_keeps. unfold initialRender. keep. apply keeps_reactiveRender. Qed.

Lemma keeps_bind_render this : keeps (H := H) (bind_render c this).
Proof using c_keeps. unfold bind_render. keep. apply keeps_invoke. Qed.

Lemma keeps_componentWillMount this : keeps (H := H) (componentWillMount c this).
Proof using c_keeps. unfold componentWillMount. keep; apply keeps_bind_render. Qed.

Lemma keeps_componentWillUnmount this : keeps (H := H) (componentWillUnmount c this).
Proof using c_keeps.
  unfold componentWillUnmount.
  apply keeps_bind; [keep|]. intros static.
  destruct (strict_eq static (VBool true)); [keep|].
  apply keeps_bind; [keep|]. intros render.
  apply keeps_bind; [keep|]. intros reaction.
  apply keeps_bind; [keep; apply keeps_invoke|]. intros _.
  apply keeps_bind; [keep|]. intros _.
  apply keeps_if_devtools; [|keep].
  apply keeps_on_bind; [apply keeps_weaken, keeps_findDOMNode|]. intros node. keep_on.
Qed.

Lemma keeps_stateless_render componentClass this : keeps (H := H) (stateless_render c componentClass this).
Proof using c_keeps. unfold stateless_render. keep. apply c_keeps. Qed.

Lemma keeps_reaction_track this fn : keeps (H := H) (reaction_track c this fn).
Proof using c_keeps. unfold reaction_track. keep. apply c_keeps. Qed.

Lemma keeps_reaction_dispose this : keeps (H := H) (reaction_dispose this).
Proof. unfold reaction_dispose. keep. Qed.

Lemma keeps_observer arg1 arg2 : keeps (H := H) (observer c arg1 arg2).
Proof using c_keeps createClass_keeps inject_keeps.
  unfold observer.
  destruct (jstype_eqb (typeof arg1) TString); [keep|].
  apply keeps_bind; [keep|]. intros array. destruct array.
  { destruct (negb (truthy arg2)); keep; apply c_keeps. }
  apply keeps_bind; [keep|]. intros isInjector.
  apply keeps_bind; [keep|]. intros _.
  apply keeps_bind; [apply keeps_is_stateless|]. intros stateless. destruct stateless.
  { keep. apply c_keeps. }
  destruct (negb (truthy arg1)); [keep|].
  apply keeps_bind; [keep|]. intros proto.
  cbv zeta.
  apply keeps_bind; [by apply keeps_patch|]. intros _.
  apply keeps_bind; [by apply keeps_patch|]. intros _.
  apply keeps_bind; [by apply keeps_patch|]. intros _.
  apply keeps_bind; [by apply keeps_patch|]. intros _.
  keep.
Qed.

Lemma keeps_run_code code this args : keeps (H := H) (run_code c code this args).
Proof using c_keeps createClass_keeps inject_keeps.
  destruct code as [id|m|base mixinFunc|f boundThis|e|e|e|e a| |arg1|cc|cc| |]; cbn [run_code].
  - apply keeps_foreign.
  - destruct m.
    + apply keeps_componentWillMount.
    + apply keeps_componentWillUnmount.
    + apply keeps_componentDidMount.
    + apply keeps_componentDidUpdate.
    + apply keeps_shouldComponentUpdate.
  - apply keeps_patched.
  - apply c_keeps.
  - apply keeps_initialRender.
  - apply keeps_reactiveRender.
  - apply keeps_onInvalidate.
  - apply keeps_tracked.
  - apply keeps_observer.
  - apply c_keeps.
  - apply keeps_getDefaultProps.
  - apply keeps_stateless_render.
  - apply keeps_reaction_track.
  - apply keeps_reaction_dispose.
Qed.

End Calls.

(** Every call into the module keeps it. *)
Lemma call_keeps fuel f this args : keeps (H := H) (call fuel f this args).
Proof using createClass_keeps inject_keeps.
  revert f this args. induction fuel as [|fuel IH]; intros f this args.
  - apply keeps_out_of_fuel.
  - cbn [call]. destruct f; try apply keeps_throw. by apply keeps_run_code.
Qed.

End Kept.

(** X22. A flag that ends the reactions of an instance is final. Whatever
    function of the module is called, with whatever arguments (a
    lifecycle hook, a render, an invalidation handler, [observer]), an
    instance that was unmounted is still unmounted afterwards and a
    reaction that was disposed is still disposed: no code path clears
    [__$mobxIsUnmounted] or revives a reaction. The user's functions act
    on the outside state, and the host's class builders are assumed to
    keep the flags. *)
Theorem unmounted_and_disposed_are_final :
  forall (fuel : nat) (f this : value) (args : list value) (w : World) (l : loc),
    (forall spec w0, kept w0 (snd (host_createClass spec w0))) ->
    (forall storeNames w0, kept w0 (snd (host_inject storeNames w0))) ->
    l < next w ->
    let w' := snd (call fuel f this args w) in
    (is_unmounted w l = true -> is_unmounted w' l = true) /\
    (is_disposed w l = true -> is_disposed w' l = true).
Proof.
  intros fuel f this args w l Hc Hi Hl w'.
  destruct (call_keeps Hc Hi fuel f this args w) as [_ _ _ U D _].
  split; [apply U|apply D]; done.
Qed.

(** X23. While the devtools are off, no call into the module emits a report
    or touches [componentByNodeRegistery]: reporting happens only after
    [trackComponents]. *)
Theorem no_report_while_the_devtools_are_off :
  forall (fuel : nat) (f this : value) (args : list value) (w : World),
    (forall spec w0, kept w0 (snd (host_createClass spec w0))) ->
    (forall storeNames w0, kept w0 (snd (host_inject storeNames w0))) ->
    isDevtoolsEnabled w = false ->
    let w' := snd (call fuel f this args w) in
    emits (trace w') = emits (trace w) /\
    componentByNodeRegistery w' = componentByNodeRegistery w.
Proof.
  intros fuel f this args w Hc Hi Hd w'.
  destruct (call_keeps Hc Hi fuel f this args w) as [_ _ _ _ _ Q].
  by destruct (Q Hd).
Qed.

(** X24. The two switches are changed by [trackComponents] and
    [useStaticRendering] only: no lifecycle hook, render, handler or
    application of [observer] changes [isDevtoolsEnabled] or
    [isUsingStaticRendering]. *)
Theorem calls_leave_the_switches :
  forall (fuel : nat) (f this : value) (args : list value) (w : World),
    (forall spec w0, kept w0 (snd (host_createClass spec w0))) ->
    (forall storeNames w0, kept w0 (snd (host_inject storeNames w0))) ->
    let w' := snd (call fuel f this args w) in
    isDevtoolsEnabled w' = isDevtoolsEnabled w /\
    isUsingStaticRendering w' = isUsingStaticRendering w.
Proof.
  intros fuel f this args w Hc Hi w'.
  by destruct (call_keeps Hc Hi fuel f this args w) as [D S _ _ _ _].
Qed.

Lemma after_calls_keeps later w :
  (forall spec w0, kept w0 (snd (host_createClass spec w0))) ->
  (forall storeNames w0, kept w0 (snd (host_inject storeNames w0))) ->
  kept w (after_calls later w).
Proof.
  intros Hc Hi. revert w.
  induction later as [|[[[fuel f] this] args] rest IH]; intros w; [apply kept_refl|].
  cbn [after_calls]. eapply kept_trans; [|apply IH].
  apply (call_keeps Hc Hi).
Qed.

(** X19. A forced update that throws (lines 96-102) ends the reactions
    of the instance for good: the handler throws the same exception,
    the reaction is disposed, and it is still disposed after any
    further calls into the module (renders, hooks, the handler itself,
    [observer]), so that the tracker, which runs no disposed reaction,
    delivers no invalidation to the instance again. The user's
    functions act on the outside state, and the host's class builders
    are assumed to keep the flags. *)
Theorem forced_update_failure_is_terminal :
  forall (w : World) (fuel fuel' : nat) (l e r : loc) (w1 : World) (x : exn)
         (later : list (nat * value * value * list value)),
    (forall spec w0, kept w0 (snd (host_createClass spec w0))) ->
    (forall storeNames w0, kept w0 (snd (host_inject storeNames w0))) ->
    tracking w l e r ->
    r < next w ->
    is_pending w e = false ->
    is_unmounted w l = false ->
    after_componentWillReact l (pending true e w) = Some w1 ->
    fst (host_forceUpdate (VObject l) (host w1)) = Throws x ->
    let w' := snd (onInvalidate (call (S fuel)) e w) in
    let w'' := after_calls later w' in
    fst (onInvalidate (call (S fuel)) e w) = Exc x /\
    is_disposed w' r = true /\
    is_disposed w'' r = true /\
    notify fuel' (VObject r) w'' = (Ret VUndefined, w'').
Proof.
  intros w fuel fuel' l e r w1 x later Hc Hi Htr Hr Hp Hu Hh Hx w' w''.
  pose proof (onInvalidate_forces w fuel l e r w1 Htr Hp Hu Hh) as Hf.
  pose proof (after_componentWillReact_store _ _ _ Hh) as (_ & _ & Hnext & _).
  destruct (host_forceUpdate (VObject l) (host w1)) as [[v|x'] h]; [done|].
  simpl in Hx. injection Hx as ->. cbv zeta in Hf. destruct Hf as [Hf Hd].
  assert (Hd' : is_disposed w' r = true) by (unfold w'; by rewrite Hf).
  assert (Hn' : r < next w').
  { unfold w'. rewrite Hf. simpl. rewrite Hnext. exact Hr. }
  assert (Hd'' : is_disposed w'' r = true).
  { apply (k_disposed _ _ (after_calls_keeps later w' Hc Hi)); done. }
  split; [by rewrite Hf|]. split; [done|]. split; [done|].
  by apply notify_disposed.
Qed.
(** *** Round after round *)



(** *** What [patch] and the mount leave alone *)

(** X26. [patch] writes one property of one object. On a target that is not
    an object it raises the language's TypeError and changes nothing; on
    an object it leaves every other property of the object, every other
    object, the trace and the closure variables as they were. *)
Theorem patch_touches_one_property :
  forall (w : World) (target : value) (funcName : string),
    match ref_loc target with
    | None => patch target funcName w = (Exc TypeError, w)
    | Some l =>
        let w' := snd (patch target funcName w) in
        fst (patch target funcName w) = Ret VUndefined /\
        (forall (l' : loc) (k : string),
            l' < next w -> l' ≠ l \/ k ≠ funcName ->
            read_field w' l' k = read_field w l' k) /\
        trace w' = trace w /\
        scopes w' = scopes w /\
        host w' = host w
    end.
Proof.
  intros w target funcName.
  destruct (ref_loc target) as [l|] eqn:E.
  - rewrite (patch_runs _ _ _ _ E). cbn [fst snd]. split; [done|]. split.
    + intros l' k Hl' [Hne|Hne].
      * by apply patch_world_other_loc.
      * by apply patch_world_other.
    + unfold patch_world. by destruct (truthy _).
  - by destruct target.
Qed.

(** X27. [componentWillMount] on an instance with a [render] function,
    static rendering off: it returns, replaces [this.render] by the
    initial render and changes no other property of any object that
    exists; it creates no reaction and calls nothing (the trace and the
    outside state are as they were). The render it found is kept in the
    closure, bound to the instance, with no render pending. *)
Theorem mounting_replaces_render_only :
  forall (w : World) (fuel : nat) (l lr : loc) (c : code),
    strict_eq (isUsingStaticRendering w) (VBool true) = false ->
    read_field w l "render" = VFunction lr c ->
    let w' := snd (componentWillMount (call fuel) (VObject l) w) in
    fst (componentWillMount (call fuel) (VObject l) w) = Ret VUndefined /\
    (forall (l' : loc) (k : string),
        l' < next w -> l' ≠ l \/ k ≠ "render" ->
        read_field w' l' k = read_field w l' k) /\
    trace w' = trace w /\
    host w' = host w /\
    exists li e lb : loc,
      read_field w' l "render" = VFunction li (CInitialRender e) /\
      s_this (scope_at w' e) = VObject l /\
      s_baseRender (scope_at w' e) = VFunction lb (CBound (VFunction lr c) (VObject l)) /\
      s_reaction (scope_at w' e) = VNull /\
      is_pending w' e = false.
Proof.
  intros w fuel l lr c Hs Hr w'.
  assert (E : componentWillMount (call fuel) (VObject l) w
              = (Ret VUndefined, mounted_world l (VFunction lr c) w))
    by by apply componentWillMount_runs.
  unfold w'. rewrite E. cbn [fst snd]. split; [done|]. split; [|split; [done|split; [done|]]].
  - intros l' k Hl' Hne. unfold mounted_world. cbv zeta.
    assert (Hin : forall w0, read_field w0 l' k = read_field w l' k ->
                             read_field (write_field l "render"
                                           (VFunction (S (S (next w))) (CInitialRender (S (next w))))
                                           w0) l' k
                             = read_field w l' k).
    { intros w0 E0. destruct Hne as [Hne|Hne].
      - by rewrite read_write_other_loc.
      - by rewrite read_write_other_key. }
    apply Hin. autorewrite with store. rewrite !read_allocated by (simpl; lia).
    autorewrite with store. apply read_allocated. lia.
  - exists (S (S (next w))), (S (next w)), (next w).
    unfold mounted_world. cbv zeta. rewrite read_write_same.
    unfold is_pending, scope_at. simpl. rewrite lookup_insert_eq. done.
Qed.
(** *** Mounting an instance of a decorated class *)

(** X28. A class whose target has a [componentWillMount] of the user,
    decorated by [observer]: the hook the target has afterwards, called
    on an instance with a [render] function (static rendering off),
    enters the user's hook first, with the same [this] and arguments.
    When that returns, the mixin's [componentWillMount] runs and
    [this.render] becomes the initial render; when it throws, the same
    exception is thrown and [this.render] is left as it was. Nothing
    else is called. *)
Theorem decorated_mount_runs_the_users_hook_first :
  forall (w : World) (fuel fuel' : nat) (componentClass : value) (lc : loc)
         (arg2 target : value) (lt lu : loc) (id : nat)
         (w2 : World) (l lr : loc) (c : code) (args : list value),
    ref_loc componentClass = Some lc ->
    array_shape w componentClass = false ->
    stateless_shape w componentClass = false ->
    js_or (read_field w lc "prototype") componentClass = target ->
    ref_loc target = Some lt ->
    lt < next w ->
    read_field w lt "componentWillMount" = VFunction lu (CNative id) ->
    strict_eq (isUsingStaticRendering w2) (VBool true) = false ->
    read_field w2 l "render" = VFunction lr c ->
    let w1 := snd (observer (call fuel) componentClass arg2 w) in
    let hook := read_field w1 lt "componentWillMount" in
    let run := call (S (S fuel')) hook (VObject l) args w2 in
    trace (snd run) = (trace w2 ++ [ECall id (VObject l) args])%list /\
    match fst (native id (VObject l) args (host w2)) with
    | Returns _ =>
        fst run = Ret VUndefined /\
        exists li e : loc, read_field (snd run) l "render" = VFunction li (CInitialRender e)
    | Throws x =>
        fst run = Exc x /\ read_field (snd run) l "render" = VFunction lr c
    end.
Proof.
  intros w fuel fuel' cc lc arg2 target lt lu id w2 l lr c args
         Hc Ha Hs Ht Hl Hlt Hhook Hstatic Hrender w1 hook run.
  assert (E1 : w1 = decorated lc lt w).
  { subst w1. by rewrite (observer_decorates _ _ _ _ _ _ _ Hc Ha Hs Ht Hl). }
  pose proof (decorated_hook lc lt "componentWillMount" w Hlt
                ltac:(rewrite patched_hooks_spec; by left)) as Hh.
  rewrite Hhook in Hh. cbn [truthy] in Hh. destruct Hh as [lf Hh].
  rewrite <- E1 in Hh. fold hook in Hh.
  assert (Erun : run = bind (foreign id (VObject l) args)
                            (fun _ => bind (componentWillMount (call fuel') (VObject l))
                                           (fun _ => ret VUndefined)) w2).
  { subst run. rewrite Hh. reflexivity. }
  rewrite Erun, bind_runs, foreign_runs.
  destruct (native id (VObject l) args (host w2)) as [[v|x] h]; cbn [lift fst snd].
  - set (w3 := with_host h (with_trace (trace w2 ++ [ECall id (VObject l) args]) w2)).
    rewrite bind_runs.
    rewrite (componentWillMount_runs fuel' l lr c w3) by done.
    cbn [fst snd ret]. split; [done|]. split; [done|].
    exists (S (S (next w3))), (S (next w3)).
    unfold mounted_world. cbv zeta. by rewrite read_write_same.
  - by split.
Qed.

End Properties.

(** ** The claims on the example *)

(** The instance after the first render: closure variables at 21, the
    reactive render at 23, the reaction at 25. *)
Example rendered_once_scope :
  scope_at rendered_once 21
  = mkScope (VObject 10) (VString "<component>") VUndefined
            (VFunction 20 (CBound (VFunction 11 (CNative 0)) (VObject 10)))
            (VObject 25) false (VFunction 23 (CReactiveRender 21)).
Proof. vm_compute. reflexivity. Qed.

Example rendered_once_trace :
  trace rendered_once
  = [ENewReaction (VObject 25) "<component>#undefined.render()";
     ETrack (VObject 25); ECall 0 (VObject 10) []].
Proof. vm_compute. reflexivity. Qed.

Lemma demo_tracking : tracking rendered_once 10 21 25.
Proof. split; vm_compute; reflexivity. Qed.

Lemma demo_rendering_reactively : rendering_reactively rendered_once 10 21 25 23.
Proof. split; vm_compute; reflexivity. Qed.

Lemma demo_renders_with : renders_with rendered_once 10 21 0.
Proof. exists 20, 11. vm_compute. reflexivity. Qed.

Lemma demo_reacted :
  after_componentWillReact (X := demo_host) 10 (pending true 21 rendered_once) = Some reacted.
Proof. vm_compute. reflexivity. Qed.



(** After the unmount, three invalidations force nothing. *)
Lemma unmount_is_terminal_witness :
  let w1 := snd (componentWillUnmount (X := demo_host) (demo_call 1) (VObject 10) rendered_once) in
  let wn := deliver 3 (onInvalidate (X := demo_host) (demo_call 1) 21) w1 in
  is_disposed w1 25 = true /\
  is_unmounted wn 10 = true /\
  forced_updates (trace wn) = forced_updates (trace rendered_once).
Proof.
  pose proof (unmount_is_terminal (X := demo_host) rendered_once 0 10 21 25 23 3
                demo_tracking demo_rendering_reactively
                ltac:(vm_compute; reflexivity) ltac:(vm_compute; exact I)) as W.
  cbv zeta in W. destruct W as (D & _ & U & _ & F & _).
  cbv zeta. exact (conj D (conj U F)).
Defined.

(** A forced update that throws: the same exception leaves the handler,
    and the reaction is disposed. *)
Lemma forced_update_error_witness :
  fst (onInvalidate (X := failing_host) (failing_call 1) 21 rendered_once)
  = Exc (Raised (VString "render failed")) /\
  is_disposed (snd (onInvalidate (X := failing_host) (failing_call 1) 21 rendered_once)) 25
  = true.
Proof.
  pose proof (forced_update_error_disposes_then_rethrows (X := failing_host) rendered_once 0 10 21 25 reacted
                demo_tracking ltac:(vm_compute; reflexivity) ltac:(vm_compute; reflexivity)
                demo_reacted) as W.
  change (host_forceUpdate (VObject 10) (host reacted))
    with (@Throws value (Raised (VString "render failed")), S (host reacted)) in W.
  cbv beta iota zeta in W. destruct W as [E D].
  change (failing_call 1)
    with (call (X := failing_host) 1).
  rewrite E. split; [reflexivity|exact D].
Defined.

(** Static rendering on: mount and unmount leave the world alone. *)
Lemma static_rendering_witness :
  componentWillMount (demo_call 1) (VObject 10) static_world = (Ret VUndefined, static_world) /\
  componentWillUnmount (X := demo_host) (demo_call 1) (VObject 10) static_world
  = (Ret VUndefined, static_world).
Proof.
  pose proof (static_rendering_bypasses_mount_and_unmount (X := demo_host) static_world 1 (VObject 10) []
                ltac:(reflexivity)) as (M & U & _).
  exact (conj M U).
Defined.

(** [patch] on the prototype at 14, which has the user's
    [componentWillMount]: the combined hook is installed. *)
Lemma patch_witness :
  exists w' : World nat,
    patch (VObject 14) "componentWillMount" demo_world = (Ret VUndefined, w') /\
    exists lf : loc,
      read_field w' 14 "componentWillMount"
      = VFunction lf (CPatched (VFunction 17 (CNative 2)) (mixin_fn componentWillMountM)).
Proof.
  destruct (patch_installs_or_composes (X := demo_host) demo_world (VObject 14) 14 "componentWillMount"
              ltac:(reflexivity)) as (w' & E & _ & C).
  exists w'. split; [exact E|].
  destruct (C ltac:(vm_compute; reflexivity)) as (lf & R & _).
  exists lf. exact R.
Defined.

(** [observer] on the function component at 16: [React.createClass]
    builds the class at 24 with its prototype at 23; [observer] returns
    that class, marked, with the mixin's [componentWillMount] and the
    gate on its prototype. *)
Lemma observer_stateless_witness :
  exists wf : World nat,
    observer (X := demo_host) (demo_call 2) (VFunction 16 (CNative 5)) VUndefined demo_world
    = (Ret (VFunction 24 (CNative 7)), wf) /\
    read_field wf 24 "isMobXReactObserver" = VBool true /\
    read_field wf 23 "shouldComponentUpdate" = mixin_fn shouldComponentUpdateM /\
    read_field wf 23 "componentWillMount" = mixin_fn componentWillMountM.
Proof.
  pose proof (observer_wraps_stateless_function (X := demo_host) demo_world 1 16 (CNative 5)
                VUndefined ltac:(vm_compute; reflexivity)) as W.
  cbv zeta in W. destruct W as (_ & _ & _ & _ & _ & D).
  destruct (D (VFunction 24 (CNative 7)) wrapped_world 24 (VObject 23) 23
              ltac:(vm_compute; reflexivity) ltac:(reflexivity) ltac:(reflexivity)
              ltac:(vm_compute; reflexivity) ltac:(vm_compute; reflexivity)
              ltac:(reflexivity) ltac:(vm_compute; lia)) as (wf & E & M & G & K).
  exists wf. split; [exact E|]. split; [exact M|]. split.
  - rewrite G. vm_compute. reflexivity.
  - pose proof (K "componentWillMount" ltac:(rewrite patched_hooks_spec; by left)) as Kw.
    change (truthy (read_field wrapped_world 23 "componentWillMount")) with false in Kw.
    exact Kw.
Defined.

(** [observer] on the class at 13: its prototype at 14 has no
    [shouldComponentUpdate], and gets the gate. *)
Lemma observer_gate_witness :
  exists w' : World nat,
    observer (X := demo_host) (demo_call 1)
             (VFunction 13 (CNative 6)) VUndefined demo_world
    = (Ret (VFunction 13 (CNative 6)), w') /\
    read_field w' 14 "shouldComponentUpdate" = mixin_fn shouldComponentUpdateM.
Proof.
  destruct (observer_installs_gate_only_when_absent (X := demo_host) demo_world 1
              (VFunction 13 (CNative 6)) 13 VUndefined (VObject 14) 14
              ltac:(reflexivity) ltac:(reflexivity)
              ltac:(vm_compute; reflexivity) ltac:(vm_compute; reflexivity)
              ltac:(reflexivity) ltac:(vm_compute; lia)) as (w' & E & G & _).
  exists w'. split; [exact E|]. rewrite G. vm_compute. reflexivity.
Defined.

(** Mounted and unmounted with no render in between: the flag is set. *)
Lemma unmount_before_first_render_witness :
  is_unmounted (snd (componentWillUnmount (X := demo_host) (demo_call 1) (VObject 10) mounted)) 10
  = true.
Proof.
  pose proof (unmount_before_first_render_is_safe (X := demo_host) demo_world 1 10 11 (CNative 0)
                ltac:(vm_compute; reflexivity) ltac:(vm_compute; reflexivity)) as W.
  cbv zeta in W. destruct W as (_ & U & _). exact U.
Defined.

(** The gate on the example: the next props are the props object itself,
    which holds primitives only, so the update is skipped. *)
Lemma update_gate_witness :
  shouldComponentUpdate (X := demo_host) (VObject 10) (VObject 12) VNull demo_world
  = (Ret (VBool false), demo_world).
Proof.
  destruct (update_gate_skips_iff (X := demo_host) demo_world 10 12 12 VNull
              ltac:(vm_compute; reflexivity)
              ltac:(vm_compute; repeat constructor; discriminate)) as (b & E & I).
  assert (B : b = false).
  { apply I. vm_compute. repeat split; repeat constructor. }
  rewrite E, B. reflexivity.
Defined.

(** C3, at the failing input. The state is unchanged and both props
    objects have two keys, but the value of [a] changed from 1 to 2. The
    loop of line 173 starts at the last key, the empty string, which is
    falsy: the loop ends before any key is compared and the gate answers
    "skip". *)
Theorem update_gate_skips_a_changed_prop_behind_an_empty_key :
  shouldComponentUpdate (X := demo_host) (VObject 30) (VObject 32) VNull empty_key_world
  = (Ret (VBool false), empty_key_world) /\
  strict_eq (read_field empty_key_world 30 "state") VNull = true /\
  length (keys (fields (obj_at empty_key_world 31)))
  = length (keys (fields (obj_at empty_key_world 32))) /\
  strict_eq (read_field empty_key_world 32 "a") (read_field empty_key_world 31 "a") = false.
Proof. vm_compute. repeat split; reflexivity. Qed.

(** The same props with the empty key first: [a] is compared, and the
    gate answers "must update". *)
Example update_gate_sees_a_change_after_the_empty_key :
  let w := mkWorld false (VBool false) (Some ∅)
             (<[30 := mkObject [("state", VNull); ("props", VObject 31)] false]>
             (<[31 := mkObject [("", VNumber 0); ("a", VNumber 1)] false]>
             (<[32 := mkObject [("", VNumber 0); ("a", VNumber 2)] false]> ∅)))
             ∅ ∅ 40 [] 0 in
  fst (shouldComponentUpdate (X := demo_host) (VObject 30) (VObject 32) VNull w)
  = Ret (VBool true).
Proof. vm_compute. reflexivity. Qed.

(** [observer(undefined)] on the example host: the TypeError of line 211,
    where [observer(false)] gets the error of line 233. *)
Example observer_undefined_on_the_example :
  observer (X := demo_host) (demo_call 1)
           VUndefined VUndefined demo_world
  = (Exc TypeError, demo_world) /\
  observer (X := demo_host) (demo_call 1)
           (VBool false) VUndefined demo_world
  = (Exc (Error "Please pass a valid component to 'observer'"), demo_world).
Proof. split; reflexivity. Qed.

(** ** The further properties on the example *)

(** A next state [true] where the state is null: the gate answers "must
    update" although the next props are undefined. *)
Lemma state_change_witness :
  shouldComponentUpdate (X := demo_host) (VObject 10) VUndefined (VBool true) demo_world
  = (Ret (VBool true), demo_world).
Proof.
  exact (state_change_forces_update (X := demo_host) demo_world 10 VUndefined (VBool true)
           ltac:(vm_compute; reflexivity)).
Defined.

(** The object at 14 has no [props]: with an unchanged state the gate raises. *)
Lemma update_gate_raises_witness :
  shouldComponentUpdate (X := demo_host) (VObject 14) (VObject 12) VUndefined demo_world
  = (Exc TypeError, demo_world).
Proof.
  exact (update_gate_raises_without_props (X := demo_host) demo_world 14 (VObject 12) VUndefined
           ltac:(vm_compute; reflexivity) ltac:(vm_compute; reflexivity)).
Defined.

(** [observer(0)] gets the error of line 233, [observer(true)] a TypeError. *)
Lemma observer_primitive_witness :
  observer (X := demo_host) (demo_call 1) (VNumber 0) VUndefined demo_world
  = (Exc (Error "Please pass a valid component to 'observer'"), demo_world) /\
  observer (X := demo_host) (demo_call 1) (VBool true) VUndefined demo_world
  = (Exc TypeError, demo_world).
Proof.
  split.
  - exact (observer_never_decorates_a_primitive (X := demo_host) 1 (VNumber 0) VUndefined
             demo_world ltac:(reflexivity)).
  - exact (observer_never_decorates_a_primitive (X := demo_host) 1 (VBool true) VUndefined
             demo_world ltac:(reflexivity)).
Defined.

(** [observer(["counterStore"])] returns a decorator, allocated at 21. *)
Lemma observer_store_names_witness :
  fst (observer (X := demo_host) (demo_call 1) (VObject 20) VUndefined stores_world)
  = Ret (VFunction 21 (CDecorator (VObject 20))).
Proof.
  destruct (observer_with_store_names (X := demo_host) stores_world 1 (VObject 20) VUndefined
              ltac:(vm_compute; reflexivity)) as (D & _).
  change (demo_call 1) with (call (X := demo_host) 1).
  rewrite (D ltac:(reflexivity)). reflexivity.
Defined.

(** [observer] on the class at 13: the mark is set on the class; the
    [render] of its prototype is the user's as before, and the class has
    no [componentWillMount] of its own, as before. *)
Lemma observer_frame_witness :
  exists w' : World nat,
    observer (X := demo_host) (demo_call 1) (VFunction 13 (CNative 6)) VUndefined demo_world
    = (Ret (VFunction 13 (CNative 6)), w') /\
    read_field w' 13 "isMobXReactObserver" = VBool true /\
    read_field w' 14 "render" = VFunction 11 (CNative 0) /\
    read_field w' 13 "componentWillMount" = VUndefined.
Proof.
  destruct (observer_changes_the_hooks_only (X := demo_host) demo_world 1
              (VFunction 13 (CNative 6)) 13 VUndefined (VObject 14) 14
              ltac:(reflexivity) ltac:(reflexivity)
              ltac:(vm_compute; reflexivity) ltac:(vm_compute; reflexivity)
              ltac:(reflexivity)) as (w' & E & F & K & _).
  exists w'. split; [exact E|]. split; [exact F|]. split.
  - rewrite (K 14 "render" ltac:(vm_compute; lia)
               ltac:(rewrite patched_hooks_spec; intros [_ [[|[|[|]]]|]]; discriminate)
               ltac:(intros [? _]; discriminate)).
    vm_compute. reflexivity.
  - rewrite (K 13 "componentWillMount" ltac:(vm_compute; lia)
               ltac:(intros [? _]; discriminate)
               ltac:(intros [_ ?]; discriminate)).
    vm_compute. reflexivity.
Defined.

(** [observer] on the class marked by [inject]: one warning. *)
Lemma observer_injector_witness :
  trace (snd (observer (X := demo_host) (demo_call 1) (VFunction 13 (CNative 6)) VUndefined
                       injector_world))
  = [EWarn "Mobx Observer: You are trying to use 'observer' on a component that already has 'inject'. Please apply 'observer' before applying 'inject'"].
Proof.
  destruct (observer_warns_on_an_injector (X := demo_host) injector_world 1
              (VFunction 13 (CNative 6)) 13 VUndefined (VObject 14) 14
              ltac:(reflexivity) ltac:(reflexivity)
              ltac:(vm_compute; reflexivity) ltac:(vm_compute; reflexivity)
              ltac:(reflexivity)) as (_ & T).
  change (demo_call 1) with (call (X := demo_host) 1).
  rewrite T. vm_compute. reflexivity.
Defined.

(** [observer] twice on the class at 13: the user's [componentWillMount]
    is composed with the mixin's function, and the result once more. *)
Lemma observer_twice_witness :
  let w1 := snd (observer (X := demo_host) (demo_call 1) (VFunction 13 (CNative 6)) VUndefined
                          demo_world) in
  let w2 := snd (observer (X := demo_host) (demo_call 1) (VFunction 13 (CNative 6)) VUndefined
                          w1) in
  exists lf : loc,
    read_field w2 14 "componentWillMount"
    = VFunction lf (CPatched (read_field w1 14 "componentWillMount")
                             (mixin_fn componentWillMountM)).
Proof.
  pose proof (observer_twice_composes_twice (X := demo_host) demo_world 1 1
                (VFunction 13 (CNative 6)) 13 VUndefined VUndefined (VObject 14) 14
                ltac:(reflexivity) ltac:(reflexivity)
                ltac:(vm_compute; reflexivity) ltac:(vm_compute; reflexivity)
                ltac:(reflexivity) ltac:(vm_compute; lia) ltac:(vm_compute; lia)) as W.
  cbv zeta in W. destruct W as (_ & _ & C & _).
  destruct (C "componentWillMount" ltac:(rewrite patched_hooks_spec; by left)) as (_ & lf & R).
  cbv zeta. exists lf. exact R.
Defined.

(** The object at 12 has no [render]: mounting it raises and changes nothing. *)
Lemma componentWillMount_needs_a_render_witness :
  componentWillMount (demo_call 1) (VObject 12) demo_world = (Exc TypeError, demo_world).
Proof.
  exact (componentWillMount_needs_a_render (X := demo_host) demo_world 0 12
           ltac:(vm_compute; reflexivity) ltac:(vm_compute; reflexivity)
           ltac:(vm_compute; reflexivity)).
Defined.

(** A second render of the example instance returns what the user's
    [render] returns. *)
Lemma reactive_render_witness :
  fst (demo_call 5 (read_field rendered_once 10 "render") VUndefined [] rendered_once)
  = Ret (VString "rendered").
Proof.
  pose proof (reactive_render_returns_the_users_rendering (X := demo_host) rendered_once 0
                10 21 25 23 0 VUndefined []
                demo_tracking demo_rendering_reactively demo_renders_with
                ltac:(vm_compute; lia) ltac:(vm_compute; lia)) as W.
  cbv zeta in W. destruct W as (R & _). exact R.
Defined.

(** With the devtools on, a render between the readings 100 and 130. *)
Lemma render_times_witness :
  read_field timed_world 10 "__$mobRenderStart" = VNumber 100 /\
  read_field timed_world 10 "__$mobRenderEnd" = VNumber 130.
Proof.
  pose proof (render_times_are_recorded (X := dom_host) devtools_world 0 10 21 25 0
                ltac:(split; vm_compute; reflexivity)
                ltac:(exists 20, 11; vm_compute; reflexivity)
                ltac:(vm_compute; lia) ltac:(vm_compute; lia)) as W.
  cbv zeta in W. destruct W as (S & E). split.
  - unfold timed_world. rewrite S. vm_compute. reflexivity.
  - unfold timed_world. rewrite E. vm_compute. reflexivity.
Defined.

(** The report after that render: a render time of 30, for the node at
    40, under which the instance is registered. *)
Lemma rendering_is_reported_witness :
  let w' := snd (componentDidUpdate (X := dom_host) (VObject 10) timed_world) in
  trace w'
  = (trace timed_world ++ [EEmit [("event", VString "render");
                                  ("renderTime", VNumber 30);
                                  ("totalTime", VNumber 30);
                                  ("component", VObject 10);
                                  ("node", VObject 40)]])%list /\
  registered w' 40 = Some (VObject 10).
Proof.
  pose proof (rendering_is_reported (X := dom_host) timed_world 10 (VObject 40)
                ltac:(vm_compute; reflexivity) ltac:(intros _; exists 40; reflexivity)) as W.
  cbv zeta in W. destruct W as (_ & _ & _ & D).
  destruct (D ltac:(vm_compute; reflexivity)) as (T & _ & R & _).
  cbv zeta. split.
  - rewrite T. vm_compute. reflexivity.
  - apply (R 40); [reflexivity|]. vm_compute. discriminate.
Defined.

(** Mounted, then unmounted: the node at 40 is registered, then not. *)
Lemma registry_witness :
  let w1 := snd (componentDidMount (X := dom_host) (VObject 10) devtools_world) in
  let w2 := snd (componentWillUnmount (X := dom_host) (call (X := dom_host) 1) (VObject 10) w1) in
  registered w1 40 = Some (VObject 10) /\ registered w2 40 = None.
Proof.
  pose proof (registry_follows_the_lifecycle (X := dom_host) devtools_world 0 10 21 25 23 40
                dom_find
                ltac:(reflexivity) ltac:(reflexivity) ltac:(intros h; reflexivity)
                ltac:(vm_compute; discriminate)
                ltac:(split; vm_compute; reflexivity)
                ltac:(split; vm_compute; reflexivity)
                ltac:(vm_compute; reflexivity)) as W.
  cbv zeta in W. destruct W as (R1 & R2 & _). exact (conj R1 R2).
Defined.

(** The first render of the example instance: the reaction at 25 is
    named after an instance without a name and without a root node id. *)
Lemma first_render_witness :
  trace rendered_once
  = [ENewReaction (VObject 25) "<component>#undefined.render()";
     ETrack (VObject 25); ECall 0 (VObject 10) []] /\
  read_field rendered_once 25 "name" = VString "<component>#undefined.render()".
Proof.
  pose proof (first_render_creates_the_reaction (X := demo_host) demo_world 0 10 11 0
                (VObject 10) []
                ltac:(vm_compute; reflexivity) ltac:(vm_compute; reflexivity)
                ltac:(vm_compute; lia)) as W.
  cbv zeta in W. destruct W as (_ & T & _ & _ & N & _).
  split; [exact T|exact N].
Defined.

(** The hook of [throwing_hook_world] throws: no update is forced, and
    three more invalidations change nothing. *)
Lemma componentWillReact_failure_witness :
  let handler := onInvalidate (X := demo_host) (demo_call 1) 21 in
  let w' := snd (handler throwing_hook_world) in
  fst (handler throwing_hook_world) = Exc (Raised (VString "failed")) /\
  forced_updates (trace w') = 0 /\
  deliver 3 handler w' = w'.
Proof.
  pose proof (componentWillReact_failure_blocks_updates (X := demo_host) throwing_hook_world 0
                10 21 15 3 (Raised (VString "failed")) 3
                ltac:(vm_compute; reflexivity) ltac:(vm_compute; reflexivity)
                ltac:(vm_compute; reflexivity) ltac:(vm_compute; reflexivity)) as W.
  cbv zeta in W. destruct W as (O & _ & T & _ & D).
  cbv zeta. split; [exact O|]. split; [|exact D].
  change (demo_call 1) with (call (X := demo_host) 1).
  rewrite T. vm_compute. reflexivity.
Defined.


(** After [useStaticRendering(true)] the example instance is not mounted. *)
Lemma static_rendering_needs_true_witness :
  componentWillMount (demo_call 1) (VObject 10)
                     (snd (useStaticRendering (VBool true) demo_world))
  = (Ret VUndefined, snd (useStaticRendering (VBool true) demo_world)).
Proof.
  pose proof (static_rendering_needs_true (X := demo_host) demo_world 1 10 11 (CNative 0)
                (VBool true) VUndefined VUndefined ltac:(vm_compute; reflexivity)) as W.
  cbv zeta in W. destruct W as (_ & M & _).
  apply M. reflexivity.
Defined.

(** The class builders of the example host allocate and do nothing else. *)
Lemma demo_createClass_keeps spec (w : World nat) : kept w (snd (demo_createClass spec w)).
Proof.
  destruct spec as [| | | | |s|s c]; try apply kept_refl. simpl.
  apply kept_frame; try done; [simpl; lia|].
  intros l Hl. unfold read_field, obj_at. simpl.
  rewrite !lookup_insert_ne by lia. done.
Qed.

Lemma demo_inject_keeps storeNames (w : World nat) : kept w (snd (demo_inject storeNames w)).
Proof. apply kept_refl. Qed.

(** The example instance, unmounted and then rendered again by the
    host: still unmounted, its reaction still disposed. *)
Lemma unmounted_and_disposed_witness :
  let w1 := snd (componentWillUnmount (X := demo_host) (demo_call 1) (VObject 10) rendered_once) in
  let w2 := snd (demo_call 5 (read_field w1 10 "render") (VObject 10) [] w1) in
  is_unmounted w2 10 = true /\ is_disposed w2 25 = true.
Proof.
  cbv zeta.
  set (w1 := snd (componentWillUnmount (X := demo_host) (demo_call 1) (VObject 10) rendered_once)).
  pose proof (unmounted_and_disposed_are_final (X := demo_host) 5 (read_field w1 10 "render")
                (VObject 10) [] w1 10 demo_createClass_keeps demo_inject_keeps
                ltac:(vm_compute; lia)) as U.
  pose proof (unmounted_and_disposed_are_final (X := demo_host) 5 (read_field w1 10 "render")
                (VObject 10) [] w1 25 demo_createClass_keeps demo_inject_keeps
                ltac:(vm_compute; lia)) as D.
  cbv zeta in U, D. split.
  - apply U. vm_compute. reflexivity.
  - apply D. vm_compute. reflexivity.
Defined.

(** Mounting and rendering the example instance emits no report. *)
Lemma no_report_witness :
  emits (trace (snd (demo_call 6 (read_field mounted 10 "render") (VObject 10) [] mounted)))
  = emits (trace mounted).
Proof.
  pose proof (no_report_while_the_devtools_are_off (X := demo_host) 6
                (read_field mounted 10 "render") (VObject 10) [] mounted
                demo_createClass_keeps demo_inject_keeps
                ltac:(vm_compute; reflexivity)) as W.
  cbv zeta in W. destruct W as (E & _). exact E.
Defined.

(** [observer] on the class at 13, called as a function value, leaves
    the switches alone. *)
Lemma switches_witness :
  isDevtoolsEnabled (snd (demo_call 2 observer_fn VUndefined [VFunction 13 (CNative 6)] demo_world))
  = false.
Proof.
  pose proof (calls_leave_the_switches (X := demo_host) 2 observer_fn VUndefined
                [VFunction 13 (CNative 6)] demo_world
                demo_createClass_keeps demo_inject_keeps) as W.
  cbv zeta in W. destruct W as (D & _). exact D.
Defined.

(** On the host whose forced update throws: the reaction at 25 is
    disposed, and still disposed after the host rendered the instance
    once more. *)
Lemma forced_update_failure_witness :
  let w' := snd (onInvalidate (X := failing_host) (failing_call 1) 21 rendered_once) in
  let w'' := after_calls (X := failing_host)
               [(5, read_field w' 10 "render", VObject 10, [])] w' in
  is_disposed w' 25 = true /\ is_disposed w'' 25 = true.
Proof.
  pose proof (forced_update_failure_is_terminal (X := failing_host) rendered_once 0 1 10 21 25
                reacted (Raised (VString "render failed"))
                [(5, read_field (snd (onInvalidate (X := failing_host) (failing_call 1) 21
                                                   rendered_once)) 10 "render",
                  VObject 10, [])]
                demo_createClass_keeps demo_inject_keeps
                demo_tracking ltac:(vm_compute; lia)
                ltac:(vm_compute; reflexivity) ltac:(vm_compute; reflexivity)
                demo_reacted ltac:(vm_compute; reflexivity)) as W.
  cbv zeta in W. destruct W as (_ & D & D' & _).
  exact (conj D D').
Defined.



(** Mounting the example instance: [render] is replaced, the props stay. *)
Lemma mounting_witness :
  read_field mounted 10 "props" = VObject 12 /\ trace mounted = [].
Proof.
  pose proof (mounting_replaces_render_only (X := demo_host) demo_world 1 10 11 (CNative 0)
                ltac:(vm_compute; reflexivity) ltac:(vm_compute; reflexivity)) as W.
  cbv zeta in W. destruct W as (_ & K & T & _).
  split.
  - unfold mounted.
    change (demo_call 1) with (call (X := demo_host) 1).
    rewrite (K 10 "props" ltac:(vm_compute; lia) ltac:(right; discriminate)).
    vm_compute. reflexivity.
  - exact T.
Defined.

(** [a] changes before the empty key and [b] stays after it: only [b]
    is compared, and the gate answers "skip". *)
Lemma update_gate_empty_key_witness :
  shouldComponentUpdate (X := demo_host) (VObject 30) (VObject 32) VNull hidden_change_world
  = (Ret (VBool false), hidden_change_world).
Proof.
  exact (update_gate_stops_at_an_empty_key (X := demo_host) hidden_change_world 30 31 32 VNull
           ["a"] ["b"]
           ltac:(vm_compute; reflexivity) ltac:(vm_compute; reflexivity)
           ltac:(repeat constructor; discriminate)
           ltac:(vm_compute; reflexivity) ltac:(vm_compute; reflexivity)).
Defined.

(** The object at 12 has no [render]: unmounting it raises and sets no flag. *)
Lemma componentWillUnmount_needs_a_render_witness :
  componentWillUnmount (X := demo_host) (demo_call 1) (VObject 12) demo_world
  = (Exc TypeError, demo_world).
Proof.
  exact (componentWillUnmount_needs_a_render (X := demo_host) demo_world 1 12
           ltac:(vm_compute; reflexivity) ltac:(vm_compute; reflexivity)).
Defined.

(** The class at 13 decorated, and the hook of its prototype called on
    the example instance: the user's hook (function 2) is entered, then
    the render is wrapped. *)
Lemma decorated_mount_witness :
  let w1 := snd (observer (X := demo_host) (demo_call 1) (VFunction 13 (CNative 6)) VUndefined
                          demo_world) in
  let run := demo_call 2 (read_field w1 14 "componentWillMount") (VObject 10) [] w1 in
  fst run = Ret VUndefined /\
  trace (snd run) = (trace w1 ++ [ECall 2 (VObject 10) []])%list.
Proof.
  pose proof (decorated_mount_runs_the_users_hook_first (X := demo_host) demo_world 1 0
                (VFunction 13 (CNative 6)) 13 VUndefined (VObject 14) 14 17 2
                (snd (observer (X := demo_host) (demo_call 1) (VFunction 13 (CNative 6))
                               VUndefined demo_world))
                10 11 (CNative 0) []
                ltac:(reflexivity) ltac:(reflexivity)
                ltac:(vm_compute; reflexivity) ltac:(vm_compute; reflexivity)
                ltac:(reflexivity) ltac:(vm_compute; lia)
                ltac:(vm_compute; reflexivity) ltac:(vm_compute; reflexivity)
                ltac:(vm_compute; reflexivity)) as W.
  cbv zeta in W. destruct W as (T & M).
  change (fst (native (Host := demo_host) 2 (VObject 10) []
                 (host (snd (observer (X := demo_host) (demo_call 1)
                                      (VFunction 13 (CNative 6)) VUndefined demo_world)))))
    with (@Returns value VUndefined) in M.
  cbv beta iota in M. destruct M as (R & _).
  cbv zeta. exact (conj R T).
Defined.
